(** * HOMIES WWE BOT: the match state machine of [main.py]

    A shallow embedding of the webhook handler of [src/main.py] and of the
    functions it calls ([ensure_user], [start_match_sync],
    [resolve_turn_sync]), followed by the properties of the lobby, move
    and settlement logic.

    Conventions of the embedding.
    - Python [int] is [Z].  A Python [str] that the code only compares,
      splits at ["|"] or uses as a key (arena ids, move names, callback
      data) is a [string].  A [str] whose characters the code looks at (the
      text of a private message and the ring names made from it: [len],
      [strip], [lower], [startswith]) is a [pystr], the list of its code
      points, so that [length] is Python's [len].
    - [str.lower] and the white-space test of [str.strip] are tables of the
      Python runtime, not of [main.py]: the handler is defined, and its
      properties proved, for every [Runtime], that is for every [lower]
      and every [isspace].  The examples are run with the two as they are
      on the characters the examples use ([example_runtime]).
    - [user_stats] is keyed by [str(uid)]; [str] is injective on integers,
      so the map is keyed by the integer itself.
    - [lobbies] is a [gmap]; [games] is an insertion-ordered association
      list, because the forfeit handler scans [games.items()] in
      insertion order and stops at the first hit.
    - The per-player dictionaries of a game ([hp], [specials_left], ...)
      always have exactly the two keys [str(p1)] and [str(p2)], written
      once by [start_match_sync]; they are pairs, indexed by the position
      of the player in [players].
    - Chat traffic (texts, keyboards, message ids, sleeps) is not state of
      the game; each handler branch is recorded by the [reply] it produces.
    - [stats_file] is the dictionary last handed to [save_stats_file].
    - An exception raised inside the handler is caught by its outer
      [try]: the handler returns with the state as mutated so far.  The two
      places where that can happen after a mutation are modelled
      ([report_raises] and the winner announcement).
    - The reachable states are those the handler reaches, update after
      update, from empty dictionaries ([run initial_state updates]). *)

From Stdlib Require Import ZArith String Ascii List Bool Lia.
From stdpp Require Import base option gmap strings list fin_maps.

Local Open Scope string_scope.
Local Open Scope Z_scope.

(** ** Game constants *)

Definition MAX_HP : Z := 200.
Definition MAX_SPECIALS_PER_MATCH : Z := 4.
Definition MAX_REVERSALS_PER_MATCH : Z := 3.
Definition MAX_NAME_LENGTH : nat := 16.

(** ** Insertion-ordered dictionaries with string keys *)

Section Dict.
Context {V : Type}.

(** [d.get(k)] *)
Fixpoint dict_get (k : string) (d : list (string * V)) : option V :=
  match d with
  | [] => None
  | (k', v) :: rest => if String.eqb k k' then Some v else dict_get k rest
  end.

(** [d[k] = v]: an existing key keeps its position, a new key goes last. *)
Fixpoint dict_set (k : string) (v : V) (d : list (string * V)) : list (string * V) :=
  match d with
  | [] => [(k, v)]
  | (k', v') :: rest =>
      if String.eqb k k' then (k', v) :: rest else (k', v') :: dict_set k v rest
  end.

(** [d.pop(k, None)] *)
Fixpoint dict_pop (k : string) (d : list (string * V)) : list (string * V) :=
  match d with
  | [] => []
  | (k', v') :: rest =>
      if String.eqb k k' then rest else (k', v') :: dict_pop k rest
  end.
End Dict.

(** [MOVES]: move name to its ["dmg"] entry. *)
Definition MOVES : list (string * Z) :=
  [ ("punch", 5); ("kick", 15); ("slam", 25); ("dropkick", 30);
    ("suplex", 45); ("rko", 55); ("reversal", 0) ].

(** [damage_of]: [MOVES.get(move_name, {}).get("dmg", 0)]; the argument is
    whatever [move_choice] holds, [None] included. *)
Definition damage_of (move_name : option string) : Z :=
  match move_name with
  | None => 0
  | Some s => default 0 (dict_get s MOVES)
  end.

(** ** Python values and tests on them *)

(** [m == s] for [m] a string or [None]. *)
Definition py_eq (m : option string) (s : string) : bool :=
  match m with
  | Some x => String.eqb x s
  | None => false
  end.

(** [m in ("suplex", "rko")] *)
Definition is_special (m : option string) : bool :=
  py_eq m "suplex" || py_eq m "rko".

(** Truth value of a string or [None]: only a non-empty string is true. *)
Definition truthy (m : option string) : bool :=
  match m with
  | Some x => negb (String.eqb x "")
  | None => false
  end.

(** A [str] read character by character: its code points, in order. *)
Definition pystr : Type := list N.

(** The [pystr] of a literal: one code point per character, the code of
    the character. *)
Definition pystr_of (s : string) : pystr :=
  N_of_ascii <$> list_ascii_of_string s.

(** Truth value of a [pystr] or [None]. *)
Definition truthy_text (m : option pystr) : bool :=
  match m with
  | Some x => negb (bool_decide (x = []))
  | None => false
  end.

(** The value under the key ["name"] of a stats record: the key can be
    missing (a record made by [setdefault(uid, {})]), hold [None] (a
    record made by [ensure_user]) or hold a string. *)
Inductive pyname : Type :=
| Missing
| PyNone
| Name (s : pystr).

(** [info.get("name")] *)
Definition get_name (n : pyname) : option pystr :=
  match n with
  | Name s => Some s
  | _ => None
  end.

(** ** The text of a message: [strip], [lower], [startswith] *)

(** The two tables of the Python runtime that the registration consults:
    [s.lower()], and [c.isspace()], the characters that [s.strip()]
    removes at both ends. *)
Class Runtime : Type := {
  lower : pystr -> pystr;
  isspace : N -> bool
}.

(** [str.lower] and [str.isspace] on the characters of the examples:
    [lower] sends A-Z to a-z and U+0130 (capital I with dot above) to the
    two code points U+0069 U+0307, and keeps every other ASCII character
    and U+0307; the ASCII white space is 9-13 and 28-32, and neither
    U+0130 nor U+0307 is white space. *)
Definition example_lower_char (c : N) : pystr :=
  (if (65 <=? c) && (c <=? 90) then [c + 32]
   else if c =? 304 then [105; 775]
   else [c])%N.

Definition example_lower (s : pystr) : pystr :=
  flat_map example_lower_char s.

Definition example_isspace (c : N) : bool :=
  (((9 <=? c) && (c <=? 13)) || ((28 <=? c) && (c <=? 32)))%N.

Definition example_runtime : Runtime :=
  {| lower := example_lower; isspace := example_isspace |}.

(** Sixteen times U+0130, and sixteen times U+0069 U+0307: the second is
    what [lower()] makes of the first. *)
Definition capital_dotted : pystr := repeat 304%N 16.

Definition small_dotted : pystr := concat (repeat [105; 775]%N 16).

Section Handler.
Context {runtime : Runtime}.

Fixpoint lstrip (s : pystr) : pystr :=
  match s with
  | [] => []
  | c :: rest => if isspace c then lstrip rest else s
  end.

Fixpoint rstrip (s : pystr) : pystr :=
  match s with
  | [] => []
  | c :: rest =>
      match rstrip rest with
      | [] => if isspace c then [] else [c]
      | r => c :: r
      end
  end.

(** [s.strip()] *)
Definition strip (s : pystr) : pystr := rstrip (lstrip s).

(** [text.startswith("/")] *)
Definition starts_with_slash (s : pystr) : bool :=
  match s with
  | c :: _ => (c =? 47)%N
  | [] => false
  end.

(** ** Data model *)

(** One entry of [user_stats].  A counter that is missing from the Python
    dictionary is read as 0 everywhere ([get(k, 0)], or a [setdefault(k, 0)]
    just before the read), so a counter is its value with 0 for missing. *)
Record user : Type := mk_user {
  name : pyname;
  wins : Z;
  losses : Z;
  draws : Z;
  specials_used : Z;
  specials_successful : Z
}.

(** One entry of [lobbies]; only ["host"] is ever read. *)
Record lobby : Type := mk_lobby { host : Z }.

(** One entry of [games]. *)
Record game : Type := mk_game {
  players : Z * Z;
  hp : Z * Z;
  specials_left : Z * Z;
  reversals_left : Z * Z;
  last_move : option string * option string;
  move_choice : option string * option string
}.

(** The three module-level dictionaries, and the content of the stats
    file as of the last [save_stats_file(STATS_FILE, user_stats)]. *)
Record state : Type := mk_state {
  user_stats : gmap Z user;
  lobbies : gmap string lobby;
  games : list (string * game);
  stats_file : gmap Z user
}.

Definition initial_state : state :=
  {| user_stats := ∅; lobbies := ∅; games := []; stats_file := ∅ |}.

(** ** Stats records *)

(** The record [ensure_user] stores for a new identity. *)
Definition new_user : user :=
  {| name := PyNone; wins := 0; losses := 0; draws := 0;
     specials_used := 0; specials_successful := 0 |}.

(** The empty dictionary of [user_stats.setdefault(uid, {})] and of
    [user_stats.get(uid, {})]. *)
Definition empty_user : user :=
  {| name := Missing; wins := 0; losses := 0; draws := 0;
     specials_used := 0; specials_successful := 0 |}.

Definition ensure_user (uid : Z) (us : gmap Z user) : gmap Z user :=
  match us !! uid with
  | Some _ => us
  | None => <[uid := new_user]> us
  end.

(** [user_stats.get(uid, {})] *)
Definition stats_of (uid : Z) (us : gmap Z user) : user :=
  default empty_user (us !! uid).

Definition set_name (s : pystr) (u : user) : user :=
  {| name := Name s; wins := wins u; losses := losses u; draws := draws u;
     specials_used := specials_used u;
     specials_successful := specials_successful u |}.

Definition add_win (u : user) : user :=
  {| name := name u; wins := wins u + 1; losses := losses u; draws := draws u;
     specials_used := specials_used u;
     specials_successful := specials_successful u |}.

Definition add_loss (u : user) : user :=
  {| name := name u; wins := wins u; losses := losses u + 1; draws := draws u;
     specials_used := specials_used u;
     specials_successful := specials_successful u |}.

Definition add_draw (u : user) : user :=
  {| name := name u; wins := wins u; losses := losses u; draws := draws u + 1;
     specials_used := specials_used u;
     specials_successful := specials_successful u |}.

(** A special was used; [ok] says whether the opponent took damage. *)
Definition add_special (ok : bool) (u : user) : user :=
  {| name := name u; wins := wins u; losses := losses u; draws := draws u;
     specials_used := specials_used u + 1;
     specials_successful :=
       if ok then specials_successful u + 1 else specials_successful u |}.

(** [user_stats.setdefault(uid, {})] followed by an update of the record. *)
Definition bump (f : user -> user) (uid : Z) (us : gmap Z user) : gmap Z user :=
  <[uid := f (stats_of uid us)]> us.

(** [uid in user_stats and user_stats[uid].get("name")] is true. *)
Definition registered (uid : Z) (us : gmap Z user) : bool :=
  match us !! uid with
  | Some info => truthy_text (get_name (name info))
  | None => false
  end.

(** ** Round resolution *)

(** [dmg_to]: the damage dealt to (p1, p2), built by the four conditional
    updates of [resolve_turn_sync]. *)
Definition dmg_to (m1 m2 : option string) : Z * Z :=
  let d := (0, 0) in
  (* reversal logic *)
  let d := if py_eq m1 "reversal" && negb (py_eq m2 "reversal")
           then (fst d, snd d + damage_of m2) else d in
  let d := if py_eq m2 "reversal" && negb (py_eq m1 "reversal")
           then (fst d + damage_of m1, snd d) else d in
  (* normal damage unless reversed *)
  let d := if negb (py_eq m2 "reversal" && negb (py_eq m1 "reversal"))
           then (fst d, snd d + damage_of m1) else d in
  let d := if negb (py_eq m1 "reversal" && negb (py_eq m2 "reversal"))
           then (fst d + damage_of m2, snd d) else d in
  d.

(** How a call of [resolve_turn_sync] ends. *)
Inductive resolution : Type :=
| NoGame                      (* no game under the key: return at once *)
| Raised                      (* an AttributeError while a message was formatted *)
| Draw                        (* double KO *)
| Ko (winner loser : Z)       (* one player at 0 *)
| NextRound.                  (* both standing: choices reset, new prompt *)

(** [m is None] *)
Definition is_None (m : option string) : bool :=
  match m with
  | None => true
  | Some _ => false
  end.

(** The result lines call [m.capitalize()] on the reversed move; that
    raises when the move is [None]. *)
Definition report_raises (m1 m2 : option string) : bool :=
  (py_eq m1 "reversal" && negb (py_eq m2 "reversal") && is_None m2)
  || (py_eq m2 "reversal" && negb (py_eq m1 "reversal") && is_None m1).

(** The in-place updates [resolve_turn_sync] makes to the game dictionary
    before it reports the round: the new hit points, the bookkeeping of
    specials and reversals, and [last_move]. *)
Definition settle_round (g : game) : game :=
  let '(m1, m2) := move_choice g in
  let d := dmg_to m1 m2 in
  let new1 := Z.max 0 (fst (hp g) - fst d) in
  let new2 := Z.max 0 (snd (hp g) - snd d) in
  let sp1 := if is_special m1 then Z.max 0 (fst (specials_left g) - 1)
             else fst (specials_left g) in
  let sp2 := if is_special m2 then Z.max 0 (snd (specials_left g) - 1)
             else snd (specials_left g) in
  let rv1 := if py_eq m1 "reversal" then Z.max 0 (fst (reversals_left g) - 1)
             else fst (reversals_left g) in
  let rv2 := if py_eq m2 "reversal" then Z.max 0 (snd (reversals_left g) - 1)
             else snd (reversals_left g) in
  {| players := players g; hp := (new1, new2);
     specials_left := (sp1, sp2); reversals_left := (rv1, rv2);
     last_move := (m1, m2); move_choice := (m1, m2) |}.

(** The updates of [specials_used] and [specials_successful] in the same
    block: a special counts as successful when the opponent took damage. *)
Definition special_stats (g : game) (us : gmap Z user) : gmap Z user :=
  let '(p1, p2) := players g in
  let '(m1, m2) := move_choice g in
  let d := dmg_to m1 m2 in
  let us := if is_special m1 then bump (add_special (0 <? snd d)) p1 us else us in
  let us := if is_special m2 then bump (add_special (0 <? fst d)) p2 us else us in
  us.

(** [game["move_choice"][p1s] = None; game["move_choice"][p2s] = None] *)
Definition clear_choices (g : game) : game :=
  {| players := players g; hp := hp g;
     specials_left := specials_left g; reversals_left := reversals_left g;
     last_move := last_move g; move_choice := (None, None) |}.

(** [resolve_turn_sync].  The game dictionary is mutated in place (it keeps
    its key and position in [games]) and removed by [games.pop] on a KO or
    a draw.  The announcement of the winner calls [.upper()] on the
    winner's name: with the value [None] under ["name"] it raises, after
    the counters were incremented and saved and before the game is
    removed. *)
Definition resolve_turn_sync (group_id : string) (st : state) : state * resolution :=
  match dict_get group_id (games st) with
  | None => (st, NoGame)
  | Some game =>
      let '(p1, p2) := players game in
      let '(m1, m2) := move_choice game in
      let game1 := settle_round game in
      let us := special_stats game (user_stats st) in
      if report_raises m1 m2 then
        ({| user_stats := us; lobbies := lobbies st;
            games := dict_set group_id game1 (games st);
            stats_file := stats_file st |}, Raised)
      else
      (* save stats quickly: from here on every exit has saved [user_stats] *)
      (* KO / draw logic *)
      let p1_dead := fst (hp game1) =? 0 in
      let p2_dead := snd (hp game1) =? 0 in
      if p1_dead && p2_dead then
        let us := bump add_draw p2 (bump add_draw p1 us) in
        ({| user_stats := us; lobbies := lobbies st;
            games := dict_pop group_id (games st);
            stats_file := us |}, Draw)
      else if p1_dead || p2_dead then
        let winner := if p1_dead then p2 else p1 in
        let loser := if p1_dead then p1 else p2 in
        let us := bump add_loss loser (bump add_win winner us) in
        match name (stats_of winner us) with
        | PyNone =>
            ({| user_stats := us; lobbies := lobbies st;
                games := dict_set group_id game1 (games st);
                stats_file := us |}, Raised)
        | _ =>
            ({| user_stats := us; lobbies := lobbies st;
                games := dict_pop group_id (games st);
                stats_file := us |}, Ko winner loser)
        end
      else
        (* else prepare next round *)
        ({| user_stats := us; lobbies := lobbies st;
            games := dict_set group_id (clear_choices game1) (games st);
            stats_file := us |}, NextRound)
  end.

(** The game dictionary [start_match_sync] builds. *)
Definition fresh_game (p1 p2 : Z) : game :=
  {| players := (p1, p2);
     hp := (MAX_HP, MAX_HP);
     specials_left := (MAX_SPECIALS_PER_MATCH, MAX_SPECIALS_PER_MATCH);
     reversals_left := (MAX_REVERSALS_PER_MATCH, MAX_REVERSALS_PER_MATCH);
     last_move := (None, None);
     move_choice := (None, None) |}.

(** [start_match_sync]: [games[group_id] = {...}]. *)
Definition start_match_sync (group_id : string) (p1 p2 : Z) (st : state) : state :=
  {| user_stats := user_stats st;
     lobbies := lobbies st;
     games := dict_set group_id (fresh_game p1 p2) (games st);
     stats_file := stats_file st |}.

(** ** The webhook handler *)

(** An inbound update, after [webhook_receiver] has taken it apart: the
    chat type and command of a message, or the fields of the callback
    data split at ["|"].  Updates that match no branch, or whose callback
    data does not parse, change nothing and are not events. *)
Inductive lobby_action : Type := join | cancel_lobby.

Inductive event : Type :=
| PrivateMessage (user_id : Z) (text : pystr)
| StartGame (chat_id : string) (user_id : Z)        (* group: /startgame *)
| EndMatch (chat_id : string) (user_id : Z)         (* group: /endmatch *)
| LobbyCallback (action : lobby_action) (gid : string) (host_id : Z) (user_id : Z)
| MoveCallback (gid : string) (move : string) (user_id : Z)
| ConfirmEnd (gid : string) (choice : string) (user_id : Z)
| ForfeitYes (user_id : Z)
| ForfeitNo (user_id : Z).

Inductive blocked_reason : Type :=
| SpecialCooldown      (* Can't use special back-to-back (cooldown). *)
| NoSpecialsLeft       (* No specials left. *)
| ReversalCooldown     (* Can't use reversal back-to-back (cooldown). *)
| NoReversalsLeft.     (* No reversals left. *)

(** The branch of the handler that answered, named as in the error
    taxonomy of the specification. *)
Inductive reply : Type :=
| NameInvalid                               (* empty, or longer than 16 *)
| NameTaken
| Registered (nm : pystr)
| DmOther                                   (* DM command or fallback text *)
| NotRegistered
| ArenaBusy
| LobbyOpened
| NoActiveMatch
| NotAParticipant
| EndMatchPrompt
| NoSuchLobby                               (* This lobby no longer exists *)
| NotHost
| LobbyCancelled
| SelfJoin
| MatchStarted
| AlreadyChosen
| MoveBlocked (reason : blocked_reason)
| MoveRecorded (resolved : option resolution)
| MatchEnded
| Canceled
| Forfeited (gid : string)
| NotInMatch.

(** [user_id in game["players"]] *)
Definition in_players (user_id : Z) (g : game) : bool :=
  (user_id =? fst (players g)) || (user_id =? snd (players g)).

(** [d[str(user_id)]] for a per-player dictionary of the game. *)
Definition slot {A : Type} (g : game) (user_id : Z) (d : A * A) : A :=
  if user_id =? fst (players g) then fst d else snd d.

(** [d[str(user_id)] = v] *)
Definition set_slot {A : Type} (g : game) (user_id : Z) (v : A) (d : A * A) : A * A :=
  if user_id =? fst (players g) then (v, snd d) else (fst d, v).

(** The other player of the game. *)
Definition opponent (g : game) (user_id : Z) : Z :=
  if fst (players g) =? user_id then snd (players g) else fst (players g).

(** The uniqueness check of the registration: some other key holds a true
    name equal to [nm] after [lower()]. *)
Definition holds_name (uid : Z) (nm : pystr) (entry : Z * user) : bool :=
  negb (fst entry =? uid)
  && truthy_text (get_name (name (snd entry)))
  && bool_decide (lower (default [] (get_name (name (snd entry)))) = lower nm).

Definition name_taken (uid : Z) (nm : pystr) (us : gmap Z user) : bool :=
  existsb (holds_name uid nm) (map_to_list us).

(** The registration block of the private flow: the text of a user without
    a name is taken as the name. *)
Definition register (uid : Z) (text : pystr) (us : gmap Z user) : gmap Z user * reply :=
  let nm := strip text in
  if bool_decide (nm = []) then (us, NameInvalid)
  else if (MAX_NAME_LENGTH <? length nm)%nat then (us, NameInvalid)
  else if name_taken uid nm us then (us, NameTaken)
  else (<[uid := set_name nm (stats_of uid us)]> us, Registered nm).

(** The move validation of the move callback. *)
Definition blocked (g : game) (user_id : Z) (move : string) : option blocked_reason :=
  let last := slot g user_id (last_move g) in
  let blocked_reason := None in
  let blocked_reason :=
    if is_special (Some move) then
      if is_special last then Some SpecialCooldown
      else if slot g user_id (specials_left g) <=? 0 then Some NoSpecialsLeft
      else blocked_reason
    else blocked_reason in
  let blocked_reason :=
    if py_eq (Some move) "reversal" then
      if py_eq last "reversal" then Some ReversalCooldown
      else if slot g user_id (reversals_left g) <=? 0 then Some NoReversalsLeft
      else blocked_reason
    else blocked_reason in
  blocked_reason.

(** The scan of the forfeit handler: the first game, in the order of
    [games.items()], that has the user among its players. *)
Fixpoint find_match (user_id : Z) (items : list (string * game)) : option (string * game) :=
  match items with
  | [] => None
  | (gid, g) :: rest =>
      if in_players user_id g then Some (gid, g) else find_match user_id rest
  end.

Definition with_users (st : state) (us : gmap Z user) : state :=
  {| user_stats := us; lobbies := lobbies st; games := games st;
     stats_file := stats_file st |}.

Definition with_lobbies (st : state) (ls : gmap string lobby) : state :=
  {| user_stats := user_stats st; lobbies := ls; games := games st;
     stats_file := stats_file st |}.

Definition with_games (st : state) (gs : list (string * game)) : state :=
  {| user_stats := user_stats st; lobbies := lobbies st; games := gs;
     stats_file := stats_file st |}.

(** [save_stats_file(STATS_FILE, user_stats)] *)
Definition save_stats (st : state) : state :=
  {| user_stats := user_stats st; lobbies := lobbies st; games := games st;
     stats_file := user_stats st |}.

(** [ensure_user] as the handler runs it: a new record is saved at once. *)
Definition ensure_user_sync (uid : Z) (st : state) : state :=
  match user_stats st !! uid with
  | Some _ => st
  | None => save_stats (with_users st (ensure_user uid (user_stats st)))
  end.

(** [game["move_choice"][pstr] = move] *)
Definition record_move (g : game) (user_id : Z) (move : string) : game :=
  {| players := players g; hp := hp g;
     specials_left := specials_left g; reversals_left := reversals_left g;
     last_move := last_move g;
     move_choice := set_slot g user_id (Some move) (move_choice g) |}.

(** The loss of [user_id] and the win of the other player of [g], then
    [games.pop(gid)]: the settlement shared by the two ways of giving up. *)
Definition concede_match (gid : string) (g : game) (user_id : Z) (st : state) : state :=
  let opp := opponent g user_id in
  let us := bump add_loss user_id (bump add_win opp (user_stats st)) in
  {| user_stats := us; lobbies := lobbies st;
     games := dict_pop gid (games st);
     stats_file := us |}.

Definition webhook_receiver (st : state) (update : event) : state * reply :=
  match update with
  (* PRIVATE (DM) flows *)
  | PrivateMessage user_id text =>
      let st := ensure_user_sync user_id st in
      if negb (truthy_text (get_name (name (stats_of user_id (user_stats st)))))
         && negb (bool_decide (text = [])) && negb (starts_with_slash text)
      then
        match register user_id text (user_stats st) with
        | (us, Registered nm) => (save_stats (with_users st us), Registered nm)
        | (_, r) => (st, r)
        end
      else (st, DmOther)
  (* GROUP flows *)
  | StartGame chat_id user_id =>
      if negb (registered user_id (user_stats st)) then (st, NotRegistered)
      else if bool_decide (is_Some (dict_get chat_id (games st))) then (st, ArenaBusy)
      else if bool_decide (is_Some (lobbies st !! chat_id)) then (st, ArenaBusy)
      else (with_lobbies st (<[chat_id := {| host := user_id |}]> (lobbies st)),
            LobbyOpened)
  | EndMatch chat_id user_id =>
      match dict_get chat_id (games st) with
      | None => (st, NoActiveMatch)
      | Some g =>
          if negb (in_players user_id g) then (st, NotAParticipant)
          else (st, EndMatchPrompt)
      end
  (* lobby callbacks: join|gid|host_id and cancel_lobby|gid|host_id *)
  | LobbyCallback action gid host_id user_id =>
      match lobbies st !! gid with
      | Some l =>
          if negb (host l =? host_id) then
            (save_stats (with_lobbies st (delete gid (lobbies st))), NoSuchLobby)
          else
            match action with
            | cancel_lobby =>
                if negb (user_id =? host_id) then (st, NotHost)
                else (save_stats (with_lobbies st (delete gid (lobbies st))),
                      LobbyCancelled)
            | join =>
                if user_id =? host_id then (st, SelfJoin)
                else if negb (registered user_id (user_stats st)) then (st, NotRegistered)
                else
                  (save_stats
                     (start_match_sync gid host_id user_id
                        (with_lobbies st (delete gid (lobbies st)))),
                   MatchStarted)
            end
      | None => (save_stats (with_lobbies st (delete gid (lobbies st))), NoSuchLobby)
      end
  (* move callback: move|gid|move *)
  | MoveCallback gid move user_id =>
      match dict_get gid (games st) with
      | None => (st, NoActiveMatch)
      | Some g =>
          if negb (in_players user_id g) then (st, NotAParticipant)
          else if negb (is_None (slot g user_id (move_choice g))) then (st, AlreadyChosen)
          else
            match blocked g user_id move with
            | Some reason => (st, MoveBlocked reason)
            | None =>
                (* record move *)
                let g' := record_move g user_id move in
                let st' := with_games st (dict_set gid g' (games st)) in
                if truthy (fst (move_choice g')) && truthy (snd (move_choice g'))
                then
                  let '(st'', r) := resolve_turn_sync gid st' in
                  (st'', MoveRecorded (Some r))
                else (st', MoveRecorded None)
            end
      end
  (* confirm_end|gid|yes/no *)
  | ConfirmEnd gid choice user_id =>
      match dict_get gid (games st) with
      | None => (st, NoActiveMatch)
      | Some g =>
          if negb (in_players user_id g) then (st, NotAParticipant)
          else if String.eqb choice "yes" then (concede_match gid g user_id st, MatchEnded)
          else (st, Canceled)
      end
  (* forfeit yes/no *)
  | ForfeitYes user_id =>
      match find_match user_id (games st) with
      | Some (gid, g) => (concede_match gid g user_id st, Forfeited gid)
      | None => (st, NotInMatch)
      end
  | ForfeitNo user_id => (st, Canceled)
  end.

(** The state after a sequence of updates, and the replies along the way. *)
Definition run (st : state) (updates : list event) : state :=
  fold_left (fun s e => fst (webhook_receiver s e)) updates st.

Fixpoint replies (st : state) (updates : list event) : list reply :=
  match updates with
  | [] => []
  | e :: rest =>
      snd (webhook_receiver st e) :: replies (fst (webhook_receiver st e)) rest
  end.

(** ** Invariants of the reachable states *)

(** The bounds of the per-player resources of a match. *)
Definition in_bounds (g : game) : Prop :=
  (0 <= fst (hp g) <= MAX_HP /\ 0 <= snd (hp g) <= MAX_HP)
  /\ (0 <= fst (specials_left g) <= MAX_SPECIALS_PER_MATCH
      /\ 0 <= snd (specials_left g) <= MAX_SPECIALS_PER_MATCH)
  /\ (0 <= fst (reversals_left g) <= MAX_REVERSALS_PER_MATCH
      /\ 0 <= snd (reversals_left g) <= MAX_REVERSALS_PER_MATCH).

(** A stored match: two distinct registered players, both standing, the
    resources within their bounds. *)
Definition game_ok (us : gmap Z user) (g : game) : Prop :=
  fst (players g) <> snd (players g)
  /\ registered (fst (players g)) us = true
  /\ registered (snd (players g)) us = true
  /\ (0 < fst (hp g) /\ 0 < snd (hp g))
  /\ in_bounds g.

(** Every name in the registry has at most [MAX_NAME_LENGTH] characters. *)
Definition names_ok (us : gmap Z user) : Prop :=
  forall k info s,
    us !! k = Some info -> name info = Name s ->
    (length s <= MAX_NAME_LENGTH)%nat.

(** The host of an open lobby is registered. *)
Definition lobbies_ok (us : gmap Z user) (ls : gmap string lobby) : Prop :=
  forall gid l, ls !! gid = Some l -> registered (host l) us = true.

Definition inv (st : state) : Prop :=
  NoDup (map fst (games st))
  /\ Forall (fun kg => game_ok (user_stats st) (snd kg)) (games st)
  /\ lobbies_ok (user_stats st) (lobbies st)
  /\ names_ok (user_stats st).

(** What every update of the registry keeps: who is registered, and the
    bound on the names. *)
Definition stats_step (us us' : gmap Z user) : Prop :=
  (forall k, registered k us = true -> registered k us' = true)
  /\ (names_ok us -> names_ok us').

(** The set-up shared by the examples: two registered players, a lobby
    opened by player 1 in arena ["g"] and joined by player 2. *)
Definition two_players : list event :=
  [ PrivateMessage 1 (pystr_of "Rocky"); PrivateMessage 2 (pystr_of "Apollo");
    StartGame "g" 1; LobbyCallback join "g" 1 2 ].


(** Player 1 sits in two matches: against 2 in arena ["g"], opened first,
    and against 3 in arena ["h"]. *)
Definition two_arenas : list event :=
  [ PrivateMessage 1 (pystr_of "Rocky"); PrivateMessage 2 (pystr_of "Apollo"); PrivateMessage 3 (pystr_of "Drago");
    StartGame "g" 1; LobbyCallback join "g" 1 2;
    StartGame "h" 3; LobbyCallback join "h" 3 1 ].

(** The same match after one round: player 1 used rko, player 2 reversed. *)
Definition after_rko_reversal : list event :=
  (two_players ++ [ MoveCallback "g" "rko" 1; MoveCallback "g" "reversal" 2 ])%list.

(** ** The move keyboard and the move callback data *)

(** One inline button: its text and its [callback_data]. *)
Definition move_button (group_id text move : string) : string * string :=
  (text, "move|" +:+ group_id +:+ "|" +:+ move).

(** [build_move_keyboard]: the rows of the inline keyboard of a round. *)
Definition build_move_keyboard (group_id : string) (gs : list (string * game))
  : list (list (string * string)) :=
  let game := dict_get group_id gs in
  let rows := [] in
  let rows := (rows ++ [[ move_button group_id "Punch" "punch";
                          move_button group_id "Kick" "kick";
                          move_button group_id "Slam" "slam" ]])%list in
  let special_row := [ move_button group_id "Dropkick" "dropkick" ] in
  let special_row :=
    match game with
    | None =>
        (special_row ++ [ move_button group_id "Suplex" "suplex";
                          move_button group_id "RKO" "rko" ])%list
    | Some g =>
        if (0 <? fst (specials_left g)) || (0 <? snd (specials_left g)) then
          (special_row ++ [ move_button group_id "Suplex" "suplex";
                            move_button group_id "RKO" "rko" ])%list
        else special_row
    end in
  let rows := (rows ++ [special_row])%list in
  let rows :=
    match game with
    | None => (rows ++ [[ move_button group_id "Reversal" "reversal" ]])%list
    | Some g =>
        if (0 <? fst (reversals_left g)) || (0 <? snd (reversals_left g)) then
          (rows ++ [[ move_button group_id "Reversal" "reversal" ]])%list
        else rows
    end in
  rows.

(** [s.split(sep)] for a separator of one character. *)
Fixpoint split_on (sep : ascii) (s : string) : list string :=
  match s with
  | EmptyString => [EmptyString]
  | String c rest =>
      if Ascii.eqb c sep then EmptyString :: split_on sep rest
      else
        match split_on sep rest with
        | [] => [String c EmptyString]
        | h :: t => String c h :: t
        end
  end.

(** The head of the move callback: [data.startswith("move|")], the split
    at ["|"], the test [len(parts) != 3] and [_, gid, move = parts]. *)
Definition parse_move_callback (data : string) : option (string * string) :=
  if String.prefix "move|" data then
    match split_on "|"%char data with
    | [_; gid; move] => Some (gid, move)
    | _ => None
    end
  else None.

(** [sep.join(parts)], the inverse of the split. *)
Fixpoint join_with (sep : ascii) (parts : list string) : string :=
  match parts with
  | [] => EmptyString
  | [a] => a
  | a :: rest => a +:+ String sep (join_with sep rest)
  end.

(** The moves the keyboard of an arena offers: the move of each button, as
    the handler reads it back from the callback data. *)
Definition offered_moves (group_id : string) (gs : list (string * game)) : list string :=
  omap (fun b => snd <$> parse_move_callback (snd b))
       (concat (build_move_keyboard group_id gs)).

(** The characters of a string. *)
Fixpoint chars (s : string) : list ascii :=
  match s with
  | EmptyString => []
  | String c rest => c :: chars rest
  end.

(** ** Further invariants of the reachable states *)

(** The user an update comes from. *)
Definition sender (e : event) : Z :=
  match e with
  | PrivateMessage user_id _ => user_id
  | StartGame _ user_id => user_id
  | EndMatch _ user_id => user_id
  | LobbyCallback _ _ _ user_id => user_id
  | MoveCallback _ _ user_id => user_id
  | ConfirmEnd _ _ user_id => user_id
  | ForfeitYes user_id => user_id
  | ForfeitNo user_id => user_id
  end.

(** The arena a callback names in its data, if it names one. *)
Definition arena_of (e : event) : option string :=
  match e with
  | LobbyCallback _ gid _ _ => Some gid
  | MoveCallback gid _ _ => Some gid
  | ConfirmEnd gid _ _ => Some gid
  | StartGame chat_id _ => Some chat_id
  | EndMatch chat_id _ => Some chat_id
  | _ => None
  end.

(** A stored choice passed the validation against the [last_move] and the
    counters it sits beside. *)
Definition legal_choice (last choice : option string) (sp rv : Z) : Prop :=
  (is_special choice = true -> is_special last = false /\ 0 < sp)
  /\ (py_eq choice "reversal" = true -> py_eq last "reversal" = false /\ 0 < rv).

Definition choices_legal (g : game) : Prop :=
  legal_choice (fst (last_move g)) (fst (move_choice g))
               (fst (specials_left g)) (fst (reversals_left g))
  /\ legal_choice (snd (last_move g)) (snd (move_choice g))
                  (snd (specials_left g)) (snd (reversals_left g)).

(** No arena holds a lobby and a match at once. *)
Definition exclusive (st : state) : Prop :=
  forall gid, dict_get gid (games st) <> None -> lobbies st !! gid = None.

(** A stored name is what a registration stores: not empty, at most 16
    characters, nothing to strip. *)
Definition names_wf (us : gmap Z user) : Prop :=
  forall k info s,
    us !! k = Some info -> name info = Name s ->
    s <> [] /\ (length s <= MAX_NAME_LENGTH)%nat /\ strip s = s.

(** No two identities hold names that are equal after [lower()]. *)
Definition names_unique (us : gmap Z user) : Prop :=
  forall k1 k2 info1 info2 s1 s2,
    k1 <> k2 ->
    us !! k1 = Some info1 -> us !! k2 = Some info2 ->
    name info1 = Name s1 -> name info2 = Name s2 ->
    lower s1 <> lower s2.

Definition counters_ok (u : user) : Prop :=
  0 <= wins u /\ 0 <= losses u /\ 0 <= draws u
  /\ 0 <= specials_successful u <= specials_used u.

(** The sum of a counter over the registry. *)
Definition total (f : user -> Z) (us : gmap Z user) : Z :=
  map_fold (fun _ u acc => f u + acc) 0 us.

Definition registry_ok (us : gmap Z user) : Prop :=
  names_wf us
  /\ names_unique us
  /\ (forall k info, us !! k = Some info -> counters_ok info)
  /\ total wins us = total losses us
  /\ (exists n, total draws us = 2 * n).

Definition inv2 (st : state) : Prop :=
  exclusive st
  /\ Forall (fun kg => choices_legal (snd kg)) (games st)
  /\ stats_file st = user_stats st
  /\ registry_ok (user_stats st).

(** What an update can do to a record that exists: keep it, with its name
    if it has one, and raise its counters. *)
Definition record_grows (u u' : user) : Prop :=
  (truthy_text (get_name (name u)) = true -> name u' = name u)
  /\ wins u <= wins u' /\ losses u <= losses u' /\ draws u <= draws u'
  /\ specials_used u <= specials_used u'
  /\ specials_successful u <= specials_successful u'.

Definition grows (us us' : gmap Z user) : Prop :=
  forall k info,
    us !! k = Some info ->
    exists info', us' !! k = Some info' /\ record_grows info info'.

(** The same match, later: the same players, and no resource above what it
    was. *)
Definition worn (g g' : game) : Prop :=
  players g' = players g
  /\ fst (hp g') <= fst (hp g) /\ snd (hp g') <= snd (hp g)
  /\ fst (specials_left g') <= fst (specials_left g)
  /\ snd (specials_left g') <= snd (specials_left g)
  /\ fst (reversals_left g') <= fst (reversals_left g)
  /\ snd (reversals_left g') <= snd (reversals_left g).

(** Two registered players and a lobby of player 1 in arena ["g"]. *)
Definition lobby_open : list event :=
  [ PrivateMessage 1 (pystr_of "Rocky"); PrivateMessage 2 (pystr_of "Apollo"); StartGame "g" 1 ].

(** * Properties *)

(** ** Ordered dictionaries *)

Section DictFacts.
Context {V : Type}.
Implicit Types (d : list (string * V)) (k : string) (v : V).

Lemma dict_get_In k v d : dict_get k d = Some v -> In (k, v) d.
Proof.
  induction d as [|[k' v'] d IH]; simpl; [discriminate|].
  destruct (String.eqb_spec k k') as [->|Hne].
  - intros [= ->]. now left.
  - intros H. right. auto.
Qed.

Lemma dict_get_Forall (P : string * V -> Prop) k v d :
  Forall P d -> dict_get k d = Some v -> P (k, v).
Proof.
  intros Hall Hg. apply dict_get_In, list_elem_of_In in Hg.
  rewrite Forall_forall in Hall. now apply Hall.
Qed.

Lemma dict_get_set_eq k v d : dict_get k (dict_set k v d) = Some v.
Proof.
  induction d as [|[k' v'] d IH]; simpl.
  - now rewrite String.eqb_refl.
  - destruct (String.eqb_spec k k') as [->|Hne]; simpl.
    + now rewrite String.eqb_refl.
    + destruct (String.eqb_spec k k'); [contradiction|assumption].
Qed.

Lemma dict_get_set_ne k k0 v d :
  k0 <> k -> dict_get k0 (dict_set k v d) = dict_get k0 d.
Proof.
  intros Hne. induction d as [|[k' v'] d IH]; simpl.
  - destruct (String.eqb_spec k0 k); [contradiction|reflexivity].
  - destruct (String.eqb_spec k k') as [->|Hk]; simpl.
    + destruct (String.eqb_spec k0 k'); [contradiction|reflexivity].
    + destruct (String.eqb_spec k0 k'); [reflexivity|assumption].
Qed.

Lemma dict_get_pop_ne k k0 d :
  k0 <> k -> dict_get k0 (dict_pop k d) = dict_get k0 d.
Proof.
  intros Hne. induction d as [|[k' v'] d IH]; simpl; [reflexivity|].
  destruct (String.eqb_spec k k') as [->|Hk]; simpl.
  - destruct (String.eqb_spec k0 k'); [contradiction|reflexivity].
  - destruct (String.eqb_spec k0 k'); [reflexivity|assumption].
Qed.

Lemma dict_get_None_keys k d : dict_get k d = None <-> ~ In k (map fst d).
Proof.
  induction d as [|[k' v'] d IH]; simpl; [tauto|].
  destruct (String.eqb_spec k k') as [->|Hk].
  - split; [discriminate|]. intros H. exfalso. apply H. now left.
  - rewrite IH. split; [intros H [E|I]; [congruence|auto]|tauto].
Qed.

Lemma dict_pop_keys_incl k d x : In x (map fst (dict_pop k d)) -> In x (map fst d).
Proof.
  induction d as [|[k' v'] d IH]; simpl; [tauto|].
  destruct (String.eqb k k'); simpl; tauto.
Qed.

Lemma dict_get_pop_eq k d :
  NoDup (map fst d) -> dict_get k (dict_pop k d) = None.
Proof.
  induction d as [|[k' v'] d IH]; simpl; [reflexivity|].
  rewrite NoDup_cons. intros [Hnin Hnd].
  destruct (String.eqb_spec k k') as [->|Hk]; simpl.
  - apply dict_get_None_keys. now rewrite <- list_elem_of_In.
  - destruct (String.eqb_spec k k'); [contradiction|auto].
Qed.

Lemma dict_set_keys k v d :
  map fst (dict_set k v d)
  = if bool_decide (k ∈ map fst d) then map fst d else (map fst d ++ [k])%list.
Proof.
  induction d as [|[k' v'] d IH]; simpl; [reflexivity|].
  destruct (String.eqb_spec k k') as [->|Hk]; simpl.
  - rewrite bool_decide_eq_true_2; [reflexivity|apply list_elem_of_here].
  - rewrite IH. case_bool_decide as Hin.
    + rewrite bool_decide_eq_true_2; [reflexivity|now apply list_elem_of_further].
    + rewrite bool_decide_eq_false_2; [reflexivity|].
      rewrite elem_of_cons. intros [E|I]; congruence.
Qed.

Lemma dict_set_NoDup k v d : NoDup (map fst d) -> NoDup (map fst (dict_set k v d)).
Proof.
  intros Hnd. rewrite dict_set_keys. case_bool_decide as Hin; [assumption|].
  apply NoDup_app. repeat split; [assumption| |apply NoDup_singleton].
  intros x Hx Hx'. apply list_elem_of_singleton in Hx'. now subst.
Qed.

Lemma dict_pop_NoDup k d : NoDup (map fst d) -> NoDup (map fst (dict_pop k d)).
Proof.
  induction d as [|[k' v'] d IH]; simpl; [auto|].
  rewrite NoDup_cons. intros [Hnin Hnd].
  destruct (String.eqb k k'); simpl; [assumption|].
  apply NoDup_cons. split; [|auto].
  intros Hin. apply Hnin. apply list_elem_of_In. apply list_elem_of_In in Hin.
  eapply dict_pop_keys_incl; eauto.
Qed.

Lemma dict_set_Forall (P : string * V -> Prop) k v d :
  P (k, v) -> Forall P d -> Forall P (dict_set k v d).
Proof.
  intros Hp. induction d as [|[k' v'] d IH]; simpl; intros Hall.
  - constructor; [assumption|constructor].
  - inversion Hall; subst.
    destruct (String.eqb_spec k k') as [->|Hk]; constructor; auto.
Qed.

Lemma dict_pop_Forall (P : string * V -> Prop) k d :
  Forall P d -> Forall P (dict_pop k d).
Proof.
  induction d as [|[k' v'] d IH]; simpl; intros Hall; [constructor|].
  inversion Hall; subst. destruct (String.eqb k k'); [assumption|].
  constructor; auto.
Qed.
End DictFacts.

(** ** Damage of a round *)

Lemma py_eq_true m s : py_eq m s = true <-> m = Some s.
Proof.
  destruct m as [x|]; simpl; [|split; discriminate].
  rewrite String.eqb_eq. split; [now intros ->|now intros [= ->]].
Qed.

Lemma py_eq_false m s : py_eq m s = false <-> m <> Some s.
Proof.
  rewrite <- py_eq_true. destruct (py_eq m s); split; congruence.
Qed.

Lemma damage_of_reversal : damage_of (Some "reversal") = 0.
Proof. reflexivity. Qed.

Lemma dmg_to_cases (m1 m2 : option string) :
  (m1 = Some "reversal" /\ m2 <> Some "reversal" ->
     dmg_to m1 m2 = (0, damage_of m2))
  /\ (m2 = Some "reversal" /\ m1 <> Some "reversal" ->
        dmg_to m1 m2 = (damage_of m1, 0))
  /\ ((m1 = Some "reversal" <-> m2 = Some "reversal") ->
        dmg_to m1 m2 = (damage_of m2, damage_of m1))
  /\ (m1 = Some "reversal" /\ m2 = Some "reversal" -> dmg_to m1 m2 = (0, 0)).
Proof.
  unfold dmg_to.
  destruct (py_eq m1 "reversal") eqn:E1; destruct (py_eq m2 "reversal") eqn:E2;
    [apply py_eq_true in E1 | apply py_eq_true in E1
    |apply py_eq_false in E1 | apply py_eq_false in E1];
    [apply py_eq_true in E2 | apply py_eq_false in E2
    |apply py_eq_true in E2 | apply py_eq_false in E2];
    cbn [andb negb fst snd]; subst; rewrite ?damage_of_reversal;
    (split; [|split; [|split]]);
    try (intros [? ?]; congruence); try (intros [? ?]; tauto);
    try (intros _; f_equal; lia); try (intros _; reflexivity).
Qed.

(** ** Players and their slots *)

Lemma in_players_fst g : in_players (fst (players g)) g = true.
Proof. unfold in_players. now rewrite Z.eqb_refl. Qed.

Lemma in_players_snd g : in_players (snd (players g)) g = true.
Proof. unfold in_players. rewrite Z.eqb_refl. apply orb_true_r. Qed.

Lemma in_players_cases user_id g :
  in_players user_id g = true ->
  user_id = fst (players g) \/ user_id = snd (players g).
Proof.
  unfold in_players. rewrite orb_true_iff, !Z.eqb_eq. tauto.
Qed.

Lemma slot_fst {A : Type} g (d : A * A) : slot g (fst (players g)) d = fst d.
Proof. unfold slot. now rewrite Z.eqb_refl. Qed.

Lemma slot_snd {A : Type} g (d : A * A) :
  fst (players g) <> snd (players g) -> slot g (snd (players g)) d = snd d.
Proof.
  intros Hne. unfold slot.
  destruct (Z.eqb_spec (snd (players g)) (fst (players g))); congruence.
Qed.

Lemma record_move_fst g move :
  move_choice (record_move g (fst (players g)) move)
  = (Some move, snd (move_choice g)).
Proof. unfold record_move, set_slot; cbn [move_choice]. now rewrite Z.eqb_refl. Qed.

Lemma record_move_snd g move :
  fst (players g) <> snd (players g) ->
  move_choice (record_move g (snd (players g)) move)
  = (fst (move_choice g), Some move).
Proof.
  intros Hne. unfold record_move, set_slot; cbn [move_choice].
  destruct (Z.eqb_spec (snd (players g)) (fst (players g))); congruence.
Qed.

Lemma record_move_slot g user_id move :
  slot (record_move g user_id move) user_id
       (move_choice (record_move g user_id move)) = Some move.
Proof.
  unfold slot, record_move, set_slot; cbn [players move_choice].
  destruct (user_id =? fst (players g)); reflexivity.
Qed.

(** ** The move callback and the resolution, unfolded *)

Lemma move_callback_legal st gid g user_id move :
  dict_get gid (games st) = Some g ->
  in_players user_id g = true ->
  slot g user_id (move_choice g) = None ->
  blocked g user_id move = None ->
  webhook_receiver st (MoveCallback gid move user_id)
  = let g' := record_move g user_id move in
    let st' := with_games st (dict_set gid g' (games st)) in
    if truthy (fst (move_choice g')) && truthy (snd (move_choice g'))
    then (fst (resolve_turn_sync gid st'),
          MoveRecorded (Some (snd (resolve_turn_sync gid st'))))
    else (st', MoveRecorded None).
Proof.
  intros Hg Hin Hslot Hb. unfold webhook_receiver.
  rewrite Hg, Hin, Hslot, Hb. cbn [negb is_None]. cbv zeta.
  destruct (truthy _ && truthy _); [|reflexivity].
  now destruct (resolve_turn_sync _ _).
Qed.

Lemma resolve_turn_sync_game gid st g :
  dict_get gid (games st) = Some g ->
  resolve_turn_sync gid st
  = let p1 := fst (players g) in
    let p2 := snd (players g) in
    let game1 := settle_round g in
    let us := special_stats g (user_stats st) in
    if report_raises (fst (move_choice g)) (snd (move_choice g)) then
      ({| user_stats := us; lobbies := lobbies st;
          games := dict_set gid game1 (games st);
          stats_file := stats_file st |}, Raised)
    else
    let p1_dead := fst (hp game1) =? 0 in
    let p2_dead := snd (hp game1) =? 0 in
    if p1_dead && p2_dead then
      ({| user_stats := bump add_draw p2 (bump add_draw p1 us);
          lobbies := lobbies st;
          games := dict_pop gid (games st);
          stats_file := bump add_draw p2 (bump add_draw p1 us) |}, Draw)
    else if p1_dead || p2_dead then
      let winner := if p1_dead then p2 else p1 in
      let loser := if p1_dead then p1 else p2 in
      let us := bump add_loss loser (bump add_win winner us) in
      match name (stats_of winner us) with
      | PyNone =>
          ({| user_stats := us; lobbies := lobbies st;
              games := dict_set gid game1 (games st);
              stats_file := us |}, Raised)
      | _ =>
          ({| user_stats := us; lobbies := lobbies st;
              games := dict_pop gid (games st);
              stats_file := us |}, Ko winner loser)
      end
    else
      ({| user_stats := us; lobbies := lobbies st;
          games := dict_set gid (clear_choices game1) (games st);
          stats_file := us |}, NextRound).
Proof.
  intros Hg. unfold resolve_turn_sync. rewrite Hg.
  destruct (players g) as [p1 p2]; destruct (move_choice g) as [m1 m2].
  reflexivity.
Qed.

Lemma truthy_not_raises m1 m2 :
  truthy m1 = true -> truthy m2 = true -> report_raises m1 m2 = false.
Proof.
  destruct m1, m2; try discriminate. intros _ _. unfold report_raises.
  cbn [is_None]. now rewrite !andb_false_r.
Qed.

(** ** The example round *)

(** C6 (as amended). From a fresh match (both at 200), player one choosing
    kick (15) and player two choosing slam (25) leaves player one at 175
    and player two at 185: each takes the base value of the opponent's
    move.  Nobody is down, no counter of the registry moves, the choices
    are reset for the next round.  The base table is punch 5, kick 15,
    slam 25, dropkick 30, suplex 45, rko 55, reversal 0. *)
Theorem C6_medium_heavy_round (st : state) (gid : string) (p1 p2 : Z) :
  p1 <> p2 ->
  dict_get gid (games st) = Some (fresh_game p1 p2) ->
  let st1 := fst (webhook_receiver st (MoveCallback gid "kick" p1)) in
  let r := webhook_receiver st1 (MoveCallback gid "slam" p2) in
  snd r = MoveRecorded (Some NextRound)
  /\ dict_get gid (games (fst r))
     = Some {| players := (p1, p2); hp := (175, 185);
               specials_left := (4, 4); reversals_left := (3, 3);
               last_move := (Some "kick", Some "slam");
               move_choice := (None, None) |}
  /\ user_stats (fst r) = user_stats st
  /\ map (fun m => damage_of (Some m))
         ["punch"; "kick"; "slam"; "dropkick"; "suplex"; "rko"; "reversal"]
     = [5; 15; 25; 30; 45; 55; 0].
Proof.
  intros Hne Hg.
  set (g0 := fresh_game p1 p2) in *.
  set (g1 := record_move g0 p1 "kick").
  set (s1 := with_games st (dict_set gid g1 (games st))).
  assert (Hm1 : move_choice g1 = (Some "kick", None)) by apply (record_move_fst g0).
  assert (H1 : webhook_receiver st (MoveCallback gid "kick" p1)
               = (s1, MoveRecorded None)).
  { rewrite (move_callback_legal st gid g0 p1 "kick"); try assumption.
    - cbv zeta. fold g1. now rewrite Hm1.
    - apply (in_players_fst g0).
    - apply (slot_fst g0).
    - unfold blocked. now rewrite (slot_fst g0). }
  rewrite H1. cbn [fst snd].
  set (g2 := record_move g1 p2 "slam").
  set (s2 := with_games s1 (dict_set gid g2 (games s1))).
  assert (Hm2 : move_choice g2 = (Some "kick", Some "slam")).
  { unfold g2. rewrite (record_move_snd g1); [now rewrite Hm1|assumption]. }
  assert (Hg2 : dict_get gid (games s2) = Some g2) by apply dict_get_set_eq.
  assert (H2 : webhook_receiver s1 (MoveCallback gid "slam" p2)
               = (fst (resolve_turn_sync gid s2),
                  MoveRecorded (Some (snd (resolve_turn_sync gid s2))))).
  { rewrite (move_callback_legal s1 gid g1 p2 "slam").
    - cbv zeta. fold g2. fold s2. now rewrite Hm2.
    - apply dict_get_set_eq.
    - apply (in_players_snd g1).
    - rewrite (slot_snd g1); [now rewrite Hm1|assumption].
    - unfold blocked. rewrite (slot_snd g1); [reflexivity|assumption]. }
  rewrite H2, (resolve_turn_sync_game gid s2 g2 Hg2). cbn [fst snd].
  unfold special_stats, settle_round. rewrite Hm2.
  cbn [g2 g1 g0 record_move fresh_game players hp specials_left reversals_left
       last_move fst snd].
  change (report_raises (Some "kick") (Some "slam")) with false.
  change (dmg_to (Some "kick") (Some "slam")) with (25, 15).
  change (is_special (Some "kick")) with false.
  change (is_special (Some "slam")) with false.
  change (py_eq (Some "kick") "reversal") with false.
  change (py_eq (Some "slam") "reversal") with false.
  cbn [fst snd].
  change (0 `max` (MAX_HP - 25)) with 175.
  change (0 `max` (MAX_HP - 15)) with 185.
  cbn [hp fst snd].
  change (175 =? 0) with false. change (185 =? 0) with false.
  cbn [andb orb fst snd games user_stats clear_choices players hp specials_left
       reversals_left last_move].
  rewrite dict_get_set_eq. repeat split.
Qed.

(** ** Bounds are kept by a round *)

Lemma damage_of_nonneg m : 0 <= damage_of m.
Proof.
  destruct m as [s|]; [|reflexivity]. unfold damage_of, MOVES. cbn [dict_get].
  repeat (destruct (String.eqb s _); [simpl; lia|]).
  simpl. lia.
Qed.

Lemma dmg_to_nonneg m1 m2 : 0 <= fst (dmg_to m1 m2) /\ 0 <= snd (dmg_to m1 m2).
Proof.
  pose proof (damage_of_nonneg m1). pose proof (damage_of_nonneg m2).
  unfold dmg_to.
  destruct (py_eq m1 "reversal"), (py_eq m2 "reversal"); cbn [andb negb fst snd]; lia.
Qed.

Lemma settle_round_players g : players (settle_round g) = players g.
Proof. unfold settle_round. now destruct (move_choice g). Qed.

Lemma settle_round_hp g :
  hp (settle_round g)
  = (Z.max 0 (fst (hp g) - fst (dmg_to (fst (move_choice g)) (snd (move_choice g)))),
     Z.max 0 (snd (hp g) - snd (dmg_to (fst (move_choice g)) (snd (move_choice g))))).
Proof. unfold settle_round. now destruct (move_choice g). Qed.

(** The match a resolution leaves in its arena carries the hit points the
    round wrote. *)
Lemma resolve_turn_sync_hp gid st g g' :
  NoDup (map fst (games st)) ->
  dict_get gid (games st) = Some g ->
  dict_get gid (games (fst (resolve_turn_sync gid st))) = Some g' ->
  hp g' = hp (settle_round g).
Proof.
  intros Hnd Hg. rewrite (resolve_turn_sync_game gid st g Hg). cbv zeta.
  repeat match goal with
         | |- context [if ?b then _ else _] => destruct b
         | |- context [match ?n with Missing => _ | PyNone => _ | Name _ => _ end] =>
             destruct n
         end; cbn [fst games];
    rewrite ?dict_get_set_eq, ?(dict_get_pop_eq gid (games st) Hnd);
    intros [= <-]; reflexivity.
Qed.

(** C1. A round resolution with submitted moves (m1, m2) takes the damage
    of the exchange from the hit points of each player, stopping at 0, and
    the match it leaves in the arena carries these hit points.  When
    exactly one player chose reversal, the reversing player takes 0 and
    the opponent takes the base value of the opponent's own move; when
    neither or both chose reversal, each player takes the base value of
    the opponent's move, which is 0 for both under mutual reversal. *)
Theorem C1_reversal_exchange (st : state) (gid : string) (g : game)
    (m1 m2 : option string) :
  NoDup (map fst (games st)) ->
  dict_get gid (games st) = Some g ->
  move_choice g = (m1, m2) ->
  let takes (taken1 taken2 : Z) : Prop :=
    dmg_to m1 m2 = (taken1, taken2)
    /\ hp (settle_round g)
       = (Z.max 0 (fst (hp g) - taken1), Z.max 0 (snd (hp g) - taken2))
    /\ (forall g',
          dict_get gid (games (fst (resolve_turn_sync gid st))) = Some g' ->
          hp g' = (Z.max 0 (fst (hp g) - taken1), Z.max 0 (snd (hp g) - taken2))) in
  (m1 = Some "reversal" /\ m2 <> Some "reversal" -> takes 0 (damage_of m2))
  /\ (m2 = Some "reversal" /\ m1 <> Some "reversal" -> takes (damage_of m1) 0)
  /\ ((m1 = Some "reversal" <-> m2 = Some "reversal") ->
        takes (damage_of m2) (damage_of m1))
  /\ (m1 = Some "reversal" /\ m2 = Some "reversal" -> takes 0 0).
Proof.
  intros Hnd Hg Hm takes.
  assert (Ht : forall taken1 taken2,
             dmg_to m1 m2 = (taken1, taken2) -> takes taken1 taken2).
  { intros taken1 taken2 Hd.
    assert (Hhp : hp (settle_round g)
                  = (Z.max 0 (fst (hp g) - taken1), Z.max 0 (snd (hp g) - taken2))).
    { rewrite settle_round_hp, Hm. cbn [fst snd]. now rewrite Hd. }
    split; [assumption|]. split; [assumption|].
    intros g' Hg'. rewrite <- Hhp. exact (resolve_turn_sync_hp gid st g g' Hnd Hg Hg'). }
  destruct (dmg_to_cases m1 m2) as (H1 & H2 & H3 & H4).
  split; [|split; [|split]]; intros H; apply Ht; auto.
Qed.

Lemma C1_reversal_exchange_witness :
  hp (settle_round
        {| players := (1, 2); hp := (200, 200);
           specials_left := (4, 4); reversals_left := (3, 3);
           last_move := (None, None);
           move_choice := (Some "reversal", Some "slam") |})
  = (200, 175).
Proof.
  set (g := {| players := (1, 2); hp := (200, 200);
               specials_left := (4, 4); reversals_left := (3, 3);
               last_move := (None, None);
               move_choice := (Some "reversal", Some "slam") |}).
  assert (Hnd : NoDup (map fst [("g", g)])) by apply NoDup_singleton.
  destruct (C1_reversal_exchange
              {| user_stats := ∅; lobbies := ∅; games := [("g", g)];
                 stats_file := ∅ |}
              "g" g (Some "reversal") (Some "slam") Hnd eq_refl eq_refl)
    as [H _].
  assert (Hc : Some "reversal" = Some "reversal"
               /\ Some "slam" <> Some "reversal")
    by (split; [reflexivity|discriminate]).
  exact (proj1 (proj2 (H Hc))).
Defined.

Lemma settle_round_in_bounds g : in_bounds g -> in_bounds (settle_round g).
Proof.
  unfold in_bounds, settle_round. destruct (move_choice g) as [m1 m2].
  destruct (dmg_to_nonneg m1 m2) as [H1 H2]. cbn [hp specials_left reversals_left fst snd].
  intros [[? ?] [[? ?] [? ?]]].
  destruct (is_special m1), (is_special m2), (py_eq m1 "reversal"), (py_eq m2 "reversal");
    repeat split; lia.
Qed.

Lemma clear_choices_in_bounds g : in_bounds g -> in_bounds (clear_choices g).
Proof. intros H; exact H. Qed.

Lemma record_move_in_bounds g user_id move :
  in_bounds g -> in_bounds (record_move g user_id move).
Proof. intros H; exact H. Qed.

Lemma fresh_game_in_bounds p1 p2 : in_bounds (fresh_game p1 p2).
Proof. unfold in_bounds, fresh_game; cbn; repeat split; discriminate. Qed.

Lemma resolve_turn_sync_in_bounds gid st :
  Forall (fun kg => in_bounds (snd kg)) (games st) ->
  Forall (fun kg => in_bounds (snd kg)) (games (fst (resolve_turn_sync gid st))).
Proof.
  intros Hall. destruct (dict_get gid (games st)) as [g|] eqn:Hg.
  - assert (Hb : in_bounds g).
    { apply (dict_get_Forall _ _ _ _ Hall Hg). }
    rewrite (resolve_turn_sync_game gid st g Hg). cbv zeta.
    repeat match goal with
           | |- context [if ?b then _ else _] => destruct b
           | |- context [match ?n with Missing => _ | PyNone => _ | Name _ => _ end] =>
               destruct n
           end; cbn [fst games];
      try (apply dict_pop_Forall; assumption);
      apply dict_set_Forall; try assumption; cbn [snd];
      try apply clear_choices_in_bounds; now apply settle_round_in_bounds.
  - unfold resolve_turn_sync. now rewrite Hg.
Qed.

(** ** The registry only grows *)

Lemma stats_step_refl us : stats_step us us.
Proof. split; auto. Qed.

Lemma stats_step_trans us1 us2 us3 :
  stats_step us1 us2 -> stats_step us2 us3 -> stats_step us1 us3.
Proof. intros [A B] [C D]. split; auto. Qed.

Lemma registered_name k us :
  registered k us = true <->
  exists info s, us !! k = Some info /\ name info = Name s /\ s <> [].
Proof.
  unfold registered. destruct (us !! k) as [info|].
  - destruct (name info) as [| |s] eqn:En; cbn [get_name truthy_text].
    + split; [discriminate|intros (?&?&[= <-]&?&?); congruence].
    + split; [discriminate|intros (?&?&[= <-]&?&?); congruence].
    + rewrite negb_true_iff, bool_decide_eq_false. split.
      * intros H. exists info, s. repeat split; assumption.
      * intros (info'&s'&[= <-]&Hn&Hs). rewrite En in Hn. now injection Hn as <-.
  - split; [discriminate|intros (?&?&?&_); discriminate].
Qed.

Lemma stats_step_ensure_user uid us : stats_step us (ensure_user uid us).
Proof.
  unfold ensure_user. destruct (us !! uid) eqn:E; [apply stats_step_refl|].
  split.
  - intros k. unfold registered. destruct (decide (k = uid)) as [->|Hne].
    + now rewrite E.
    + now rewrite lookup_insert_ne.
  - intros Hok k info s. destruct (decide (k = uid)) as [->|Hne].
    + rewrite lookup_insert_eq. intros [= <-]. discriminate.
    + rewrite lookup_insert_ne by congruence. apply Hok.
Qed.

Lemma stats_step_bump f uid us :
  (forall u, name (f u) = name u) -> stats_step us (bump f uid us).
Proof.
  intros Hf. unfold bump, stats_of. split.
  - intros k. unfold registered. destruct (decide (k = uid)) as [->|Hne].
    + rewrite lookup_insert_eq, Hf. now destruct (us !! uid).
    + now rewrite lookup_insert_ne.
  - intros Hok k info s. destruct (decide (k = uid)) as [->|Hne].
    + rewrite lookup_insert_eq. intros [= <-]. rewrite Hf.
      destruct (us !! uid) as [info|] eqn:E; cbn; [now apply (Hok uid)|discriminate].
    + rewrite lookup_insert_ne by congruence. apply Hok.
Qed.

Lemma stats_step_special_stats g us : stats_step us (special_stats g us).
Proof.
  unfold special_stats. destruct (players g) as [p1 p2], (move_choice g) as [m1 m2].
  destruct (is_special m1), (is_special m2);
    repeat (eapply stats_step_trans; [|apply stats_step_bump; now intros []]);
    apply stats_step_refl.
Qed.

Lemma stats_step_register uid text us :
  stats_step us (fst (register uid text us)).
Proof.
  unfold register.
  case_bool_decide as Hne; [apply stats_step_refl|].
  destruct (Nat.ltb_spec MAX_NAME_LENGTH (length (strip text)));
    [apply stats_step_refl|].
  destruct (name_taken uid (strip text) us); [apply stats_step_refl|].
  cbn [fst]. split.
  - intros k. unfold registered. destruct (decide (k = uid)) as [->|Hk].
    + rewrite lookup_insert_eq. cbn [set_name name get_name truthy_text]. intros _.
      apply negb_true_iff. now apply bool_decide_eq_false.
    + now rewrite lookup_insert_ne.
  - intros Hok k info s. destruct (decide (k = uid)) as [->|Hk].
    + rewrite lookup_insert_eq. intros [= <-]. cbn. intros [= <-]. assumption.
    + rewrite lookup_insert_ne by congruence. apply Hok.
Qed.

Lemma game_ok_step us us' g : stats_step us us' -> game_ok us g -> game_ok us' g.
Proof.
  intros [Hreg _] (Hne & H1 & H2 & Hhp & Hb).
  split; [assumption|]. repeat (split; [now auto|]). assumption.
Qed.

Lemma lobbies_ok_step us us' ls :
  stats_step us us' -> lobbies_ok us ls -> lobbies_ok us' ls.
Proof. intros [Hreg _] Hl gid l Hgl. apply Hreg. eapply Hl; eauto. Qed.

Lemma inv_users st us' :
  stats_step (user_stats st) us' -> inv st ->
  NoDup (map fst (games st))
  /\ Forall (fun kg => game_ok us' (snd kg)) (games st)
  /\ lobbies_ok us' (lobbies st)
  /\ names_ok us'.
Proof.
  intros Hs (Hnd & Hall & Hl & Hn). repeat split; try assumption.
  - eapply Forall_impl; [exact Hall|]. intros kg. now apply game_ok_step.
  - eapply lobbies_ok_step; eauto.
  - now apply Hs.
Qed.

(** ** The invariant is kept by every update *)

Lemma inv_initial : inv initial_state.
Proof.
  unfold inv, initial_state; cbn. repeat split.
  - constructor.
  - constructor.
  - intros gid l. rewrite lookup_empty. discriminate.
  - intros k info s. rewrite lookup_empty. discriminate.
Qed.

Lemma registered_not_PyNone k us :
  registered k us = true -> name (stats_of k us) <> PyNone.
Proof.
  intros H. apply registered_name in H. destruct H as (info & s & E & En & _).
  unfold stats_of. rewrite E. cbn. congruence.
Qed.

(** A resolution that starts with both choices true ends in a draw, a KO
    or a new round, and keeps the invariant. *)
Lemma resolve_turn_sync_inv gid st g :
  inv st ->
  dict_get gid (games st) = Some g ->
  truthy (fst (move_choice g)) = true ->
  truthy (snd (move_choice g)) = true ->
  inv (fst (resolve_turn_sync gid st))
  /\ snd (resolve_turn_sync gid st) <> Raised
  /\ snd (resolve_turn_sync gid st) <> NoGame.
Proof.
  intros Hinv Hg Ht1 Ht2.
  assert (Hok : game_ok (user_stats st) g).
  { destruct Hinv as (_ & Hall & _). apply (dict_get_Forall _ _ _ _ Hall Hg). }
  rewrite (resolve_turn_sync_game gid st g Hg). cbv zeta.
  rewrite (truthy_not_raises _ _ Ht1 Ht2).
  pose proof (stats_step_special_stats g (user_stats st)) as Hs0.
  set (us0 := special_stats g (user_stats st)) in *.
  destruct (fst (hp (settle_round g)) =? 0) eqn:D1;
    destruct (snd (hp (settle_round g)) =? 0) eqn:D2; cbn [andb orb].
  - (* draw *)
    split; [|split; discriminate]. cbn [fst].
    set (us1 := bump add_draw _ _).
    assert (Hs : stats_step (user_stats st) us1).
    { eapply stats_step_trans; [exact Hs0|].
      eapply stats_step_trans; apply stats_step_bump; now intros []. }
    destruct (inv_users st us1 Hs Hinv) as (Hnd & Hall & Hl & Hn).
    unfold inv; cbn [games user_stats lobbies]. repeat split; try assumption.
    + now apply dict_pop_NoDup.
    + now apply dict_pop_Forall.
  - (* player one is down *)
    set (us1 := bump add_loss _ _).
    assert (Hs : stats_step (user_stats st) us1).
    { eapply stats_step_trans; [exact Hs0|].
      eapply stats_step_trans; apply stats_step_bump; now intros []. }
    destruct (inv_users st us1 Hs Hinv) as (Hnd & Hall & Hl & Hn).
    assert (Hw : name (stats_of (snd (players g)) us1) <> PyNone).
    { apply registered_not_PyNone, Hs, Hok. }
    destruct (name (stats_of (snd (players g)) us1)); try contradiction;
      (split; [|split; discriminate]); cbn [fst];
      unfold inv; cbn [games user_stats lobbies]; repeat split; try assumption;
      solve [now apply dict_pop_NoDup | now apply dict_pop_Forall].
  - (* player two is down *)
    set (us1 := bump add_loss _ _).
    assert (Hs : stats_step (user_stats st) us1).
    { eapply stats_step_trans; [exact Hs0|].
      eapply stats_step_trans; apply stats_step_bump; now intros []. }
    destruct (inv_users st us1 Hs Hinv) as (Hnd & Hall & Hl & Hn).
    assert (Hw : name (stats_of (fst (players g)) us1) <> PyNone).
    { apply registered_not_PyNone, Hs, Hok. }
    destruct (name (stats_of (fst (players g)) us1)); try contradiction;
      (split; [|split; discriminate]); cbn [fst];
      unfold inv; cbn [games user_stats lobbies]; repeat split; try assumption;
      solve [now apply dict_pop_NoDup | now apply dict_pop_Forall].
  - (* next round *)
    split; [|split; discriminate]. cbn [fst].
    destruct (inv_users st us0 Hs0 Hinv) as (Hnd & Hall & Hl & Hn).
    unfold inv; cbn [games user_stats lobbies]. repeat split; try assumption.
    + now apply dict_set_NoDup.
    + apply dict_set_Forall; [|assumption]. cbn [snd].
      apply (game_ok_step _ _ _ Hs0) in Hok.
      destruct Hok as (Hne & H1 & H2 & Hhp & Hb).
      pose proof (settle_round_in_bounds g Hb) as Hb'.
      unfold game_ok. cbn [clear_choices players hp].
      rewrite settle_round_players.
      apply Z.eqb_neq in D1. apply Z.eqb_neq in D2.
      split; [assumption|]. split; [assumption|]. split; [assumption|].
      split; [|exact Hb']. destruct Hb' as [[? ?] _]. lia.
Qed.

Lemma record_move_game_ok us g user_id move :
  game_ok us g -> game_ok us (record_move g user_id move).
Proof. intros H; exact H. Qed.

Lemma concede_match_inv gid g user_id st : inv st -> inv (concede_match gid g user_id st).
Proof.
  intros Hinv. unfold concede_match. cbv zeta.
  set (us1 := bump add_loss _ _).
  assert (Hs : stats_step (user_stats st) us1).
  { eapply stats_step_trans; apply stats_step_bump; now intros []. }
  destruct (inv_users st us1 Hs Hinv) as (Hnd & Hall & Hl & Hn).
  unfold inv; cbn [games user_stats lobbies]. repeat split; try assumption.
  - now apply dict_pop_NoDup.
  - now apply dict_pop_Forall.
Qed.

Lemma lobbies_ok_delete us ls gid : lobbies_ok us ls -> lobbies_ok us (delete gid ls).
Proof.
  intros Hl k l. rewrite lookup_delete. case_decide; [discriminate|]. apply Hl.
Qed.

Lemma inv_step st e : inv st -> inv (fst (webhook_receiver st e)).
Proof.
  intros Hinv. destruct e as [user_id text|chat_id user_id|chat_id user_id
    |action gid host_id user_id|gid move user_id|gid choice user_id|user_id|user_id];
    cbn [webhook_receiver].
  - (* private message *)
    assert (H0 : inv (ensure_user_sync user_id st)
                 /\ stats_step (user_stats st) (user_stats (ensure_user_sync user_id st))).
    { unfold ensure_user_sync.
      pose proof (stats_step_ensure_user user_id (user_stats st)) as Hs.
      unfold ensure_user in *. destruct (user_stats st !! user_id).
      - split; [assumption|apply stats_step_refl].
      - split; [|exact Hs]. apply (inv_users st _ Hs Hinv). }
    destruct H0 as [Hinv0 _]. set (st0 := ensure_user_sync user_id st) in *.
    destruct (_ && _); [|assumption].
    pose proof (stats_step_register user_id text (user_stats st0)) as Hs.
    destruct (register user_id text (user_stats st0)) as [us r].
    destruct r; try assumption. cbn [fst] in *.
    apply (inv_users st0 _ Hs Hinv0).
  - (* /startgame *)
    destruct (registered user_id (user_stats st)) eqn:Hreg; cbn [negb]; [|assumption].
    destruct (bool_decide _); [assumption|].
    destruct (bool_decide _); [assumption|].
    cbn [fst]. destruct Hinv as (Hnd & Hall & Hl & Hn).
    unfold inv; cbn [with_lobbies games user_stats lobbies]. repeat split; try assumption.
    intros gid l. rewrite lookup_insert. case_decide; [|apply Hl].
    now intros [= <-].
  - (* /endmatch *)
    destruct (dict_get chat_id (games st)); [|assumption].
    now destruct (negb _).
  - (* lobby callbacks *)
    assert (Hdel : inv (save_stats (with_lobbies st (delete gid (lobbies st))))).
    { destruct Hinv as (Hnd & Hall & Hl & Hn).
      unfold inv; cbn [save_stats with_lobbies games user_stats lobbies].
      repeat split; try assumption. now apply lobbies_ok_delete. }
    destruct (lobbies st !! gid) as [l|] eqn:El; [|assumption].
    destruct (Z.eqb_spec (host l) host_id) as [Hh|Hh]; cbn [negb]; [|assumption].
    destruct action.
    + destruct (Z.eqb_spec user_id host_id) as [Hu|Hu]; [assumption|].
      destruct (registered user_id (user_stats st)) eqn:Hreg; cbn [negb]; [|assumption].
      cbn [fst]. destruct Hdel as (Hnd & Hall & Hl & Hn).
      assert (Hhost : registered host_id (user_stats st) = true).
      { destruct Hinv as (_ & _ & Hl0 & _). rewrite <- Hh. now apply (Hl0 gid). }
      unfold inv;
        cbn [save_stats start_match_sync with_lobbies games user_stats lobbies] in *.
      repeat split; try assumption.
      * now apply dict_set_NoDup.
      * apply dict_set_Forall; [|assumption]. cbn [snd].
        unfold game_ok. cbn [fresh_game players hp fst snd].
        repeat split; try assumption; try reflexivity; try discriminate.
        congruence.
    + destruct (Z.eqb_spec user_id host_id); cbn [negb]; assumption.
  - (* move callback *)
    destruct (dict_get gid (games st)) as [g|] eqn:Hg; [|assumption].
    destruct (in_players user_id g); cbn [negb]; [|assumption].
    destruct (is_None _); cbn [negb]; [|assumption].
    destruct (blocked g user_id move); [assumption|].
    cbv zeta.
    set (g' := record_move g user_id move).
    set (st' := with_games st (dict_set gid g' (games st))).
    assert (Hinv' : inv st').
    { destruct Hinv as (Hnd & Hall & Hl & Hn).
      unfold inv, st'; cbn [with_games games user_stats lobbies].
      repeat split; try assumption.
      - now apply dict_set_NoDup.
      - apply dict_set_Forall; [|assumption]. cbn [snd].
        apply record_move_game_ok. apply (dict_get_Forall _ _ _ _ Hall Hg). }
    destruct (truthy (fst (move_choice g'))) eqn:T1; cbn [andb]; [|assumption].
    destruct (truthy (snd (move_choice g'))) eqn:T2; [|assumption].
    assert (Hg' : dict_get gid (games st') = Some g') by apply dict_get_set_eq.
    destruct (resolve_turn_sync_inv gid st' g' Hinv' Hg' T1 T2) as [Hr _].
    now destruct (resolve_turn_sync gid st').
  - (* confirm_end *)
    destruct (dict_get gid (games st)) as [g|] eqn:Hg; [|assumption].
    destruct (in_players user_id g); cbn [negb]; [|assumption].
    destruct (String.eqb choice "yes"); [|assumption].
    now apply concede_match_inv.
  - (* forfeit_yes *)
    destruct (find_match user_id (games st)) as [[gid g]|]; [|assumption].
    now apply concede_match_inv.
  - (* forfeit_no *)
    assumption.
Qed.

Lemma inv_run st updates : inv st -> inv (run st updates).
Proof.
  revert st. induction updates as [|e rest IH]; intros st Hinv; [assumption|].
  apply IH. now apply inv_step.
Qed.

Lemma inv_reachable updates : inv (run initial_state updates).
Proof. apply inv_run, inv_initial. Qed.

(** ** Resource bounds *)

Lemma game_ok_reachable updates gid g :
  dict_get gid (games (run initial_state updates)) = Some g ->
  game_ok (user_stats (run initial_state updates)) g.
Proof.
  intros Hg. destruct (inv_reachable updates) as (_ & Hall & _).
  apply (dict_get_Forall _ _ _ _ Hall Hg).
Qed.

(** C2. A match starts with 200 hit points, 4 specials and 3 reversals for
    both players; a round resolution keeps hit points within [0,200],
    specials within [0,4] and reversals within [0,3] (the subtractions are
    floored at zero); and these bounds hold for every match of every state
    the handler reaches from the empty start. *)
Theorem C2_resource_bounds :
  (forall gid p1 p2 st,
      dict_get gid (games (start_match_sync gid p1 p2 st)) = Some (fresh_game p1 p2)
      /\ hp (fresh_game p1 p2) = (200, 200)
      /\ specials_left (fresh_game p1 p2) = (4, 4)
      /\ reversals_left (fresh_game p1 p2) = (3, 3))
  /\ (forall gid st,
         Forall (fun kg => in_bounds (snd kg)) (games st) ->
         Forall (fun kg => in_bounds (snd kg))
                (games (fst (resolve_turn_sync gid st))))
  /\ (forall updates gid g,
         dict_get gid (games (run initial_state updates)) = Some g ->
         (0 <= fst (hp g) <= 200 /\ 0 <= snd (hp g) <= 200)
         /\ (0 <= fst (specials_left g) <= 4 /\ 0 <= snd (specials_left g) <= 4)
         /\ (0 <= fst (reversals_left g) <= 3 /\ 0 <= snd (reversals_left g) <= 3)).
Proof.
  split; [|split].
  - intros gid p1 p2 st. split; [apply dict_get_set_eq|now repeat split].
  - apply resolve_turn_sync_in_bounds.
  - intros updates gid g Hg. apply (game_ok_reachable updates gid g Hg).
Qed.

(** ** Move legality *)

Lemma is_special_true m : is_special m = true <-> m = Some "suplex" \/ m = Some "rko".
Proof. unfold is_special. now rewrite orb_true_iff, !py_eq_true. Qed.

Lemma is_special_move move :
  is_special (Some move) = true <-> move = "suplex" \/ move = "rko".
Proof.
  rewrite is_special_true. split; (intros [H|H]; [left|right]); congruence.
Qed.

Lemma blocked_spec g user_id move :
  0 <= slot g user_id (specials_left g) ->
  0 <= slot g user_id (reversals_left g) ->
  let last := slot g user_id (last_move g) in
  (exists reason, blocked g user_id move = Some reason) <->
  ((move = "suplex" \/ move = "rko")
     /\ ((last = Some "suplex" \/ last = Some "rko")
         \/ slot g user_id (specials_left g) = 0))
  \/ (move = "reversal"
      /\ (last = Some "reversal" \/ slot g user_id (reversals_left g) = 0)).
Proof.
  intros Hs Hr last. unfold blocked. fold last.
  pose proof (is_special_move move) as Hm.
  pose proof (String.eqb_eq move "reversal") as Hmr.
  pose proof (is_special_true last) as Hl.
  pose proof (py_eq_true last "reversal") as Hlr.
  cbn [py_eq].
  destruct (is_special (Some move)); destruct (String.eqb move "reversal");
    destruct (is_special last); destruct (py_eq last "reversal");
    destruct (Z.leb_spec (slot g user_id (specials_left g)) 0);
    destruct (Z.leb_spec (slot g user_id (reversals_left g)) 0);
    (split; [intros [reason Hb]; try discriminate Hb | intros Hc; try (eexists; reflexivity)]).
  all: try (destruct Hm as [Hm _]; specialize (Hm eq_refl)).
  all: try (destruct Hmr as [Hmr _]; specialize (Hmr eq_refl)).
  all: try (destruct Hl as [Hl _]; specialize (Hl eq_refl)).
  all: try (destruct Hlr as [Hlr _]; specialize (Hlr eq_refl)).
  all: try solve [left; split; [assumption|]; first [left; assumption | right; lia]].
  all: try solve [right; split; [assumption|]; first [left; assumption | right; lia]].
  all: try solve [exfalso; destruct Hm; subst; discriminate].
  all: exfalso; destruct Hc as [[Hc1 [Hc2|Hc2]]|[Hc1 [Hc2|Hc2]]]; try lia.
  all: try solve [apply Hm in Hc1; discriminate Hc1].
  all: try solve [apply Hmr in Hc1; discriminate Hc1].
  all: try solve [apply Hl in Hc2; discriminate Hc2].
  all: try solve [apply Hlr in Hc2; discriminate Hc2].
  all: try solve [destruct Hm; subst; discriminate].
Qed.

(** C3. For a participant of an active match who has no choice pending, the
    move callback answers [MoveBlocked] exactly when the move is a special
    (suplex or rko) and the player's last move was a special or no special
    is left, or the move is reversal and the player's last move was
    reversal or no reversal is left.  A blocked attempt leaves the whole
    state as it was, and the player can submit again: a punch sent next is
    recorded. *)
Theorem C3_move_blocked (updates : list event) (gid : string) (g : game)
    (user_id : Z) (move : string) :
  let st := run initial_state updates in
  let last := slot g user_id (last_move g) in
  let r := webhook_receiver st (MoveCallback gid move user_id) in
  dict_get gid (games st) = Some g ->
  in_players user_id g = true ->
  slot g user_id (move_choice g) = None ->
  ((exists reason, snd r = MoveBlocked reason) <->
     ((move = "suplex" \/ move = "rko")
        /\ ((last = Some "suplex" \/ last = Some "rko")
            \/ slot g user_id (specials_left g) = 0))
     \/ (move = "reversal"
         /\ (last = Some "reversal" \/ slot g user_id (reversals_left g) = 0)))
  /\ (forall reason,
        snd r = MoveBlocked reason ->
        fst r = st
        /\ exists resolved,
            snd (webhook_receiver (fst r) (MoveCallback gid "punch" user_id))
            = MoveRecorded resolved).
Proof.
  intros st last r Hg Hin Hslot.
  assert (Hok : game_ok (user_stats st) g) by apply (game_ok_reachable _ _ _ Hg).
  assert (Hb : 0 <= slot g user_id (specials_left g)
               /\ 0 <= slot g user_id (reversals_left g)).
  { destruct Hok as (_ & _ & _ & _ & _ & [[? ?] [[? ?] [? ?]]] ).
    unfold slot. destruct (user_id =? fst (players g)); lia. }
  destruct Hb as [Hb1 Hb2].
  pose proof (blocked_spec g user_id move Hb1 Hb2) as Hspec. cbv zeta in Hspec.
  fold last in Hspec.
  assert (Hr : r = match blocked g user_id move with
                   | Some reason => (st, MoveBlocked reason)
                   | None => webhook_receiver st (MoveCallback gid move user_id)
                   end).
  { unfold r. cbn [webhook_receiver]. rewrite Hg, Hin, Hslot. cbn [negb is_None].
    now destruct (blocked g user_id move). }
  split.
  - rewrite <- Hspec. rewrite Hr.
    destruct (blocked g user_id move) as [reason|] eqn:Eb.
    + split; intros _; eexists; reflexivity.
    + split; [|intros [? ?]; discriminate].
      intros [reason Hrep]. exfalso.
      rewrite (move_callback_legal st gid g user_id move Hg Hin Hslot Eb) in Hrep.
      cbv zeta in Hrep. destruct (_ && _); discriminate Hrep.
  - intros reason Hrep. rewrite Hr in *.
    destruct (blocked g user_id move) as [reason'|] eqn:Eb.
    + cbn [fst]. split; [reflexivity|].
      assert (Ep : blocked g user_id "punch" = None) by reflexivity.
      rewrite (move_callback_legal st gid g user_id "punch" Hg Hin Hslot Ep).
      cbv zeta. destruct (_ && _); eexists; reflexivity.
    + exfalso.
      rewrite (move_callback_legal st gid g user_id move Hg Hin Hslot Eb) in Hrep.
      cbv zeta in Hrep. destruct (_ && _); discriminate Hrep.
Qed.

(** ** When a round is resolved *)

(** For a legal submission, the resolution runs exactly when both stored
    choices are true values after the move is recorded. *)
Lemma resolution_runs_iff_both_true st gid g user_id move :
  dict_get gid (games st) = Some g ->
  in_players user_id g = true ->
  slot g user_id (move_choice g) = None ->
  blocked g user_id move = None ->
  let g' := record_move g user_id move in
  (exists r, snd (webhook_receiver st (MoveCallback gid move user_id))
             = MoveRecorded (Some r))
  <-> (truthy (fst (move_choice g')) = true /\ truthy (snd (move_choice g')) = true).
Proof.
  intros Hg Hin Hslot Hb g'.
  rewrite (move_callback_legal st gid g user_id move Hg Hin Hslot Hb). cbv zeta.
  fold g'. rewrite <- andb_true_iff.
  destruct (truthy (fst (move_choice g')) && truthy (snd (move_choice g'))); cbn [snd].
  - split; [reflexivity|]. intros _. eexists; reflexivity.
  - split; [intros [r [=]]|discriminate].
Qed.

(** The terminal check of a resolution that starts, in a state of the
    invariant, with both choices true. *)
Lemma resolve_terminal_check gid st g :
  inv st ->
  dict_get gid (games st) = Some g ->
  truthy (fst (move_choice g)) = true ->
  truthy (snd (move_choice g)) = true ->
  let p1 := fst (players g) in
  let p2 := snd (players g) in
  let g1 := settle_round g in
  let us := special_stats g (user_stats st) in
  let r := resolve_turn_sync gid st in
  (fst (hp g1) = 0 /\ snd (hp g1) = 0 ->
     snd r = Draw
     /\ user_stats (fst r) = bump add_draw p2 (bump add_draw p1 us)
     /\ stats_file (fst r) = user_stats (fst r)
     /\ dict_get gid (games (fst r)) = None)
  /\ (fst (hp g1) = 0 /\ snd (hp g1) <> 0 ->
        snd r = Ko p2 p1
        /\ user_stats (fst r) = bump add_loss p1 (bump add_win p2 us)
        /\ stats_file (fst r) = user_stats (fst r)
        /\ dict_get gid (games (fst r)) = None)
  /\ (fst (hp g1) <> 0 /\ snd (hp g1) = 0 ->
        snd r = Ko p1 p2
        /\ user_stats (fst r) = bump add_loss p2 (bump add_win p1 us)
        /\ stats_file (fst r) = user_stats (fst r)
        /\ dict_get gid (games (fst r)) = None)
  /\ (fst (hp g1) <> 0 /\ snd (hp g1) <> 0 ->
        snd r = NextRound
        /\ user_stats (fst r) = us
        /\ stats_file (fst r) = user_stats (fst r)
        /\ dict_get gid (games (fst r)) = Some (clear_choices g1)).
Proof.
  intros Hinv Hg Ht1 Ht2 p1 p2 g1 us r.
  assert (Hok : game_ok (user_stats st) g).
  { destruct Hinv as (_ & Hall & _). apply (dict_get_Forall _ _ _ _ Hall Hg). }
  assert (Hnd : NoDup (map fst (games st))) by apply Hinv.
  assert (Hs : stats_step (user_stats st) us) by apply stats_step_special_stats.
  assert (Hreg : forall w l u0,
             stats_step us u0 ->
             (w = p1 \/ w = p2) ->
             name (stats_of w (bump add_loss l (bump add_win w u0))) <> PyNone).
  { intros w l u0 Hu Hw. apply registered_not_PyNone.
    assert (Hs' : stats_step (user_stats st) (bump add_loss l (bump add_win w u0))).
    { eapply stats_step_trans; [exact Hs|]. eapply stats_step_trans; [exact Hu|].
      eapply stats_step_trans; apply stats_step_bump; now intros []. }
    apply Hs'. destruct Hw as [->| ->]; apply Hok. }
  unfold r. rewrite (resolve_turn_sync_game gid st g Hg). cbv zeta.
  rewrite (truthy_not_raises _ _ Ht1 Ht2). fold g1 us p1 p2.
  destruct (Z.eqb_spec (fst (hp g1)) 0) as [E1|E1];
    destruct (Z.eqb_spec (snd (hp g1)) 0) as [E2|E2]; cbn [andb orb];
    (split; [|split; [|split]]); intros [F1 F2]; try contradiction.
  - cbn [fst snd user_stats stats_file games]. repeat split.
    now apply dict_get_pop_eq.
  - pose proof (Hreg p2 p1 us (stats_step_refl us) (or_intror eq_refl)) as Hw.
    destruct (name _); try contradiction;
      cbn [fst snd user_stats stats_file games]; repeat split;
      now apply dict_get_pop_eq.
  - pose proof (Hreg p1 p2 us (stats_step_refl us) (or_introl eq_refl)) as Hw.
    destruct (name _); try contradiction;
      cbn [fst snd user_stats stats_file games]; repeat split;
      now apply dict_get_pop_eq.
  - cbn [fst snd user_stats stats_file games]. repeat split.
    apply dict_get_set_eq.
Qed.

(** ** Moves outside the table *)

Lemma blocked_base_move g user_id move :
  move <> "suplex" -> move <> "rko" -> move <> "reversal" ->
  blocked g user_id move = None.
Proof.
  intros N1 N2 N3. unfold blocked.
  assert (E1 : is_special (Some move) = false).
  { unfold is_special; cbn [py_eq].
    apply String.eqb_neq in N1. apply String.eqb_neq in N2. now rewrite N1, N2. }
  assert (E2 : py_eq (Some move) "reversal" = false) by now apply String.eqb_neq.
  now rewrite E1, E2.
Qed.

Lemma damage_of_unknown move : dict_get move MOVES = None -> damage_of (Some move) = 0.
Proof. intros H. unfold damage_of. now rewrite H. Qed.

Lemma unknown_not_reversal move :
  dict_get move MOVES = None -> py_eq (Some move) "reversal" = false.
Proof.
  intros H. cbn [py_eq]. apply String.eqb_neq. intros ->. discriminate H.
Qed.

(** C8. In a reachable state, a participant with no choice pending who
    submits a move other than suplex, rko and reversal (any string, the
    seven known names or not) is never blocked: the move is recorded as the
    pending choice, and the resolution, when it runs, ends in a draw, a KO
    or a new round, never in an error.  A move outside the table has damage
    0 and adds 0 to the damage of either player. *)
Theorem C8_any_move_accepted (updates : list event) (gid : string) (g : game)
    (user_id : Z) (move : string) :
  let st := run initial_state updates in
  let r := webhook_receiver st (MoveCallback gid move user_id) in
  let g' := record_move g user_id move in
  let st' := with_games st (dict_set gid g' (games st)) in
  dict_get gid (games st) = Some g ->
  in_players user_id g = true ->
  slot g user_id (move_choice g) = None ->
  move <> "suplex" -> move <> "rko" -> move <> "reversal" ->
  slot g' user_id (move_choice g') = Some move
  /\ dict_get gid (games st') = Some g'
  /\ (r = (st', MoveRecorded None)
      \/ (r = (fst (resolve_turn_sync gid st'),
               MoveRecorded (Some (snd (resolve_turn_sync gid st'))))
          /\ snd (resolve_turn_sync gid st') <> Raised
          /\ snd (resolve_turn_sync gid st') <> NoGame))
  /\ (dict_get move MOVES = None ->
      damage_of (Some move) = 0
      /\ forall m, snd (dmg_to (Some move) m) = 0 /\ fst (dmg_to m (Some move)) = 0).
Proof.
  intros st r g' st' Hg Hin Hslot N1 N2 N3.
  pose proof (blocked_base_move g user_id move N1 N2 N3) as Hb.
  assert (Hg' : dict_get gid (games st') = Some g') by apply dict_get_set_eq.
  split; [apply record_move_slot|]. split; [exact Hg'|]. split.
  - unfold r. rewrite (move_callback_legal st gid g user_id move Hg Hin Hslot Hb).
    cbv zeta. fold g' st'.
    destruct (truthy (fst (move_choice g'))) eqn:T1; cbn [andb]; [|now left].
    destruct (truthy (snd (move_choice g'))) eqn:T2; [|now left].
    right. split; [reflexivity|].
    assert (Hinv' : inv st').
    { destruct (inv_reachable updates) as (Hnd & Hall & Hl & Hn).
      unfold inv, st'; cbn [with_games games user_stats lobbies].
      repeat split; try assumption.
      - now apply dict_set_NoDup.
      - apply dict_set_Forall; [|assumption]. cbn [snd].
        apply record_move_game_ok. apply (dict_get_Forall _ _ _ _ Hall Hg). }
    apply (resolve_turn_sync_inv gid st' g' Hinv' Hg' T1 T2).
  - intros Hun. pose proof (damage_of_unknown move Hun) as Hd.
    pose proof (unknown_not_reversal move Hun) as Hr.
    split; [exact Hd|]. intros m. unfold dmg_to. rewrite Hr, Hd.
    pose proof damage_of_reversal as Hrev.
    destruct (py_eq m "reversal") eqn:Em; cbn [andb negb fst snd];
      [apply py_eq_true in Em; subst m; rewrite ?Hrev|]; split; lia.
Qed.

(** ** Lobby callbacks with a stale host id *)

(** C9. A join or cancel callback whose host id differs from the host of
    the lobby that is open in the arena, whoever presses it, is answered
    "This lobby no longer exists" and removes that lobby; games and
    registry are as before. *)
Theorem C9_stale_lobby_callback (st : state) (action : lobby_action)
    (gid : string) (host_id user_id : Z) (l : lobby) :
  lobbies st !! gid = Some l ->
  host l <> host_id ->
  let r := webhook_receiver st (LobbyCallback action gid host_id user_id) in
  snd r = NoSuchLobby
  /\ lobbies (fst r) !! gid = None
  /\ lobbies (fst r) = delete gid (lobbies st)
  /\ games (fst r) = games st
  /\ user_stats (fst r) = user_stats st.
Proof.
  intros Hl Hh r. unfold r. cbn [webhook_receiver]. rewrite Hl.
  destruct (Z.eqb_spec (host l) host_id) as [|_]; [contradiction|].
  cbn [negb fst snd save_stats with_lobbies lobbies games user_stats].
  repeat split. apply lookup_delete_eq.
Qed.

(** ** Giving up a match *)




Lemma dict_get_of_In {V : Type} (k : string) (v : V) (d : list (string * V)) :
  NoDup (map fst d) -> In (k, v) d -> dict_get k d = Some v.
Proof.
  induction d as [|[k' v'] d IH]; cbn [map fst dict_get In]; [tauto|].
  rewrite NoDup_cons. intros [Hnin Hnd] [E|Hin].
  - injection E as -> ->. now rewrite String.eqb_refl.
  - destruct (String.eqb_spec k k') as [->|_]; [|auto].
    exfalso. apply Hnin. apply list_elem_of_In.
    change k' with (fst (k', v)). now apply in_map.
Qed.

Lemma find_match_first user_id d gid g :
  find_match user_id d = Some (gid, g) ->
  in_players user_id g = true
  /\ exists before after,
       d = (before ++ (gid, g) :: after)%list
       /\ Forall (fun kg => in_players user_id (snd kg) = false) before.
Proof.
  induction d as [|[k v] d IH]; cbn [find_match]; [discriminate|].
  destruct (in_players user_id v) eqn:E.
  - intros [= -> ->]. split; [assumption|]. exists [], d. split; [reflexivity|constructor].
  - intros H. destruct (IH H) as (Hin & before & after & -> & Hall).
    split; [assumption|]. exists ((k, v) :: before), after.
    split; [reflexivity|]. constructor; assumption.
Qed.

Lemma find_match_dict_get user_id d gid g :
  NoDup (map fst d) ->
  find_match user_id d = Some (gid, g) -> dict_get gid d = Some g.
Proof.
  intros Hnd H. destruct (find_match_first _ _ _ _ H) as (_ & before & after & -> & _).
  apply dict_get_of_In; [assumption|]. apply in_or_app. right. now left.
Qed.



(** ** The frame of a forfeit *)


(** ** Registration *)

Lemma name_taken_spec uid nm us :
  name_taken uid nm us = true <->
  exists k info s,
    k <> uid /\ us !! k = Some info /\ name info = Name s /\ s <> []
    /\ lower s = lower nm.
Proof.
  unfold name_taken. rewrite existsb_exists. split.
  - intros [[k info] [Hin Hh]]. apply list_elem_of_In, elem_of_map_to_list in Hin.
    unfold holds_name in Hh. cbn [fst snd] in Hh.
    apply andb_true_iff in Hh as [Hh H3]. apply andb_true_iff in Hh as [H1 H2].
    destruct (name info) as [| |s] eqn:En; cbn [get_name truthy_text] in H2;
      try discriminate.
    exists k, info, s. cbn [get_name] in H3.
    change (default [] (Some s)) with s in H3.
    apply negb_true_iff in H1, H2. apply Z.eqb_neq in H1.
    apply bool_decide_eq_false in H2. apply bool_decide_eq_true in H3. auto.
  - intros (k & info & s & Hk & Hl & Hn & Hs & Hlow).
    exists (k, info). split.
    + apply list_elem_of_In, elem_of_map_to_list. exact Hl.
    + unfold holds_name. cbn [fst snd]. rewrite Hn. cbn [get_name truthy_text].
      change (default [] (Some s)) with s.
      apply Z.eqb_neq in Hk. rewrite Hk.
      rewrite (bool_decide_eq_false_2 _ Hs), (bool_decide_eq_true_2 _ Hlow).
      reflexivity.
Qed.


(** * Further properties of the code *)

(** ** The exchange of a round *)

(** X1. The exchange does not depend on the seat: with the two moves
    swapped, the two damages are swapped. *)
Theorem dmg_to_swap (m1 m2 : option string) :
  dmg_to m2 m1 = (snd (dmg_to m1 m2), fst (dmg_to m1 m2)).
Proof.
  unfold dmg_to.
  destruct (py_eq m1 "reversal"), (py_eq m2 "reversal"); cbn [andb negb fst snd];
    f_equal; lia.
Qed.

Lemma damage_of_le_55 m : damage_of m <= 55.
Proof.
  destruct m as [s|]; [|discriminate]. unfold damage_of, MOVES. cbn [dict_get].
  repeat (destruct (String.eqb s _); [simpl; lia|]).
  simpl. lia.
Qed.

Lemma dmg_to_le_55 m1 m2 : fst (dmg_to m1 m2) <= 55 /\ snd (dmg_to m1 m2) <= 55.
Proof.
  pose proof (damage_of_le_55 m1). pose proof (damage_of_le_55 m2).
  unfold dmg_to.
  destruct (py_eq m1 "reversal") eqn:E1; destruct (py_eq m2 "reversal") eqn:E2;
    cbn [andb negb fst snd];
    try (apply py_eq_true in E1; subst m1); try (apply py_eq_true in E2; subst m2);
    rewrite ?damage_of_reversal; lia.
Qed.

(** X2. Whatever the two choices are, a round never raises the hit points
    of a player and lowers them by at most 55, the largest entry of the
    table; the players of the match stay the same. *)
Theorem settle_round_hit_points (g : game) :
  0 <= fst (hp g) -> 0 <= snd (hp g) ->
  (fst (hp g) - 55 <= fst (hp (settle_round g)) <= fst (hp g))
  /\ (snd (hp g) - 55 <= snd (hp (settle_round g)) <= snd (hp g))
  /\ players (settle_round g) = players g.
Proof.
  intros H1 H2. rewrite settle_round_hp, settle_round_players. cbn [fst snd].
  destruct (dmg_to_nonneg (fst (move_choice g)) (snd (move_choice g))).
  destruct (dmg_to_le_55 (fst (move_choice g)) (snd (move_choice g))).
  repeat split; lia.
Qed.

Lemma settle_round_hit_points_witness :
  30 - 55
  <= fst (hp (settle_round
                {| players := (1, 2); hp := (30, 200);
                   specials_left := (4, 4); reversals_left := (3, 3);
                   last_move := (None, None);
                   move_choice := (Some "punch", Some "rko") |}))
  <= 30.
Proof.
  apply (settle_round_hit_points
           {| players := (1, 2); hp := (30, 200);
              specials_left := (4, 4); reversals_left := (3, 3);
              last_move := (None, None);
              move_choice := (Some "punch", Some "rko") |}); cbn; lia.
Defined.

(** ** Callback data of the move buttons *)

Lemma split_on_nonempty sep s : split_on sep s <> [].
Proof.
  destruct s as [|c s]; cbn [split_on]; [discriminate|].
  destruct (Ascii.eqb c sep); [discriminate|].
  destruct (split_on sep s); discriminate.
Qed.

Lemma split_on_free sep a :
  Forall (fun c => c <> sep) (chars a) -> split_on sep a = [a].
Proof.
  induction a as [|c a IH]; cbn [chars split_on]; [reflexivity|].
  intros H. inversion H as [|? ? Hc Ha]; subst.
  apply Ascii.eqb_neq in Hc. rewrite Hc, (IH Ha). reflexivity.
Qed.

Lemma append_nil_l s : "" +:+ s = s.
Proof. reflexivity. Qed.

Lemma append_cons c a s : String c a +:+ s = String c (a +:+ s).
Proof. reflexivity. Qed.

Lemma split_on_app sep a b :
  Forall (fun c => c <> sep) (chars a) ->
  split_on sep (a +:+ String sep b) = a :: split_on sep b.
Proof.
  induction a as [|c a IH]; cbn [chars]; rewrite ?append_nil_l, ?append_cons;
    cbn [split_on].
  - intros _. now rewrite Ascii.eqb_refl.
  - intros H. inversion H as [|? ? Hc Ha]; subst.
    apply Ascii.eqb_neq in Hc. rewrite Hc, (IH Ha). reflexivity.
Qed.

Lemma split_on_parts_free sep s :
  Forall (fun part => Forall (fun c => c <> sep) (chars part)) (split_on sep s).
Proof.
  induction s as [|c s IH]; cbn [split_on].
  - repeat constructor.
  - destruct (Ascii.eqb_spec c sep) as [->|Hc].
    + constructor; [constructor|assumption].
    + destruct (split_on sep s) as [|h t]; [repeat constructor; assumption|].
      inversion IH; subst. constructor; [|assumption].
      cbn [chars]. constructor; assumption.
Qed.

Lemma join_with_split_on sep s : join_with sep (split_on sep s) = s.
Proof.
  induction s as [|c s IH]; cbn [split_on]; [reflexivity|].
  pose proof (split_on_nonempty sep s) as Hne.
  destruct (Ascii.eqb_spec c sep) as [->|Hc].
  - destruct (split_on sep s) as [|h t]; [contradiction|].
    cbn [join_with]. cbn [join_with] in IH. rewrite append_nil_l. now rewrite IH.
  - destruct (split_on sep s) as [|h t]; [contradiction|].
    destruct t as [|h' t]; cbn [join_with] in *; rewrite ?append_cons; now rewrite IH.
Qed.

Lemma prefix_cons a s1 b s2 :
  String.prefix (String a s1) (String b s2) = true
  <-> a = b /\ String.prefix s1 s2 = true.
Proof.
  cbn [String.prefix]. destruct (ascii_dec a b) as [->|Hne].
  - tauto.
  - split; [discriminate|]. intros [? _]. contradiction.
Qed.

Lemma prefix_nil s : String.prefix "" s = true.
Proof. now destruct s. Qed.

Lemma prefix_move s : String.prefix "move|" ("move|" +:+ s) = true.
Proof.
  rewrite !append_cons, append_nil_l.
  repeat (apply prefix_cons; split; [reflexivity|]). apply prefix_nil.
Qed.

Lemma prefix_move_free x rest :
  Forall (fun c => c <> "|"%char) (chars x) ->
  String.prefix "move|" (x +:+ String "|" rest) = true -> x = "move".
Proof.
  intros Hfree Hp.
  destruct x as [|c1 x]; rewrite ?append_nil_l, ?append_cons in Hp;
    apply prefix_cons in Hp as [E Hp]; [discriminate E|subst c1].
  destruct x as [|c2 x]; rewrite ?append_nil_l, ?append_cons in Hp;
    apply prefix_cons in Hp as [E Hp]; [discriminate E|subst c2].
  destruct x as [|c3 x]; rewrite ?append_nil_l, ?append_cons in Hp;
    apply prefix_cons in Hp as [E Hp]; [discriminate E|subst c3].
  destruct x as [|c4 x]; rewrite ?append_nil_l, ?append_cons in Hp;
    apply prefix_cons in Hp as [E Hp]; [discriminate E|subst c4].
  destruct x as [|c5 x]; [reflexivity|].
  rewrite append_cons in Hp. apply prefix_cons in Hp as [E _]. subst c5.
  exfalso. cbn [chars] in Hfree.
  repeat match goal with
         | H : Forall _ (_ :: _) |- _ => inversion H; clear H; subst
         end.
  congruence.
Qed.

Lemma parse_move_button gid text move :
  Forall (fun c => c <> "|"%char) (chars gid) ->
  Forall (fun c => c <> "|"%char) (chars move) ->
  parse_move_callback (snd (move_button gid text move)) = Some (gid, move).
Proof.
  intros Hg Hm. unfold parse_move_callback, move_button. cbn [snd].
  rewrite prefix_move.
  change ("move|" +:+ gid +:+ "|" +:+ move)
    with ("move" +:+ String "|" (gid +:+ String "|" move)).
  rewrite split_on_app by (repeat constructor; discriminate).
  rewrite (split_on_app _ gid move Hg), (split_on_free _ move Hm). reflexivity.
Qed.

(** X3. The callback data of a move button and the parse of the move
    callback are inverse to each other: for an arena id and a move without
    ["|"], the data [move|<gid>|<move>] is read back as that arena and that
    move; and whatever data the parse accepts has exactly this form, so no
    other data reaches the move logic. *)
Theorem parse_move_callback_round_trip (gid move data : string) :
  (Forall (fun c => c <> "|"%char) (chars gid) ->
   Forall (fun c => c <> "|"%char) (chars move) ->
   forall text,
     parse_move_callback (snd (move_button gid text move)) = Some (gid, move))
  /\ (parse_move_callback data = Some (gid, move) ->
      data = "move|" +:+ gid +:+ "|" +:+ move
      /\ Forall (fun c => c <> "|"%char) (chars gid)
      /\ Forall (fun c => c <> "|"%char) (chars move)).
Proof.
  split.
  - intros Hg Hm text. now apply parse_move_button.
  - unfold parse_move_callback. destruct (String.prefix "move|" data) eqn:Hp;
      [|discriminate].
    pose proof (join_with_split_on "|" data) as Hj.
    pose proof (split_on_parts_free "|" data) as Hf.
    destruct (split_on "|" data) as [|x [|g' [|m' [|? ?]]]]; try discriminate.
    intros [= -> ->]. cbn [join_with] in Hj.
    apply Forall_cons in Hf as [Hx Hf]. apply Forall_cons in Hf as [Hg Hf].
    apply Forall_cons in Hf as [Hm _].
    rewrite <- Hj in Hp. apply (prefix_move_free x _ Hx) in Hp.
    rewrite Hp in Hj. split; [now rewrite <- Hj|]. split; assumption.
Qed.

Lemma parse_move_callback_round_trip_witness :
  parse_move_callback (snd (move_button "-1001" "Kick" "kick")) = Some ("-1001", "kick")
  /\ "move|-1001|kick" = "move|" +:+ "-1001" +:+ "|" +:+ "kick".
Proof.
  destruct (parse_move_callback_round_trip "-1001" "kick" "move|-1001|kick")
    as [H1 H2].
  split.
  - apply H1; repeat constructor; discriminate.
  - apply H2. reflexivity.
Defined.

(** ** The keyboard of a round *)

Lemma offered_moves_eq gid gs :
  Forall (fun c => c <> "|"%char) (chars gid) ->
  offered_moves gid gs
  = (["punch"; "kick"; "slam"; "dropkick"]
       ++ (if match dict_get gid gs with
              | None => true
              | Some g => (0 <? fst (specials_left g)) || (0 <? snd (specials_left g))
              end
           then ["suplex"; "rko"] else [])
       ++ (if match dict_get gid gs with
              | None => true
              | Some g => (0 <? fst (reversals_left g)) || (0 <? snd (reversals_left g))
              end
           then ["reversal"] else []))%list.
Proof.
  intros Hgid.
  assert (Hb : forall text move,
             Forall (fun c => c <> "|"%char) (chars move) ->
             snd <$> parse_move_callback (snd (move_button gid text move)) = Some move).
  { intros text move Hm. now rewrite (parse_move_button gid text move Hgid Hm). }
  unfold offered_moves, build_move_keyboard.
  destruct (dict_get gid gs) as [g|];
    [destruct ((0 <? fst (specials_left g)) || (0 <? snd (specials_left g)));
     destruct ((0 <? fst (reversals_left g)) || (0 <? snd (reversals_left g)))|];
    cbn [app concat omap list_omap];
    rewrite !Hb by (repeat constructor; discriminate); reflexivity.
Qed.

(** X4. The keyboard of an arena with a match, read back through the
    callback parse: punch, kick, slam and dropkick are always offered;
    suplex and rko are offered exactly when one of the two players has a
    special left, reversal exactly when one of them has a reversal left;
    nothing outside the damage table is ever offered.  Without a match all
    seven moves are offered. *)
Theorem keyboard_offers (gid : string) (gs : list (string * game)) :
  Forall (fun c => c <> "|"%char) (chars gid) ->
  (forall m, In m ["punch"; "kick"; "slam"; "dropkick"] -> In m (offered_moves gid gs))
  /\ (forall m, In m (offered_moves gid gs) -> dict_get m MOVES <> None)
  /\ (dict_get gid gs = None ->
      offered_moves gid gs
      = ["punch"; "kick"; "slam"; "dropkick"; "suplex"; "rko"; "reversal"])
  /\ (forall g,
         dict_get gid gs = Some g ->
         (forall m, m = "suplex" \/ m = "rko" ->
                    (In m (offered_moves gid gs)
                     <-> 0 < fst (specials_left g) \/ 0 < snd (specials_left g)))
         /\ (In "reversal" (offered_moves gid gs)
             <-> 0 < fst (reversals_left g) \/ 0 < snd (reversals_left g))).
Proof.
  intros Hgid. rewrite (offered_moves_eq gid gs Hgid).
  split; [|split; [|split]].
  - intros m Hm. apply in_or_app. now left.
  - intros m Hm. apply in_app_or in Hm as [Hm|Hm].
    + cbn [In] in Hm. destruct Hm as [<-|[<-|[<-|[<-|[]]]]]; discriminate.
    + apply in_app_or in Hm as [Hm|Hm].
      * destruct (match dict_get gid gs with None => _ | Some _ => _ end);
          cbn [In] in Hm; [destruct Hm as [<-|[<-|[]]]; discriminate|contradiction].
      * destruct (match dict_get gid gs with None => _ | Some _ => _ end);
          cbn [In] in Hm; [destruct Hm as [<-|[]]; discriminate|contradiction].
  - intros Hg. rewrite Hg. reflexivity.
  - intros g Hg. rewrite Hg. split.
    + intros m Hm.
      rewrite <- !Z.ltb_lt, <- orb_true_iff.
      destruct ((0 <? fst (specials_left g)) || (0 <? snd (specials_left g)));
        destruct ((0 <? fst (reversals_left g)) || (0 <? snd (reversals_left g)));
        cbn [app In]; split; try discriminate; try (intros _; reflexivity);
        try (intros _; destruct Hm as [-> | ->]; tauto);
        intros H; exfalso;
        repeat (destruct H as [H|H]; [destruct Hm; subst; discriminate H|]);
        exact H.
    + rewrite <- !Z.ltb_lt, <- orb_true_iff.
      destruct ((0 <? fst (specials_left g)) || (0 <? snd (specials_left g)));
        destruct ((0 <? fst (reversals_left g)) || (0 <? snd (reversals_left g)));
        cbn [app In]; split; try discriminate; try (intros _; reflexivity);
        try (intros _; tauto);
        intros H; exfalso;
        repeat (destruct H as [H|H]; [discriminate H|]); exact H.
Qed.

(** X5. What the keyboard hides cannot be played, and there is always
    something to play: when the keyboard of a match does not offer a
    special or the reversal, that move is blocked for either player; punch
    is always offered and is blocked for nobody. *)
Theorem hidden_move_is_blocked (gid : string) (gs : list (string * game))
    (g : game) (user_id : Z) (m : string) :
  Forall (fun c => c <> "|"%char) (chars gid) ->
  dict_get gid gs = Some g ->
  (m = "suplex" \/ m = "rko" \/ m = "reversal") ->
  ~ In m (offered_moves gid gs) ->
  (exists reason, blocked g user_id m = Some reason)
  /\ In "punch" (offered_moves gid gs)
  /\ blocked g user_id "punch" = None.
Proof.
  intros Hgid Hg Hm Hnot. rewrite (offered_moves_eq gid gs Hgid), Hg in *.
  split; [|split; [apply in_or_app; left; now left|reflexivity]].
  destruct Hm as [Hm|[Hm|Hm]]; subst m.
  1,2: destruct ((0 <? fst (specials_left g)) || (0 <? snd (specials_left g))) eqn:E;
    [exfalso; apply Hnot; apply in_or_app; right; apply in_or_app; left;
     cbn [In]; tauto|];
    apply orb_false_iff in E as [E1 E2]; apply Z.ltb_ge in E1, E2;
    unfold blocked; cbn [is_special py_eq String.eqb Ascii.eqb Bool.eqb orb];
    destruct (is_special (slot g user_id (last_move g))); [eexists; reflexivity|];
    assert (Hs : (slot g user_id (specials_left g) <=? 0) = true)
      by (apply Z.leb_le; unfold slot; destruct (user_id =? _); lia);
    rewrite Hs; eexists; reflexivity.
  destruct ((0 <? fst (reversals_left g)) || (0 <? snd (reversals_left g))) eqn:E.
  { exfalso. apply Hnot. apply in_or_app. right. apply in_or_app. right.
    cbn [In]. tauto. }
  apply orb_false_iff in E as [E1 E2]. apply Z.ltb_ge in E1, E2.
  unfold blocked. cbn [is_special py_eq String.eqb Ascii.eqb Bool.eqb orb].
  destruct (py_eq (slot g user_id (last_move g)) "reversal"); [eexists; reflexivity|].
  assert (Hs : (slot g user_id (reversals_left g) <=? 0) = true)
    by (apply Z.leb_le; unfold slot; destruct (user_id =? _); lia).
  rewrite Hs. eexists; reflexivity.
Qed.

Lemma hidden_move_is_blocked_witness :
  exists reason,
    blocked {| players := (1, 2); hp := (50, 60);
               specials_left := (0, 0); reversals_left := (1, 0);
               last_move := (Some "punch", Some "kick");
               move_choice := (None, None) |} 2 "rko" = Some reason.
Proof.
  assert (Hgid : Forall (fun c => c <> "|"%char) (chars "g"))
    by (repeat constructor; discriminate).
  refine (proj1 (hidden_move_is_blocked "g"
                   [("g", {| players := (1, 2); hp := (50, 60);
                             specials_left := (0, 0); reversals_left := (1, 0);
                             last_move := (Some "punch", Some "kick");
                             move_choice := (None, None) |})]
                   _ 2 "rko" Hgid eq_refl _ _)).
  - right. left. reflexivity.
  - vm_compute. intros H.
    repeat (destruct H as [H|H]; [discriminate H|]). exact H.
Defined.

(** ** Records only grow *)

Lemma record_grows_refl u : record_grows u u.
Proof. unfold record_grows. repeat split; auto; lia. Qed.

Lemma record_grows_trans u1 u2 u3 :
  record_grows u1 u2 -> record_grows u2 u3 -> record_grows u1 u3.
Proof.
  unfold record_grows. intros (N1 & ?) (N2 & ?).
  split; [|repeat split; lia].
  intros Ht. rewrite <- (N1 Ht). apply N2. now rewrite (N1 Ht).
Qed.

Lemma grows_refl us : grows us us.
Proof. intros k info H. exists info. split; [assumption|apply record_grows_refl]. Qed.

Lemma grows_trans us1 us2 us3 : grows us1 us2 -> grows us2 us3 -> grows us1 us3.
Proof.
  intros H12 H23 k info H. destruct (H12 k info H) as (i2 & E2 & G2).
  destruct (H23 k i2 E2) as (i3 & E3 & G3). exists i3.
  split; [assumption|]. eapply record_grows_trans; eauto.
Qed.

Lemma grows_ensure_user uid us : grows us (ensure_user uid us).
Proof.
  unfold ensure_user. destruct (us !! uid) eqn:E; [apply grows_refl|].
  intros k info H. exists info. split; [|apply record_grows_refl].
  rewrite lookup_insert_ne; [assumption|]. intros ->. congruence.
Qed.

Lemma grows_bump f uid us :
  (forall u, record_grows u (f u)) -> grows us (bump f uid us).
Proof.
  intros Hf k info H. unfold bump, stats_of.
  destruct (decide (k = uid)) as [->|Hne].
  - rewrite lookup_insert_eq, H. cbn. eexists; split; [reflexivity|apply Hf].
  - rewrite lookup_insert_ne by congruence. exists info.
    split; [assumption|apply record_grows_refl].
Qed.

Lemma record_grows_add_win u : record_grows u (add_win u).
Proof. unfold record_grows; cbn. repeat split; auto; lia. Qed.

Lemma record_grows_add_loss u : record_grows u (add_loss u).
Proof. unfold record_grows; cbn. repeat split; auto; lia. Qed.

Lemma record_grows_add_draw u : record_grows u (add_draw u).
Proof. unfold record_grows; cbn. repeat split; auto; lia. Qed.

Lemma record_grows_add_special b u : record_grows u (add_special b u).
Proof. unfold record_grows; cbn. destruct b; repeat split; auto; lia. Qed.

Lemma grows_special_stats g us : grows us (special_stats g us).
Proof.
  unfold special_stats. destruct (players g) as [p1 p2], (move_choice g) as [m1 m2].
  destruct (is_special m1), (is_special m2);
    repeat (eapply grows_trans; [|apply grows_bump, record_grows_add_special]);
    apply grows_refl.
Qed.

Lemma grows_register uid text us :
  truthy_text (get_name (name (stats_of uid us))) = false ->
  grows us (fst (register uid text us)).
Proof.
  intros Hn. unfold register.
  destruct (bool_decide (strip text = [])); [apply grows_refl|].
  destruct (_ <? _)%nat; [apply grows_refl|].
  destruct (name_taken uid (strip text) us); [apply grows_refl|].
  cbn [fst]. intros k info H. destruct (decide (k = uid)) as [->|Hne].
  - rewrite lookup_insert_eq. eexists; split; [reflexivity|].
    unfold stats_of in *. rewrite H in *. cbn in *.
    unfold record_grows; cbn. repeat split; try lia. congruence.
  - rewrite lookup_insert_ne by congruence. exists info.
    split; [assumption|apply record_grows_refl].
Qed.

Lemma grows_win_loss w l us : grows us (bump add_loss l (bump add_win w us)).
Proof.
  eapply grows_trans; apply grows_bump;
    [apply record_grows_add_win|apply record_grows_add_loss].
Qed.

Lemma grows_resolve gid st :
  grows (user_stats st) (user_stats (fst (resolve_turn_sync gid st))).
Proof.
  destruct (dict_get gid (games st)) as [g|] eqn:Hg.
  - rewrite (resolve_turn_sync_game gid st g Hg). cbv zeta.
    pose proof (grows_special_stats g (user_stats st)) as H0.
    repeat match goal with
           | |- context [if ?b then _ else _] => destruct b
           | |- context [match ?n with Missing => _ | PyNone => _ | Name _ => _ end] =>
               destruct n
           end; cbn [fst user_stats]; try exact H0;
      (eapply grows_trans; [exact H0|]);
      first [apply grows_win_loss
            |eapply grows_trans; apply grows_bump, record_grows_add_draw].
  - unfold resolve_turn_sync. rewrite Hg. apply grows_refl.
Qed.

Lemma ensure_user_sync_users uid st :
  user_stats (ensure_user_sync uid st) = ensure_user uid (user_stats st).
Proof.
  unfold ensure_user_sync, ensure_user. now destruct (user_stats st !! uid).
Qed.

Lemma grows_step st e :
  grows (user_stats st) (user_stats (fst (webhook_receiver st e))).
Proof.
  destruct e as [user_id text|chat_id user_id|chat_id user_id
    |action gid host_id user_id|gid move user_id|gid choice user_id|user_id|user_id];
    cbn [webhook_receiver].
  - assert (H0 : grows (user_stats st) (user_stats (ensure_user_sync user_id st))).
    { rewrite ensure_user_sync_users. apply grows_ensure_user. }
    set (st0 := ensure_user_sync user_id st) in *.
    destruct (truthy_text (get_name (name (stats_of user_id (user_stats st0))))) eqn:Ht;
      cbn [negb andb]; [exact H0|].
    destruct (negb (bool_decide (text = [])) && negb (starts_with_slash text));
      [|exact H0].
    pose proof (grows_register user_id text (user_stats st0) Ht) as H1.
    destruct (register user_id text (user_stats st0)) as [us r].
    destruct r; try exact H0. cbn [fst save_stats with_users user_stats] in *.
    eapply grows_trans; eauto.
  - destruct (negb _); [apply grows_refl|].
    destruct (bool_decide _); [apply grows_refl|].
    destruct (bool_decide _); apply grows_refl.
  - destruct (dict_get chat_id (games st)); [|apply grows_refl].
    destruct (negb _); apply grows_refl.
  - destruct (lobbies st !! gid); [|apply grows_refl].
    destruct (negb _); [apply grows_refl|].
    destruct action.
    + destruct (user_id =? host_id); [apply grows_refl|].
      destruct (negb _); apply grows_refl.
    + destruct (negb _); apply grows_refl.
  - destruct (dict_get gid (games st)) as [g|]; [|apply grows_refl].
    destruct (negb _); [apply grows_refl|].
    destruct (negb _); [apply grows_refl|].
    destruct (blocked g user_id move); [apply grows_refl|]. cbv zeta.
    destruct (_ && _); [|apply grows_refl].
    pose proof (grows_resolve gid
                  (with_games st (dict_set gid (record_move g user_id move) (games st))))
      as H.
    destruct (resolve_turn_sync gid _). exact H.
  - destruct (dict_get gid (games st)) as [g|]; [|apply grows_refl].
    destruct (negb _); [apply grows_refl|].
    destruct (String.eqb choice "yes"); [|apply grows_refl].
    apply grows_win_loss.
  - destruct (find_match user_id (games st)) as [[gid g]|]; [|apply grows_refl].
    apply grows_win_loss.
  - apply grows_refl.
Qed.

(** X6. Through any sequence of updates, from any state: a record of the
    registry is never removed, a name that is set is never changed, and no
    counter (wins, losses, draws, specials used, specials successful) ever
    goes down. *)
Theorem registry_grows (st : state) (updates : list event) (k : Z) (info : user) :
  user_stats st !! k = Some info ->
  exists info',
    user_stats (run st updates) !! k = Some info'
    /\ (forall s, name info = Name s -> s <> [] -> name info' = Name s)
    /\ wins info <= wins info' /\ losses info <= losses info'
    /\ draws info <= draws info'
    /\ specials_used info <= specials_used info'
    /\ specials_successful info <= specials_successful info'.
Proof.
  assert (H : grows (user_stats st) (user_stats (run st updates))).
  { revert st. induction updates as [|e rest IH]; intros st; [apply grows_refl|].
    eapply grows_trans; [apply (grows_step st e)|apply IH]. }
  intros Hk. destruct (H k info Hk) as (info' & E & Hn & Hc).
  exists info'. split; [assumption|]. split; [|exact Hc].
  intros s Hs Hne. rewrite <- Hs. apply Hn. rewrite Hs. cbn [get_name truthy_text].
  apply negb_true_iff. now apply bool_decide_eq_false.
Qed.

(** ** Stripped text *)

Lemma lstrip_head t :
  match lstrip t with
  | c :: _ => isspace c = false
  | [] => True
  end.
Proof.
  induction t as [|c t IH]; cbn [lstrip]; [exact I|].
  destruct (isspace c) eqn:E; [exact IH|exact E].
Qed.

Lemma lstrip_fixed s :
  match s with
  | c :: _ => isspace c = false
  | [] => True
  end ->
  lstrip s = s.
Proof. destruct s as [|c s]; cbn [lstrip]; [reflexivity|]. now intros ->. Qed.

Lemma rstrip_head s :
  match s with
  | c :: _ => isspace c = false
  | [] => True
  end ->
  match rstrip s with
  | c :: _ => isspace c = false
  | [] => True
  end.
Proof.
  destruct s as [|c s]; cbn [rstrip]; [auto|]. intros Hc.
  destruct (rstrip s); [now rewrite Hc|assumption].
Qed.

Lemma rstrip_idem s : rstrip (rstrip s) = rstrip s.
Proof.
  induction s as [|c s IH]; cbn [rstrip]; [reflexivity|].
  destruct (rstrip s) as [|c' r] eqn:E.
  - destruct (isspace c) eqn:Ec; cbn [rstrip]; [reflexivity|now rewrite Ec].
  - cbn [rstrip]. cbn [rstrip] in IH.
    destruct (rstrip r) as [|c'' r'] eqn:E'.
    + destruct (isspace c'); [discriminate IH|]. now rewrite IH.
    + now rewrite IH.
Qed.

Lemma strip_idem t : strip (strip t) = strip t.
Proof.
  unfold strip. rewrite (lstrip_fixed (rstrip (lstrip t))).
  - apply rstrip_idem.
  - apply rstrip_head, lstrip_head.
Qed.

(** ** Sums over the registry *)

Lemma total_insert_None (f : user -> Z) (us : gmap Z user) k u :
  us !! k = None -> total f (<[k := u]> us) = f u + total f us.
Proof.
  intros H. unfold total.
  rewrite map_fold_insert_L; [reflexivity| |assumption]. intros; lia.
Qed.

Lemma total_insert_Some (f : user -> Z) (us : gmap Z user) k u old :
  us !! k = Some old -> total f (<[k := u]> us) = f u - f old + total f us.
Proof.
  intros H. rewrite <- insert_delete_eq.
  rewrite total_insert_None by apply lookup_delete_eq.
  unfold total. rewrite (map_fold_delete_L _ _ k old us); [lia| |assumption].
  intros; lia.
Qed.

Lemma total_bump (f : user -> Z) h uid us :
  f empty_user = 0 ->
  total f (bump h uid us) = total f us + f (h (stats_of uid us)) - f (stats_of uid us).
Proof.
  intros H0. unfold bump, stats_of. destruct (us !! uid) as [old|] eqn:E; cbn.
  - rewrite (total_insert_Some f us uid _ old E). lia.
  - rewrite (total_insert_None f us uid _ E). lia.
Qed.

(** ** The registry stays well formed *)

Lemma lookup_bump_name h uid us k info s :
  (forall u, name (h u) = name u) ->
  bump h uid us !! k = Some info -> name info = Name s ->
  exists old, us !! k = Some old /\ name old = Name s.
Proof.
  intros Hh. unfold bump, stats_of. destruct (decide (k = uid)) as [->|Hne].
  - rewrite lookup_insert_eq. intros [= <-]. rewrite Hh.
    destruct (us !! uid) as [old|]; cbn; [eauto|discriminate].
  - rewrite lookup_insert_ne by congruence. eauto.
Qed.

Lemma counters_ok_empty_user : counters_ok empty_user.
Proof. unfold counters_ok; cbn. lia. Qed.

Lemma registry_ok_bump h uid us :
  (forall u, name (h u) = name u) ->
  (forall u, counters_ok u -> counters_ok (h u)) ->
  names_wf us /\ names_unique us
  /\ (forall k info, us !! k = Some info -> counters_ok info) ->
  names_wf (bump h uid us) /\ names_unique (bump h uid us)
  /\ (forall k info, bump h uid us !! k = Some info -> counters_ok info).
Proof.
  intros Hn Hc (Hwf & Hun & Hco). split; [|split].
  - intros k info s Hk Hs.
    destruct (lookup_bump_name h uid us k info s Hn Hk Hs) as (old & Ho & Hos).
    apply (Hwf k old s Ho Hos).
  - intros k1 k2 i1 i2 s1 s2 Hne H1 H2 N1 N2.
    destruct (lookup_bump_name h uid us k1 i1 s1 Hn H1 N1) as (o1 & Ho1 & Hs1).
    destruct (lookup_bump_name h uid us k2 i2 s2 Hn H2 N2) as (o2 & Ho2 & Hs2).
    apply (Hun k1 k2 o1 o2 s1 s2 Hne Ho1 Ho2 Hs1 Hs2).
  - intros k info. unfold bump, stats_of. destruct (decide (k = uid)) as [->|Hne].
    + rewrite lookup_insert_eq. intros [= <-]. apply Hc.
      destruct (us !! uid) as [old|] eqn:E; cbn;
        [apply (Hco uid old E)|apply counters_ok_empty_user].
    + rewrite lookup_insert_ne by congruence. apply Hco.
Qed.

Lemma registry_ok_neutral h uid us :
  (forall u, name (h u) = name u) ->
  (forall u, counters_ok u -> counters_ok (h u)) ->
  (forall u, wins (h u) = wins u /\ losses (h u) = losses u /\ draws (h u) = draws u) ->
  registry_ok us -> registry_ok (bump h uid us).
Proof.
  intros Hn Hc Hsame (Hwf & Hun & Hco & Hbal & Hev).
  destruct (registry_ok_bump h uid us Hn Hc (conj Hwf (conj Hun Hco))) as (A & B & C).
  destruct (Hsame (stats_of uid us)) as (Ew & El & Ed).
  unfold registry_ok. repeat (split; [assumption|]).
  rewrite !total_bump by reflexivity. rewrite Ew, El, Ed. split; [lia|].
  destruct Hev as [n Hev]. exists n. lia.
Qed.

Lemma registry_ok_special_stats g us : registry_ok us -> registry_ok (special_stats g us).
Proof.
  assert (Hb : forall b uid u0, registry_ok u0 -> registry_ok (bump (add_special b) uid u0)).
  { intros b uid u0. apply registry_ok_neutral.
    - now intros [].
    - intros u. unfold counters_ok; cbn. destruct b; lia.
    - now intros []. }
  unfold special_stats. destruct (players g) as [p1 p2], (move_choice g) as [m1 m2].
  destruct (is_special m1), (is_special m2); auto.
Qed.

Lemma registry_ok_win_loss w l us :
  registry_ok us -> registry_ok (bump add_loss l (bump add_win w us)).
Proof.
  intros (Hwf & Hun & Hco & Hbal & Hev).
  assert (Hw := registry_ok_bump add_win w us (fun u => eq_refl)
                  (fun u (H : counters_ok u) =>
                     ltac:(unfold counters_ok in *; cbn; lia))
                  (conj Hwf (conj Hun Hco))).
  destruct (registry_ok_bump add_loss l (bump add_win w us) (fun u => eq_refl)
              (fun u (H : counters_ok u) =>
                 ltac:(unfold counters_ok in *; cbn; lia)) Hw) as (A & B & C).
  unfold registry_ok. repeat (split; [assumption|]).
  rewrite !total_bump by reflexivity. cbn [add_win add_loss wins losses draws].
  split; [lia|]. destruct Hev as [n Hev]. exists n. lia.
Qed.

Lemma registry_ok_draws p1 p2 us :
  registry_ok us -> registry_ok (bump add_draw p2 (bump add_draw p1 us)).
Proof.
  intros (Hwf & Hun & Hco & Hbal & Hev).
  assert (H1 := registry_ok_bump add_draw p1 us (fun u => eq_refl)
                  (fun u (H : counters_ok u) =>
                     ltac:(unfold counters_ok in *; cbn; lia))
                  (conj Hwf (conj Hun Hco))).
  destruct (registry_ok_bump add_draw p2 (bump add_draw p1 us) (fun u => eq_refl)
              (fun u (H : counters_ok u) =>
                 ltac:(unfold counters_ok in *; cbn; lia)) H1) as (A & B & C).
  unfold registry_ok. repeat (split; [assumption|]).
  rewrite !total_bump by reflexivity. cbn [add_draw wins losses draws].
  split; [lia|]. destruct Hev as [n Hev]. exists (n + 1). lia.
Qed.

Lemma registry_ok_ensure_user uid us : registry_ok us -> registry_ok (ensure_user uid us).
Proof.
  intros Hok. unfold ensure_user. destruct (us !! uid) eqn:E; [assumption|].
  destruct Hok as (Hwf & Hun & Hco & Hbal & Hev).
  assert (Hl : forall k info,
             <[uid := new_user]> us !! k = Some info ->
             (k = uid /\ info = new_user) \/ (k <> uid /\ us !! k = Some info)).
  { intros k info. destruct (decide (k = uid)) as [->|Hne].
    - rewrite lookup_insert_eq. intros [= <-]. now left.
    - rewrite lookup_insert_ne by congruence. now right. }
  unfold registry_ok. split; [|split; [|split; [|split]]].
  - intros k info s Hk Hs. destruct (Hl k info Hk) as [[_ ->]|[_ Hk']];
      [discriminate Hs|eauto].
  - intros k1 k2 i1 i2 s1 s2 Hne H1 H2 N1 N2.
    destruct (Hl k1 i1 H1) as [[_ ->]|[_ H1']]; [discriminate N1|].
    destruct (Hl k2 i2 H2) as [[_ ->]|[_ H2']]; [discriminate N2|].
    eauto.
  - intros k info Hk. destruct (Hl k info Hk) as [[_ ->]|[_ Hk']]; [|eauto].
    unfold counters_ok; cbn. lia.
  - rewrite !total_insert_None by assumption. cbn. lia.
  - rewrite total_insert_None by assumption. cbn. exact Hev.
Qed.

Lemma registry_ok_register uid text us :
  registry_ok us -> registry_ok (fst (register uid text us)).
Proof.
  intros Hok. unfold register. cbv zeta. set (nm := strip text).
  case_bool_decide as Hne; [assumption|].
  destruct (Nat.ltb_spec MAX_NAME_LENGTH (length nm)) as [|Hlen]; [assumption|].
  destruct (name_taken uid nm us) eqn:Et; [assumption|]. cbn [fst].
  change (<[uid := set_name nm (stats_of uid us)]> us) with (bump (set_name nm) uid us).
  destruct Hok as (Hwf & Hun & Hco & Hbal & Hev).
  assert (Hfree : forall k info s,
             k <> uid -> us !! k = Some info -> name info = Name s ->
             lower s <> lower nm).
  { intros k info s Hk Hl Hs Hlow.
    assert (name_taken uid nm us = true); [|congruence].
    apply name_taken_spec. exists k, info, s.
    repeat split; try assumption. apply (Hwf k info s Hl Hs). }
  assert (Hl : forall k info,
             bump (set_name nm) uid us !! k = Some info ->
             (k = uid /\ info = set_name nm (stats_of uid us))
             \/ (k <> uid /\ us !! k = Some info)).
  { intros k info. unfold bump. destruct (decide (k = uid)) as [->|Hk].
    - rewrite lookup_insert_eq. intros [= <-]. now left.
    - rewrite lookup_insert_ne by congruence. now right. }
  unfold registry_ok. split; [|split; [|split; [|split]]].
  - intros k info s Hk Hs. destruct (Hl k info Hk) as [[_ ->]|[_ Hk']]; [|eauto].
    cbn in Hs. injection Hs as <-. split; [assumption|]. split; [assumption|].
    apply strip_idem.
  - intros k1 k2 i1 i2 s1 s2 Hk H1 H2 N1 N2.
    destruct (Hl k1 i1 H1) as [[-> ->]|[K1 H1']];
      destruct (Hl k2 i2 H2) as [[-> ->]|[K2 H2']].
    + contradiction.
    + cbn in N1. injection N1 as <-. intros E. symmetry in E.
      apply (Hfree k2 i2 s2 K2 H2' N2 E).
    + cbn in N2. injection N2 as <-. apply (Hfree k1 i1 s1 K1 H1' N1).
    + eauto.
  - intros k info Hk. destruct (Hl k info Hk) as [[_ ->]|[_ Hk']]; [|eauto].
    assert (Hc : counters_ok (stats_of uid us)).
    { unfold stats_of. destruct (us !! uid) as [old|] eqn:E; cbn;
        [apply (Hco uid old E)|apply counters_ok_empty_user]. }
    exact Hc.
  - rewrite !total_bump by reflexivity. cbn [set_name wins losses]. lia.
  - rewrite total_bump by reflexivity. cbn [set_name draws].
    destruct Hev as [n Hev]. exists n. lia.
Qed.

Lemma registry_ok_resolve gid st :
  registry_ok (user_stats st) ->
  registry_ok (user_stats (fst (resolve_turn_sync gid st))).
Proof.
  intros Hok. destruct (dict_get gid (games st)) as [g|] eqn:Hg.
  - rewrite (resolve_turn_sync_game gid st g Hg). cbv zeta.
    pose proof (registry_ok_special_stats g (user_stats st) Hok) as H0.
    repeat match goal with
           | |- context [if ?b then _ else _] => destruct b
           | |- context [match ?n with Missing => _ | PyNone => _ | Name _ => _ end] =>
               destruct n
           end; cbn [fst user_stats]; try exact H0;
      first [now apply registry_ok_win_loss | now apply registry_ok_draws].
  - unfold resolve_turn_sync. now rewrite Hg.
Qed.

Lemma registry_ok_step st e :
  registry_ok (user_stats st) ->
  registry_ok (user_stats (fst (webhook_receiver st e))).
Proof.
  intros Hok.
  assert (Hc : forall gid g user_id,
             registry_ok (user_stats (concede_match gid g user_id st))).
  { intros. unfold concede_match. cbv zeta. cbn [user_stats].
    now apply registry_ok_win_loss. }
  destruct e as [user_id text|chat_id user_id|chat_id user_id
    |action gid host_id user_id|gid move user_id|gid choice user_id|user_id|user_id];
    cbn [webhook_receiver].
  - assert (H0 : registry_ok (user_stats (ensure_user_sync user_id st))).
    { rewrite ensure_user_sync_users. now apply registry_ok_ensure_user. }
    set (st0 := ensure_user_sync user_id st) in *.
    destruct (_ && _); [|exact H0].
    pose proof (registry_ok_register user_id text (user_stats st0) H0) as H1.
    destruct (register user_id text (user_stats st0)) as [us r].
    destruct r; try exact H0. exact H1.
  - destruct (negb _); [assumption|].
    destruct (bool_decide _); [assumption|].
    destruct (bool_decide _); assumption.
  - destruct (dict_get chat_id (games st)); [|assumption].
    destruct (negb _); assumption.
  - destruct (lobbies st !! gid); [|assumption].
    destruct (negb _); [assumption|].
    destruct action.
    + destruct (user_id =? host_id); [assumption|].
      destruct (negb _); assumption.
    + destruct (negb _); assumption.
  - destruct (dict_get gid (games st)) as [g|]; [|assumption].
    destruct (negb _); [assumption|].
    destruct (negb _); [assumption|].
    destruct (blocked g user_id move); [assumption|]. cbv zeta.
    destruct (_ && _); [|assumption].
    pose proof (registry_ok_resolve gid
                  (with_games st (dict_set gid (record_move g user_id move) (games st)))
                  Hok) as H.
    destruct (resolve_turn_sync gid _). exact H.
  - destruct (dict_get gid (games st)) as [g|]; [|assumption].
    destruct (negb _); [assumption|].
    destruct (String.eqb choice "yes"); [apply Hc|assumption].
  - destruct (find_match user_id (games st)) as [[gid g]|]; [apply Hc|assumption].
  - assumption.
Qed.

Lemma registry_ok_reachable updates : registry_ok (user_stats (run initial_state updates)).
Proof.
  assert (H : forall st, registry_ok (user_stats st) ->
                         registry_ok (user_stats (run st updates))).
  { induction updates as [|e rest IH]; intros st Hok; [assumption|].
    apply IH. now apply registry_ok_step. }
  apply H. unfold registry_ok, initial_state; cbn [user_stats].
  split; [|split; [|split; [|split]]].
  - intros k info s. rewrite lookup_empty. discriminate.
  - intros k1 k2 i1 i2 s1 s2 _. rewrite lookup_empty. discriminate.
  - intros k info. rewrite lookup_empty. discriminate.
  - reflexivity.
  - exists 0. reflexivity.
Qed.

(** X7. In every reachable state a stored name is never empty, has at most
    16 characters and carries no white space at either end, and no two
    identities hold names that are equal up to case, that is, after
    [lower()]. *)
Theorem registered_names_distinct (updates : list event) (k1 k2 : Z)
    (info1 info2 : user) (s1 s2 : pystr) :
  let us := user_stats (run initial_state updates) in
  us !! k1 = Some info1 -> name info1 = Name s1 ->
  us !! k2 = Some info2 -> name info2 = Name s2 ->
  (s1 <> [] /\ (length s1 <= 16)%nat /\ strip s1 = s1)
  /\ (k1 <> k2 -> lower s1 <> lower s2).
Proof.
  intros us H1 N1 H2 N2.
  destruct (registry_ok_reachable updates) as (Hwf & Hun & _).
  split; [apply (Hwf k1 info1 s1 H1 N1)|].
  intros Hne. apply (Hun k1 k2 info1 info2 s1 s2 Hne H1 H2 N1 N2).
Qed.

(** X8. In every reachable state the counters of every record are
    non-negative and the successful specials never exceed the specials
    used; over the whole registry the wins add up to the losses, and the
    draws add up to an even number: every settlement books one win
    against one loss, or two draws. *)
Theorem counters_balance (updates : list event) :
  let us := user_stats (run initial_state updates) in
  (forall k info,
      us !! k = Some info ->
      0 <= wins info /\ 0 <= losses info /\ 0 <= draws info
      /\ 0 <= specials_successful info <= specials_used info)
  /\ total wins us = total losses us
  /\ exists n, total draws us = 2 * n.
Proof.
  intros us. destruct (registry_ok_reachable updates) as (_ & _ & Hco & Hbal & Hev).
  split; [|split; assumption]. intros k info Hk. apply (Hco k info Hk).
Qed.

(** ** Pending choices, arenas and the saved registry *)

Lemma dict_get_set_Some {V : Type} (k k0 : string) (v : V) (d : list (string * V)) :
  dict_get k0 d <> None ->
  dict_get k (dict_set k0 v d) <> None -> dict_get k d <> None.
Proof.
  intros Hk0. destruct (String.eqb_spec k k0) as [->|Hne]; [auto|].
  now rewrite dict_get_set_ne.
Qed.

Lemma dict_get_pop_Some {V : Type} (k k0 : string) (d : list (string * V)) :
  dict_get k (dict_pop k0 d) <> None -> dict_get k d <> None.
Proof.
  rewrite !dict_get_None_keys. intros H Hnot. apply H. intros Hin.
  apply Hnot. eapply dict_pop_keys_incl; eauto.
Qed.

Lemma legal_choice_None last sp rv : legal_choice last None sp rv.
Proof. split; discriminate. Qed.

Lemma blocked_None_legal g user_id move :
  blocked g user_id move = None ->
  legal_choice (slot g user_id (last_move g)) (Some move)
               (slot g user_id (specials_left g)) (slot g user_id (reversals_left g)).
Proof.
  unfold blocked, legal_choice.
  pose proof (is_special_move move) as Hm.
  destruct (is_special (Some move)) eqn:Es;
    destruct (py_eq (Some move) "reversal") eqn:Er;
    destruct (is_special (slot g user_id (last_move g)));
    destruct (py_eq (slot g user_id (last_move g)) "reversal");
    destruct (Z.leb_spec (slot g user_id (specials_left g)) 0);
    destruct (Z.leb_spec (slot g user_id (reversals_left g)) 0);
    intros Hb; try discriminate Hb; split; intros Ht; try discriminate Ht;
    split; first [reflexivity | assumption].
Qed.

Lemma record_move_choices_legal g user_id move :
  choices_legal g -> blocked g user_id move = None ->
  choices_legal (record_move g user_id move).
Proof.
  intros [H1 H2] Hb. apply blocked_None_legal in Hb.
  unfold choices_legal, record_move, set_slot, slot in *.
  cbn [last_move move_choice specials_left reversals_left].
  destruct (user_id =? fst (players g)); cbn [fst snd]; split; assumption.
Qed.

Lemma clear_choices_legal g : choices_legal (clear_choices g).
Proof. split; apply legal_choice_None. Qed.

Lemma fresh_game_choices_legal p1 p2 : choices_legal (fresh_game p1 p2).
Proof. split; apply legal_choice_None. Qed.

(** The ways a resolution that does not raise leaves the state. *)
Lemma resolve_not_raised gid st :
  snd (resolve_turn_sync gid st) <> Raised ->
  lobbies (fst (resolve_turn_sync gid st)) = lobbies st
  /\ (stats_file st = user_stats st ->
      stats_file (fst (resolve_turn_sync gid st))
      = user_stats (fst (resolve_turn_sync gid st)))
  /\ (games (fst (resolve_turn_sync gid st)) = games st
      \/ games (fst (resolve_turn_sync gid st)) = dict_pop gid (games st)
      \/ exists g,
           dict_get gid (games st) = Some g
           /\ games (fst (resolve_turn_sync gid st))
              = dict_set gid (clear_choices (settle_round g)) (games st)).
Proof.
  destruct (dict_get gid (games st)) as [g|] eqn:Hg.
  - rewrite (resolve_turn_sync_game gid st g Hg). cbv zeta.
    repeat match goal with
           | |- context [if ?b then _ else _] => destruct b
           | |- context [match ?n with Missing => _ | PyNone => _ | Name _ => _ end] =>
               destruct n
           end; cbn [fst snd lobbies games stats_file user_stats];
      intros Hr; try contradiction; (split; [reflexivity|]);
      (split; [reflexivity|]); eauto.
  - unfold resolve_turn_sync. rewrite Hg. cbn [fst snd]. intros _.
    split; [reflexivity|]. split; [auto|]. now left.
Qed.

Lemma inv2_step st e : inv st -> inv2 st -> inv2 (fst (webhook_receiver st e)).
Proof.
  intros Hinv (Hex & Hch & Hsv & Hreg).
  pose proof (registry_ok_step st e Hreg) as Hreg'.
  unfold inv2. split; [|split; [|split; [|exact Hreg']]]; clear Hreg'.
  - (* no arena with a lobby and a match *)
    destruct e as [user_id text|chat_id user_id|chat_id user_id
      |action gid host_id user_id|gid move user_id|gid choice user_id|user_id|user_id];
      cbn [webhook_receiver].
    + assert (H0 : exclusive (ensure_user_sync user_id st)).
      { unfold ensure_user_sync. now destruct (user_stats st !! user_id). }
      destruct (_ && _); [|exact H0].
      destruct (register user_id text _) as [us r]. destruct r; exact H0.
    + destruct (negb _); [assumption|].
      destruct (bool_decide_reflect (is_Some (dict_get chat_id (games st))))
        as [|Hfree]; [assumption|].
      destruct (bool_decide _); [assumption|].
      intros gid Hg. cbn [fst with_lobbies lobbies games] in *.
      rewrite lookup_insert. case_decide as E; [|now apply Hex].
      subst gid. exfalso. apply Hfree. destruct (dict_get chat_id (games st));
        [eauto|contradiction].
    + destruct (dict_get chat_id (games st)); [|assumption].
      destruct (negb _); assumption.
    + assert (Hdel : exclusive (save_stats (with_lobbies st (delete gid (lobbies st))))).
      { intros k Hk. cbn [save_stats with_lobbies lobbies games] in *.
        rewrite lookup_delete. case_decide; [reflexivity|now apply Hex]. }
      destruct (lobbies st !! gid) as [l|]; [|assumption].
      destruct (negb _); [assumption|].
      destruct action.
      * destruct (user_id =? host_id); [assumption|].
        destruct (negb _); [assumption|].
        intros k Hk. cbn [fst save_stats start_match_sync with_lobbies lobbies games] in *.
        rewrite lookup_delete. case_decide as E; [reflexivity|].
        apply Hex. rewrite dict_get_set_ne in Hk by congruence. exact Hk.
      * destruct (negb _); assumption.
    + destruct (dict_get gid (games st)) as [g|] eqn:Hg; [|assumption].
      destruct (in_players user_id g) eqn:Hin; cbn [negb]; [|assumption].
      destruct (is_None _); cbn [negb]; [|assumption].
      destruct (blocked g user_id move); [assumption|]. cbv zeta.
      set (g' := record_move g user_id move).
      set (st' := with_games st (dict_set gid g' (games st))).
      assert (Hsome : dict_get gid (games st) <> None) by congruence.
      assert (Hex' : exclusive st').
      { intros k Hk. apply Hex. now apply (dict_get_set_Some k gid g'). }
      destruct (truthy (fst (move_choice g'))) eqn:T1; cbn [andb]; [|assumption].
      destruct (truthy (snd (move_choice g'))) eqn:T2; [|assumption].
      assert (Hinv' : inv st').
      { destruct Hinv as (Hnd & Hall & Hl & Hn).
        unfold inv, st'; cbn [with_games games user_stats lobbies].
        repeat split; try assumption.
        - now apply dict_set_NoDup.
        - apply dict_set_Forall; [|assumption]. cbn [snd].
          apply record_move_game_ok. apply (dict_get_Forall _ _ _ _ Hall Hg). }
      assert (Hg' : dict_get gid (games st') = Some g') by apply dict_get_set_eq.
      destruct (resolve_turn_sync_inv gid st' g' Hinv' Hg' T1 T2) as (_ & Hnr & _).
      destruct (resolve_not_raised gid st' Hnr) as (Hlob & _ & Hgames).
      destruct (resolve_turn_sync gid st') as [st'' r]. cbn [fst snd] in *.
      intros k Hk. rewrite Hlob. apply Hex'.
      destruct Hgames as [E|[E|(g0 & Hg0 & E)]]; rewrite E in Hk.
      * exact Hk.
      * now apply dict_get_pop_Some in Hk.
      * apply (dict_get_set_Some k gid (clear_choices (settle_round g0)) (games st'));
          [congruence|exact Hk].
    + destruct (dict_get gid (games st)) as [g|]; [|assumption].
      destruct (negb _); [assumption|].
      destruct (String.eqb choice "yes"); [|assumption].
      intros k Hk. cbn [fst concede_match lobbies games] in *.
      apply Hex. now apply dict_get_pop_Some in Hk.
    + destruct (find_match user_id (games st)) as [[gid g]|]; [|assumption].
      intros k Hk. cbn [fst concede_match lobbies games] in *.
      apply Hex. now apply dict_get_pop_Some in Hk.
    + assumption.
  - (* pending choices are legal *)
    destruct e as [user_id text|chat_id user_id|chat_id user_id
      |action gid host_id user_id|gid move user_id|gid choice user_id|user_id|user_id];
      cbn [webhook_receiver].
    + assert (H0 : games (ensure_user_sync user_id st) = games st).
      { unfold ensure_user_sync. now destruct (user_stats st !! user_id). }
      destruct (_ && _); [|cbn [fst]; now rewrite H0].
      destruct (register user_id text _) as [us r].
      destruct r; cbn [fst save_stats with_users games]; now rewrite H0.
    + destruct (negb _); [assumption|].
      destruct (bool_decide _); [assumption|].
      destruct (bool_decide _); assumption.
    + destruct (dict_get chat_id (games st)); [|assumption].
      destruct (negb _); assumption.
    + destruct (lobbies st !! gid) as [l|]; [|assumption].
      destruct (negb _); [assumption|].
      destruct action.
      * destruct (user_id =? host_id); [assumption|].
        destruct (negb _); [assumption|].
        cbn [fst save_stats start_match_sync with_lobbies games].
        apply dict_set_Forall; [apply fresh_game_choices_legal|assumption].
      * destruct (negb _); assumption.
    + destruct (dict_get gid (games st)) as [g|] eqn:Hg; [|assumption].
      destruct (in_players user_id g) eqn:Hin; cbn [negb]; [|assumption].
      destruct (is_None _); cbn [negb]; [|assumption].
      destruct (blocked g user_id move) eqn:Hb; [assumption|]. cbv zeta.
      set (g' := record_move g user_id move).
      set (st' := with_games st (dict_set gid g' (games st))).
      assert (Hch' : Forall (fun kg => choices_legal (snd kg)) (games st')).
      { apply dict_set_Forall; [|assumption]. cbn [snd].
        apply record_move_choices_legal; [|assumption].
        apply (dict_get_Forall _ _ _ _ Hch Hg). }
      destruct (truthy (fst (move_choice g'))) eqn:T1; cbn [andb]; [|assumption].
      destruct (truthy (snd (move_choice g'))) eqn:T2; [|assumption].
      assert (Hinv' : inv st').
      { destruct Hinv as (Hnd & Hall & Hl & Hn).
        unfold inv, st'; cbn [with_games games user_stats lobbies].
        repeat split; try assumption.
        - now apply dict_set_NoDup.
        - apply dict_set_Forall; [|assumption]. cbn [snd].
          apply record_move_game_ok. apply (dict_get_Forall _ _ _ _ Hall Hg). }
      assert (Hg' : dict_get gid (games st') = Some g') by apply dict_get_set_eq.
      destruct (resolve_turn_sync_inv gid st' g' Hinv' Hg' T1 T2) as (_ & Hnr & _).
      destruct (resolve_not_raised gid st' Hnr) as (_ & _ & Hgames).
      destruct (resolve_turn_sync gid st') as [st'' r]. cbn [fst snd] in *.
      destruct Hgames as [E|[E|(g0 & Hg0 & E)]]; rewrite E.
      * exact Hch'.
      * now apply dict_pop_Forall.
      * apply dict_set_Forall; [apply clear_choices_legal|assumption].
    + destruct (dict_get gid (games st)) as [g|]; [|assumption].
      destruct (negb _); [assumption|].
      destruct (String.eqb choice "yes"); [|assumption].
      cbn [fst concede_match games]. now apply dict_pop_Forall.
    + destruct (find_match user_id (games st)) as [[gid g]|]; [|assumption].
      cbn [fst concede_match games]. now apply dict_pop_Forall.
    + assumption.
  - (* the registry on file is the registry in memory *)
    destruct e as [user_id text|chat_id user_id|chat_id user_id
      |action gid host_id user_id|gid move user_id|gid choice user_id|user_id|user_id];
      cbn [webhook_receiver].
    + assert (H0 : stats_file (ensure_user_sync user_id st)
                   = user_stats (ensure_user_sync user_id st)).
      { unfold ensure_user_sync. now destruct (user_stats st !! user_id). }
      destruct (_ && _); [|exact H0].
      destruct (register user_id text _) as [us r]. destruct r; try exact H0.
      reflexivity.
    + destruct (negb _); [assumption|].
      destruct (bool_decide _); [assumption|].
      destruct (bool_decide _); assumption.
    + destruct (dict_get chat_id (games st)); [|assumption].
      destruct (negb _); assumption.
    + destruct (lobbies st !! gid) as [l|]; [|reflexivity].
      destruct (negb _); [reflexivity|].
      destruct action.
      * destruct (user_id =? host_id); [assumption|].
        destruct (negb _); [assumption|reflexivity].
      * destruct (negb _); [assumption|reflexivity].
    + destruct (dict_get gid (games st)) as [g|] eqn:Hg; [|assumption].
      destruct (in_players user_id g) eqn:Hin; cbn [negb]; [|assumption].
      destruct (is_None _); cbn [negb]; [|assumption].
      destruct (blocked g user_id move) eqn:Hb; [assumption|]. cbv zeta.
      set (g' := record_move g user_id move).
      set (st' := with_games st (dict_set gid g' (games st))).
      destruct (truthy (fst (move_choice g'))) eqn:T1; cbn [andb]; [|assumption].
      destruct (truthy (snd (move_choice g'))) eqn:T2; [|assumption].
      assert (Hinv' : inv st').
      { destruct Hinv as (Hnd & Hall & Hl & Hn).
        unfold inv, st'; cbn [with_games games user_stats lobbies].
        repeat split; try assumption.
        - now apply dict_set_NoDup.
        - apply dict_set_Forall; [|assumption]. cbn [snd].
          apply record_move_game_ok. apply (dict_get_Forall _ _ _ _ Hall Hg). }
      assert (Hg' : dict_get gid (games st') = Some g') by apply dict_get_set_eq.
      destruct (resolve_turn_sync_inv gid st' g' Hinv' Hg' T1 T2) as (_ & Hnr & _).
      destruct (resolve_not_raised gid st' Hnr) as (_ & Hsaved & _).
      destruct (resolve_turn_sync gid st') as [st'' r]. cbn [fst snd] in *.
      apply Hsaved. exact Hsv.
    + destruct (dict_get gid (games st)) as [g|]; [|assumption].
      destruct (negb _); [assumption|].
      destruct (String.eqb choice "yes"); [reflexivity|assumption].
    + destruct (find_match user_id (games st)) as [[gid g]|]; [reflexivity|assumption].
    + assumption.
Qed.

Lemma inv2_reachable updates :
  inv (run initial_state updates) /\ inv2 (run initial_state updates).
Proof.
  assert (H : forall st, inv st -> inv2 st ->
                         inv (run st updates) /\ inv2 (run st updates)).
  { induction updates as [|e rest IH]; intros st Hi H2; [now split|].
    apply IH; [now apply inv_step|now apply inv2_step]. }
  apply H; [apply inv_initial|].
  unfold inv2, initial_state, exclusive; cbn [games lobbies stats_file user_stats].
  split; [|split; [|split]].
  - intros gid Hg. now contradiction Hg.
  - constructor.
  - reflexivity.
  - apply (registry_ok_reachable []).
Qed.

(** X9. In every reachable state an arena never holds a lobby and a match
    at once: where a match is stored no lobby is open, and where a lobby is
    open no match is stored. *)
Theorem arena_lobby_or_match (updates : list event) (gid : string) :
  let st := run initial_state updates in
  (forall g, dict_get gid (games st) = Some g -> lobbies st !! gid = None)
  /\ (forall l, lobbies st !! gid = Some l -> dict_get gid (games st) = None).
Proof.
  intros st. destruct (inv2_reachable updates) as (_ & Hex & _). fold st in Hex.
  split.
  - intros g Hg. apply Hex. congruence.
  - intros l Hl. destruct (dict_get gid (games st)) eqn:E; [|reflexivity].
    rewrite Hex in Hl by congruence. discriminate.
Qed.

(** X10. In every reachable state the registry last written to the stats
    file is the registry in memory: no handler branch returns with a change
    of [user_stats] that was not saved. *)
Theorem registry_is_saved (updates : list event) :
  stats_file (run initial_state updates) = user_stats (run initial_state updates).
Proof. apply (inv2_reachable updates). Qed.

Lemma settle_round_counters g :
  specials_left (settle_round g)
  = (if is_special (fst (move_choice g)) then Z.max 0 (fst (specials_left g) - 1)
     else fst (specials_left g),
     if is_special (snd (move_choice g)) then Z.max 0 (snd (specials_left g) - 1)
     else snd (specials_left g))
  /\ reversals_left (settle_round g)
     = (if py_eq (fst (move_choice g)) "reversal"
        then Z.max 0 (fst (reversals_left g) - 1) else fst (reversals_left g),
        if py_eq (snd (move_choice g)) "reversal"
        then Z.max 0 (snd (reversals_left g) - 1) else snd (reversals_left g))
  /\ last_move (settle_round g) = move_choice g.
Proof. unfold settle_round. now destruct (move_choice g). Qed.


(** X12. In every reachable state a stored match has two different players,
    both registered, and both still standing: a match with a player at 0
    hit points is never kept. *)
Theorem stored_match_is_live (updates : list event) (gid : string) (g : game) :
  let st := run initial_state updates in
  dict_get gid (games st) = Some g ->
  fst (players g) <> snd (players g)
  /\ registered (fst (players g)) (user_stats st) = true
  /\ registered (snd (players g)) (user_stats st) = true
  /\ 0 < fst (hp g) /\ 0 < snd (hp g).
Proof.
  intros st Hg. destruct (inv_reachable updates) as (_ & Hall & _).
  destruct (dict_get_Forall _ _ _ _ Hall Hg) as (H1 & H2 & H3 & [H4 H5] & _).
  repeat split; assumption.
Qed.

(** ** What an update can touch *)

Lemma dict_pop_set {V : Type} (k : string) (v : V) (d : list (string * V)) :
  dict_pop k (dict_set k v d) = dict_pop k d.
Proof.
  induction d as [|[k' v'] d IH]; cbn [dict_set dict_pop].
  - now rewrite String.eqb_refl.
  - destruct (String.eqb k k') eqn:E; cbn [dict_pop]; rewrite E; [reflexivity|].
    now rewrite IH.
Qed.

Lemma dict_set_set {V : Type} (k : string) (v1 v2 : V) (d : list (string * V)) :
  dict_set k v2 (dict_set k v1 d) = dict_set k v2 d.
Proof.
  induction d as [|[k' v'] d IH]; cbn [dict_set].
  - now rewrite String.eqb_refl.
  - destruct (String.eqb k k') eqn:E; cbn [dict_set]; rewrite E; [reflexivity|].
    now rewrite IH.
Qed.

Lemma resolve_lobbies gid st : lobbies (fst (resolve_turn_sync gid st)) = lobbies st.
Proof.
  destruct (dict_get gid (games st)) as [g|] eqn:Hg.
  - rewrite (resolve_turn_sync_game gid st g Hg). cbv zeta.
    repeat match goal with
           | |- context [if ?b then _ else _] => destruct b
           | |- context [match ?n with Missing => _ | PyNone => _ | Name _ => _ end] =>
               destruct n
           end; reflexivity.
  - unfold resolve_turn_sync. now rewrite Hg.
Qed.

Lemma resolve_other_arena gid0 gid st :
  gid <> gid0 ->
  dict_get gid (games (fst (resolve_turn_sync gid0 st))) = dict_get gid (games st).
Proof.
  intros Hne. destruct (dict_get gid0 (games st)) as [g|] eqn:Hg.
  - rewrite (resolve_turn_sync_game gid0 st g Hg). cbv zeta.
    repeat match goal with
           | |- context [if ?b then _ else _] => destruct b
           | |- context [match ?n with Missing => _ | PyNone => _ | Name _ => _ end] =>
               destruct n
           end; cbn [fst games];
      first [now apply dict_get_set_ne | now apply dict_get_pop_ne].
  - unfold resolve_turn_sync. now rewrite Hg.
Qed.

(** The games after a move callback, in a state of the invariant. *)
Lemma move_callback_games st gid move user_id :
  inv st ->
  games (fst (webhook_receiver st (MoveCallback gid move user_id))) = games st
  \/ exists g,
       dict_get gid (games st) = Some g
       /\ in_players user_id g = true
       /\ (games (fst (webhook_receiver st (MoveCallback gid move user_id)))
           = dict_set gid (record_move g user_id move) (games st)
           \/ games (fst (webhook_receiver st (MoveCallback gid move user_id)))
              = dict_pop gid (games st)
           \/ games (fst (webhook_receiver st (MoveCallback gid move user_id)))
              = dict_set gid (clear_choices (settle_round (record_move g user_id move)))
                  (games st)).
Proof.
  intros Hinv. cbn [webhook_receiver].
  destruct (dict_get gid (games st)) as [g|] eqn:Hg; [|now left].
  destruct (in_players user_id g) eqn:Hin; cbn [negb]; [|now left].
  destruct (is_None _); cbn [negb]; [|now left].
  destruct (blocked g user_id move); [now left|]. cbv zeta.
  set (g' := record_move g user_id move).
  set (st' := with_games st (dict_set gid g' (games st))).
  right. exists g. split; [reflexivity|]. split; [exact Hin|].
  destruct (truthy (fst (move_choice g'))) eqn:T1; cbn [andb]; [|now left].
  destruct (truthy (snd (move_choice g'))) eqn:T2; [|now left].
  assert (Hinv' : inv st').
  { destruct Hinv as (Hnd & Hall & Hl & Hn).
    unfold inv, st'; cbn [with_games games user_stats lobbies].
    repeat split; try assumption.
    - now apply dict_set_NoDup.
    - apply dict_set_Forall; [|assumption]. cbn [snd].
      apply record_move_game_ok. apply (dict_get_Forall _ _ _ _ Hall Hg). }
  assert (Hg' : dict_get gid (games st') = Some g') by apply dict_get_set_eq.
  destruct (resolve_turn_sync_inv gid st' g' Hinv' Hg' T1 T2) as (_ & Hnr & _).
  destruct (resolve_not_raised gid st' Hnr) as (_ & _ & Hgames).
  destruct (resolve_turn_sync gid st') as [st'' r]. cbn [fst snd] in *.
  destruct Hgames as [E|[E|(g0 & Hg0 & E)]]; rewrite E;
    unfold st'; cbn [with_games games].
  - now left.
  - right. left. apply dict_pop_set.
  - right. right. rewrite Hg' in Hg0. injection Hg0 as <-. apply dict_set_set.
Qed.

Lemma private_message_games st user_id text :
  games (fst (webhook_receiver st (PrivateMessage user_id text))) = games st
  /\ lobbies (fst (webhook_receiver st (PrivateMessage user_id text))) = lobbies st.
Proof.
  cbn [webhook_receiver].
  assert (H0 : games (ensure_user_sync user_id st) = games st
               /\ lobbies (ensure_user_sync user_id st) = lobbies st).
  { unfold ensure_user_sync. now destruct (user_stats st !! user_id). }
  destruct (_ && _); [|exact H0].
  destruct (register user_id text _) as [us r]. destruct r; exact H0.
Qed.

(** X13. In a reachable state, an update sent by someone who is not one of
    the two players of a match leaves that match exactly as it is, whatever
    the update: a message, a command, a lobby, move or end-of-match
    callback for this or any other arena, a forfeit. *)
Theorem only_players_change_a_match (updates : list event) (e : event)
    (gid : string) (g : game) :
  let st := run initial_state updates in
  dict_get gid (games st) = Some g ->
  in_players (sender e) g = false ->
  dict_get gid (games (fst (webhook_receiver st e))) = Some g.
Proof.
  intros st Hg Hout.
  destruct (inv2_reachable updates) as (Hinv & Hex & _). fold st in Hinv, Hex.
  destruct e as [user_id text|chat_id user_id|chat_id user_id
    |action gid0 host_id user_id|gid0 move user_id|gid0 choice user_id|user_id|user_id];
    cbn [sender] in Hout.
  - now rewrite (proj1 (private_message_games st user_id text)).
  - cbn [webhook_receiver]. destruct (negb _); [assumption|].
    destruct (bool_decide _); [assumption|].
    destruct (bool_decide _); assumption.
  - cbn [webhook_receiver]. destruct (dict_get chat_id (games st)); [|assumption].
    destruct (negb _); assumption.
  - cbn [webhook_receiver]. destruct (lobbies st !! gid0) as [l|] eqn:El; [|assumption].
    destruct (negb _); [assumption|].
    destruct action.
    + destruct (user_id =? host_id); [assumption|].
      destruct (negb _); [assumption|].
      cbn [fst save_stats start_match_sync with_lobbies games].
      rewrite dict_get_set_ne; [assumption|]. intros ->.
      rewrite (Hex gid0) in El by congruence. discriminate.
    + destruct (negb _); assumption.
  - destruct (String.eqb_spec gid gid0) as [->|Hne].
    + cbn [webhook_receiver]. now rewrite Hg, Hout.
    + destruct (move_callback_games st gid0 move user_id Hinv)
        as [E|(g0 & _ & _ & [E|[E|E]])]; rewrite E; try assumption.
      * now rewrite dict_get_set_ne.
      * now rewrite dict_get_pop_ne.
      * now rewrite dict_get_set_ne.
  - cbn [webhook_receiver]. destruct (String.eqb_spec gid gid0) as [->|Hne].
    + now rewrite Hg, Hout.
    + destruct (dict_get gid0 (games st)) as [g0|]; [|assumption].
      destruct (negb _); [assumption|].
      destruct (String.eqb choice "yes"); [|assumption].
      cbn [fst concede_match games]. now rewrite dict_get_pop_ne.
  - cbn [webhook_receiver].
    destruct (find_match user_id (games st)) as [[gid0 g0]|] eqn:Hf; [|assumption].
    cbn [fst concede_match games].
    destruct (String.eqb_spec gid gid0) as [->|Hne]; [|now rewrite dict_get_pop_ne].
    exfalso. pose proof (find_match_first _ _ _ _ Hf) as [Hin _].
    rewrite (find_match_dict_get user_id _ gid0 g0 (proj1 Hinv) Hf) in Hg.
    injection Hg as <-. congruence.
  - assumption.
Qed.

(** X14. Arenas are independent: an update that names an arena (a group
    command, or a lobby, move or end-of-match callback) leaves the match and
    the lobby of every other arena as they are, from any state. *)
Theorem other_arenas_untouched (st : state) (e : event) (gid0 gid : string) :
  arena_of e = Some gid0 ->
  gid <> gid0 ->
  dict_get gid (games (fst (webhook_receiver st e))) = dict_get gid (games st)
  /\ lobbies (fst (webhook_receiver st e)) !! gid = lobbies st !! gid.
Proof.
  intros Ha Hne.
  destruct e as [user_id text|chat_id user_id|chat_id user_id
    |action gid1 host_id user_id|gid1 move user_id|gid1 choice user_id|user_id|user_id];
    cbn [arena_of] in Ha; try discriminate Ha; injection Ha as ->;
    cbn [webhook_receiver].
  - destruct (negb _); [now split|].
    destruct (bool_decide _); [now split|].
    destruct (bool_decide _); [now split|].
    cbn [fst with_lobbies games lobbies]. split; [reflexivity|].
    now rewrite lookup_insert_ne.
  - destruct (dict_get gid0 (games st)); [|now split].
    destruct (negb _); now split.
  - assert (Hdel : delete gid0 (lobbies st) !! gid = lobbies st !! gid)
      by now rewrite lookup_delete_ne.
    destruct (lobbies st !! gid0) as [l|]; [|now split].
    destruct (negb _); [now split|].
    destruct action.
    + destruct (user_id =? host_id); [now split|].
      destruct (negb _); [now split|].
      cbn [fst save_stats start_match_sync with_lobbies games lobbies].
      split; [now apply dict_get_set_ne|assumption].
    + destruct (negb _); now split.
  - destruct (dict_get gid0 (games st)) as [g|]; [|now split].
    destruct (negb _); [now split|].
    destruct (negb _); [now split|].
    destruct (blocked g user_id move); [now split|]. cbv zeta.
    set (st' := with_games st (dict_set gid0 (record_move g user_id move) (games st))).
    assert (H' : dict_get gid (games st') = dict_get gid (games st))
      by now apply dict_get_set_ne.
    destruct (_ && _); [|now split].
    pose proof (resolve_other_arena gid0 gid st' Hne) as Hr.
    pose proof (resolve_lobbies gid0 st') as Hl.
    destruct (resolve_turn_sync gid0 st') as [st'' r]. cbn [fst] in *.
    split; [congruence|now rewrite Hl].
  - destruct (dict_get gid0 (games st)) as [g|]; [|now split].
    destruct (negb _); [now split|].
    destruct (String.eqb choice "yes"); [|now split].
    cbn [fst concede_match games lobbies]. split; [now apply dict_get_pop_ne|reflexivity].
Qed.

Lemma worn_refl g : worn g g.
Proof. unfold worn. repeat split; lia. Qed.

Lemma worn_settle_round g : in_bounds g -> worn g (clear_choices (settle_round g)).
Proof.
  intros [[? ?] [[? ?] [? ?]]]. unfold worn. cbn [clear_choices players hp
    specials_left reversals_left].
  destruct (settle_round_counters g) as (Es & Er & _).
  rewrite settle_round_players, settle_round_hp, Es, Er. cbn [fst snd].
  destruct (dmg_to_nonneg (fst (move_choice g)) (snd (move_choice g))).
  split; [reflexivity|].
  destruct (is_special (fst (move_choice g))), (is_special (snd (move_choice g))),
    (py_eq (fst (move_choice g)) "reversal"), (py_eq (snd (move_choice g)) "reversal");
    repeat split; lia.
Qed.

(** X15. Nothing heals and nothing refills: in a reachable state, if an
    arena holds a match before and after an update, it is the same pair of
    players, and no hit points, specials or reversals of either player are
    above what they were.  In particular one update never ends a match and
    starts another in the same arena. *)
Theorem match_only_wears_down (updates : list event) (e : event)
    (gid : string) (g g' : game) :
  let st := run initial_state updates in
  dict_get gid (games st) = Some g ->
  dict_get gid (games (fst (webhook_receiver st e))) = Some g' ->
  worn g g'.
Proof.
  intros st Hg Hg'.
  destruct (inv2_reachable updates) as (Hinv & Hex & _). fold st in Hinv, Hex.
  assert (Hnd : NoDup (map fst (games st))) by apply Hinv.
  assert (Hb : in_bounds g).
  { destruct Hinv as (_ & Hall & _). apply (dict_get_Forall _ _ _ _ Hall Hg). }
  assert (Hsame : dict_get gid (games (fst (webhook_receiver st e)))
                  = dict_get gid (games st) -> worn g g').
  { intros E. rewrite E, Hg in Hg'. injection Hg' as <-. apply worn_refl. }
  destruct e as [user_id text|chat_id user_id|chat_id user_id
    |action gid0 host_id user_id|gid0 move user_id|gid0 choice user_id|user_id|user_id].
  - apply Hsame. now rewrite (proj1 (private_message_games st user_id text)).
  - apply Hsame. cbn [webhook_receiver]. destruct (negb _); [reflexivity|].
    destruct (bool_decide _); [reflexivity|].
    destruct (bool_decide _); reflexivity.
  - apply Hsame. cbn [webhook_receiver].
    destruct (dict_get chat_id (games st)); [|reflexivity].
    destruct (negb _); reflexivity.
  - apply Hsame. cbn [webhook_receiver].
    destruct (lobbies st !! gid0) as [l|] eqn:El; [|reflexivity].
    destruct (negb _); [reflexivity|].
    destruct action.
    + destruct (user_id =? host_id); [reflexivity|].
      destruct (negb _); [reflexivity|].
      cbn [fst save_stats start_match_sync with_lobbies games].
      apply dict_get_set_ne. intros ->.
      rewrite (Hex gid0) in El by congruence. discriminate.
    + destruct (negb _); reflexivity.
  - destruct (move_callback_games st gid0 move user_id Hinv)
      as [E|(g0 & Hg0 & _ & [E|[E|E]])]; rewrite E in Hg'.
    + apply Hsame. now rewrite E.
    + destruct (String.eqb_spec gid gid0) as [->|Hne].
      * rewrite dict_get_set_eq in Hg'. injection Hg' as <-.
        rewrite Hg in Hg0. injection Hg0 as <-. apply (worn_refl g).
      * rewrite dict_get_set_ne in Hg' by assumption.
        rewrite Hg in Hg'. injection Hg' as <-. apply worn_refl.
    + destruct (String.eqb_spec gid gid0) as [->|Hne].
      * rewrite dict_get_pop_eq in Hg' by assumption. discriminate.
      * rewrite dict_get_pop_ne in Hg' by assumption.
        rewrite Hg in Hg'. injection Hg' as <-. apply worn_refl.
    + destruct (String.eqb_spec gid gid0) as [->|Hne].
      * rewrite dict_get_set_eq in Hg'. injection Hg' as <-.
        rewrite Hg in Hg0. injection Hg0 as <-.
        apply (worn_settle_round (record_move g user_id move)). exact Hb.
      * rewrite dict_get_set_ne in Hg' by assumption.
        rewrite Hg in Hg'. injection Hg' as <-. apply worn_refl.
  - cbn [webhook_receiver] in *.
    destruct (dict_get gid0 (games st)) as [g0|] eqn:Hg0; [|now apply Hsame].
    destruct (negb _); [now apply Hsame|].
    destruct (String.eqb choice "yes"); [|now apply Hsame].
    cbn [fst concede_match games] in Hg'.
    destruct (String.eqb_spec gid gid0) as [->|Hne].
    + rewrite dict_get_pop_eq in Hg' by assumption. discriminate.
    + rewrite dict_get_pop_ne in Hg' by assumption.
      rewrite Hg in Hg'. injection Hg' as <-. apply worn_refl.
  - cbn [webhook_receiver] in *.
    destruct (find_match user_id (games st)) as [[gid0 g0]|]; [|now apply Hsame].
    cbn [fst concede_match games] in Hg'.
    destruct (String.eqb_spec gid gid0) as [->|Hne].
    + rewrite dict_get_pop_eq in Hg' by assumption. discriminate.
    + rewrite dict_get_pop_ne in Hg' by assumption.
      rewrite Hg in Hg'. injection Hg' as <-. apply worn_refl.
  - apply Hsame. reflexivity.
Qed.

Lemma other_arenas_untouched_aux st action gid0 host_id user_id gid :
  gid <> gid0 ->
  dict_get gid (games (fst (webhook_receiver st (LobbyCallback action gid0 host_id user_id))))
  = dict_get gid (games st)
  /\ lobbies (fst (webhook_receiver st (LobbyCallback action gid0 host_id user_id))) !! gid
     = lobbies st !! gid.
Proof.
  intros Hne. cbn [webhook_receiver].
  assert (Hdel : delete gid0 (lobbies st) !! gid = lobbies st !! gid)
    by now rewrite lookup_delete_ne.
  destruct (lobbies st !! gid0) as [l|]; [|now split].
  destruct (negb _); [now split|].
  destruct action.
  - destruct (user_id =? host_id); [now split|].
    destruct (negb _); [now split|].
    cbn [fst save_stats start_match_sync with_lobbies games lobbies].
    split; [now apply dict_get_set_ne|assumption].
  - destruct (negb _); now split.
Qed.

(** X16. A lobby goes away only through a lobby callback for its arena: a
    callback with another host id, the cancel of its host, or the join of
    another registered user.  No other update, and no /startgame in
    particular, removes or replaces an open lobby, from any state. *)
Theorem lobby_closed_only_by_callback (st : state) (e : event) (gid : string)
    (l : lobby) :
  lobbies st !! gid = Some l ->
  lobbies (fst (webhook_receiver st e)) !! gid <> Some l ->
  exists action host_id,
    e = LobbyCallback action gid host_id (sender e)
    /\ (host_id <> host l
        \/ (action = cancel_lobby /\ sender e = host l)
        \/ (action = join /\ sender e <> host l
            /\ registered (sender e) (user_stats st) = true)).
Proof.
  intros Hl Hchg.
  destruct e as [user_id text|chat_id user_id|chat_id user_id
    |action gid0 host_id user_id|gid0 move user_id|gid0 choice user_id|user_id|user_id];
    cbn [sender].
  - exfalso. apply Hchg. now rewrite (proj2 (private_message_games st user_id text)).
  - exfalso. apply Hchg. cbn [webhook_receiver]. destruct (negb _); [assumption|].
    destruct (bool_decide _); [assumption|].
    destruct (bool_decide_reflect (is_Some (lobbies st !! chat_id))) as [|Hfree];
      [assumption|].
    cbn [fst with_lobbies lobbies]. rewrite lookup_insert_ne; [assumption|].
    intros ->. apply Hfree. eauto.
  - exfalso. apply Hchg. cbn [webhook_receiver].
    destruct (dict_get chat_id (games st)); [|assumption].
    destruct (negb _); assumption.
  - destruct (String.eqb_spec gid gid0) as [<-|Hne].
    + exists action, host_id. split; [reflexivity|].
      cbn [webhook_receiver] in Hchg. rewrite Hl in Hchg.
      destruct (Z.eqb_spec (host l) host_id) as [Hh|Hh]; cbn [negb] in Hchg;
        [|left; congruence].
      right. destruct action.
      * right. destruct (Z.eqb_spec user_id host_id) as [Hu|Hu];
          [contradiction|].
        destruct (registered user_id (user_stats st)); cbn [negb] in Hchg;
          [|contradiction].
        repeat split; congruence.
      * left. destruct (Z.eqb_spec user_id host_id) as [Hu|Hu]; cbn [negb] in Hchg;
          [split; congruence|contradiction].
    + exfalso. apply Hchg.
      rewrite (proj2 (other_arenas_untouched_aux st action gid0 host_id user_id gid Hne)).
      assumption.
  - exfalso. apply Hchg. cbn [webhook_receiver].
    destruct (dict_get gid0 (games st)) as [g|]; [|assumption].
    destruct (negb _); [assumption|].
    destruct (negb _); [assumption|].
    destruct (blocked g user_id move); [assumption|]. cbv zeta.
    destruct (_ && _); [|assumption].
    pose proof (resolve_lobbies gid0
                  (with_games st (dict_set gid0 (record_move g user_id move) (games st))))
      as Hr.
    destruct (resolve_turn_sync gid0 _) as [st'' r]. cbn [fst] in *.
    now rewrite Hr.
  - exfalso. apply Hchg. cbn [webhook_receiver].
    destruct (dict_get gid0 (games st)) as [g|]; [|assumption].
    destruct (negb _); [assumption|].
    destruct (String.eqb choice "yes"); assumption.
  - exfalso. apply Hchg. cbn [webhook_receiver].
    destruct (find_match user_id (games st)) as [[gid0 g0]|]; assumption.
  - exfalso. now apply Hchg.
Qed.

Lemma find_match_key user_id d gid g :
  find_match user_id d = Some (gid, g) -> dict_get gid d <> None.
Proof.
  intros H. destruct (find_match_first _ _ _ _ H) as (_ & before & after & -> & _).
  intros Hnone. apply dict_get_None_keys in Hnone. apply Hnone.
  rewrite map_app. apply in_or_app. right. now left.
Qed.

(** X17. A match appears in an arena only through the join of an open
    lobby of that arena by a registered user other than its host, and it
    appears fresh: full hit points, specials and reversals, no last move,
    no choice.  No other update creates a match, from any state. *)
Theorem match_starts_only_by_join (st : state) (e : event) (gid : string)
    (g' : game) :
  dict_get gid (games st) = None ->
  dict_get gid (games (fst (webhook_receiver st e))) = Some g' ->
  exists host_id,
    e = LobbyCallback join gid host_id (sender e)
    /\ lobbies st !! gid = Some {| host := host_id |}
    /\ host_id <> sender e
    /\ registered (sender e) (user_stats st) = true
    /\ g' = fresh_game host_id (sender e).
Proof.
  intros Hno Hnew.
  assert (Hsame : dict_get gid (games (fst (webhook_receiver st e)))
                  = dict_get gid (games st) -> False).
  { intros E. rewrite E, Hno in Hnew. discriminate. }
  destruct e as [user_id text|chat_id user_id|chat_id user_id
    |action gid0 host_id user_id|gid0 move user_id|gid0 choice user_id|user_id|user_id];
    cbn [sender].
  - exfalso. apply Hsame. now rewrite (proj1 (private_message_games st user_id text)).
  - exfalso. apply Hsame. cbn [webhook_receiver]. destruct (negb _); [reflexivity|].
    destruct (bool_decide _); [reflexivity|].
    destruct (bool_decide _); reflexivity.
  - exfalso. apply Hsame. cbn [webhook_receiver].
    destruct (dict_get chat_id (games st)); [|reflexivity].
    destruct (negb _); reflexivity.
  - destruct (String.eqb_spec gid gid0) as [<-|Hne].
    + cbn [webhook_receiver] in Hnew.
      destruct (lobbies st !! gid) as [[h]|] eqn:El;
        [|cbn [fst save_stats with_lobbies games] in Hnew; congruence].
      cbn [host] in Hnew.
      destruct (Z.eqb_spec h host_id) as [->|Hh]; cbn [negb] in Hnew;
        [|cbn [fst save_stats with_lobbies games] in Hnew; congruence].
      destruct action.
      * destruct (Z.eqb_spec user_id host_id) as [Hu|Hu];
          [cbn [fst] in Hnew; congruence|].
        destruct (registered user_id (user_stats st)) eqn:Hreg; cbn [negb] in Hnew;
          [|cbn [fst] in Hnew; congruence].
        cbn [fst save_stats start_match_sync with_lobbies games] in Hnew.
        rewrite dict_get_set_eq in Hnew. injection Hnew as <-.
        exists host_id. repeat split; congruence.
      * exfalso. destruct (negb _); cbn [fst save_stats with_lobbies games] in Hnew;
          congruence.
    + exfalso. apply Hsame.
      apply (other_arenas_untouched_aux st action gid0 host_id user_id gid Hne).
  - exfalso. apply Hsame. cbn [webhook_receiver].
    destruct (dict_get gid0 (games st)) as [g|] eqn:Hg0; [|reflexivity].
    assert (Hne : gid <> gid0) by congruence.
    destruct (negb _); [reflexivity|].
    destruct (negb _); [reflexivity|].
    destruct (blocked g user_id move); [reflexivity|]. cbv zeta.
    set (st' := with_games st (dict_set gid0 (record_move g user_id move) (games st))).
    assert (H' : dict_get gid (games st') = dict_get gid (games st))
      by now apply dict_get_set_ne.
    destruct (_ && _); [|exact H'].
    pose proof (resolve_other_arena gid0 gid st' Hne) as Hr.
    destruct (resolve_turn_sync gid0 st') as [st'' r]. cbn [fst] in *. congruence.
  - exfalso. apply Hsame. cbn [webhook_receiver].
    destruct (dict_get gid0 (games st)) as [g|] eqn:Hg0; [|reflexivity].
    assert (Hne : gid <> gid0) by congruence.
    destruct (negb _); [reflexivity|].
    destruct (String.eqb choice "yes"); [|reflexivity].
    cbn [fst concede_match games]. now apply dict_get_pop_ne.
  - exfalso. apply Hsame. cbn [webhook_receiver].
    destruct (find_match user_id (games st)) as [[gid0 g0]|] eqn:Hf; [|reflexivity].
    pose proof (find_match_key _ _ _ _ Hf) as Hk.
    assert (Hne : gid <> gid0) by congruence.
    cbn [fst concede_match games]. now apply dict_get_pop_ne.
  - exfalso. now apply Hsame.
Qed.

(** X18. Opening and joining compose: from any state, when a registered
    host opens a lobby in an arena that holds neither a lobby nor a match
    and another registered user joins it, the two updates are answered
    "lobby opened" and "match started", the arena then holds the fresh
    match of host and joiner in that order and no lobby, and the registry
    is untouched. *)
Theorem open_then_join (st : state) (chat_id : string) (host_id joiner : Z) :
  registered host_id (user_stats st) = true ->
  registered joiner (user_stats st) = true ->
  host_id <> joiner ->
  dict_get chat_id (games st) = None ->
  lobbies st !! chat_id = None ->
  let updates := [StartGame chat_id host_id;
                  LobbyCallback join chat_id host_id joiner] in
  replies st updates = [LobbyOpened; MatchStarted]
  /\ dict_get chat_id (games (run st updates)) = Some (fresh_game host_id joiner)
  /\ lobbies (run st updates) !! chat_id = None
  /\ user_stats (run st updates) = user_stats st.
Proof.
  intros Hh Hj Hne Hg Hl updates.
  assert (H1 : webhook_receiver st (StartGame chat_id host_id)
               = (with_lobbies st (<[chat_id := {| host := host_id |}]> (lobbies st)),
                  LobbyOpened)).
  { cbn [webhook_receiver]. rewrite Hh. cbn [negb].
    rewrite bool_decide_eq_false_2 by (rewrite Hg; apply is_Some_None).
    rewrite bool_decide_eq_false_2 by (rewrite Hl; apply is_Some_None).
    reflexivity. }
  set (st1 := with_lobbies st (<[chat_id := {| host := host_id |}]> (lobbies st))) in *.
  assert (H2 : webhook_receiver st1 (LobbyCallback join chat_id host_id joiner)
               = (save_stats
                    (start_match_sync chat_id host_id joiner
                       (with_lobbies st1 (delete chat_id (lobbies st1)))),
                  MatchStarted)).
  { cbn [webhook_receiver]. unfold st1 at 1. cbn [with_lobbies lobbies].
    rewrite lookup_insert_eq. cbn [host]. rewrite Z.eqb_refl. cbn [negb].
    destruct (Z.eqb_spec joiner host_id) as [E|_]; [congruence|].
    unfold st1 at 1. cbn [with_lobbies user_stats]. rewrite Hj. reflexivity. }
  unfold updates, run. cbn [replies fold_left]. rewrite H1. cbn [fst snd]. rewrite H2.
  cbn [fst snd save_stats start_match_sync with_lobbies games lobbies user_stats].
  split; [reflexivity|]. split; [apply dict_get_set_eq|].
  split; [apply lookup_delete_eq|reflexivity].
Qed.

(** ** Whose record an update can change *)

Lemma bump_lookup_ne f uid us k : k <> uid -> bump f uid us !! k = us !! k.
Proof. intros H. unfold bump. now rewrite lookup_insert_ne. Qed.

Lemma not_in_players k g :
  in_players k g = false -> k <> fst (players g) /\ k <> snd (players g).
Proof.
  unfold in_players. rewrite orb_false_iff, !Z.eqb_neq. tauto.
Qed.

Lemma special_stats_lookup g us k :
  in_players k g = false -> special_stats g us !! k = us !! k.
Proof.
  intros H. apply not_in_players in H as [H1 H2].
  unfold special_stats. destruct (players g) as [p1 p2], (move_choice g) as [m1 m2].
  cbn [fst snd] in *.
  destruct (is_special m1), (is_special m2); rewrite ?bump_lookup_ne by assumption;
    reflexivity.
Qed.

Lemma resolve_users_lookup gid st g k :
  dict_get gid (games st) = Some g ->
  in_players k g = false ->
  user_stats (fst (resolve_turn_sync gid st)) !! k = user_stats st !! k.
Proof.
  intros Hg Hk. rewrite (resolve_turn_sync_game gid st g Hg). cbv zeta.
  pose proof (special_stats_lookup g (user_stats st) k Hk) as H0.
  apply not_in_players in Hk as [H1 H2].
  repeat match goal with
         | |- context [if ?b then _ else _] => destruct b
         | |- context [match ?n with Missing => _ | PyNone => _ | Name _ => _ end] =>
             destruct n
         end; cbn [fst user_stats]; rewrite ?bump_lookup_ne by assumption; exact H0.
Qed.

Lemma opponent_in_players g user_id :
  in_players user_id g = true -> in_players (opponent g user_id) g = true.
Proof.
  intros Hin. apply in_players_cases in Hin. unfold opponent.
  destruct (Z.eqb_spec (fst (players g)) user_id);
    [apply in_players_snd|apply in_players_fst].
Qed.

(** X19. Whatever the state, an update changes no record of the registry
    other than the sender's own and those of the two players of a stored
    match the sender plays in: registration writes only the sender's
    record, and a settlement writes only the records of the match it
    settles. *)
Theorem registry_frame (st : state) (e : event) (k : Z) :
  user_stats (fst (webhook_receiver st e)) !! k <> user_stats st !! k ->
  k = sender e
  \/ exists gid g,
       In (gid, g) (games st)
       /\ in_players (sender e) g = true
       /\ in_players k g = true.
Proof.
  intros Hchg.
  assert (Hcon : forall gid g user_id,
             In (gid, g) (games st) ->
             in_players user_id g = true ->
             user_stats (concede_match gid g user_id st) !! k <> user_stats st !! k ->
             exists gid g,
               In (gid, g) (games st)
               /\ in_players user_id g = true /\ in_players k g = true).
  { intros gid g user_id Hg Hin Hc. exists gid, g. split; [assumption|].
    split; [assumption|].
    destruct (in_players k g) eqn:Hk; [reflexivity|]. exfalso. apply Hc.
    unfold concede_match. cbv zeta. cbn [user_stats].
    pose proof (opponent_in_players g user_id Hin) as Ho.
    rewrite !bump_lookup_ne; [reflexivity| |]; intros ->; congruence. }
  destruct e as [user_id text|chat_id user_id|chat_id user_id
    |action gid host_id user_id|gid move user_id|gid choice user_id|user_id|user_id];
    cbn [sender].
  - destruct (decide (k = user_id)) as [|Hne]; [now left|]. exfalso. apply Hchg.
    cbn [webhook_receiver].
    assert (H0 : user_stats (ensure_user_sync user_id st) !! k = user_stats st !! k).
    { rewrite ensure_user_sync_users. unfold ensure_user.
      destruct (user_stats st !! user_id); [reflexivity|].
      now rewrite lookup_insert_ne. }
    set (st0 := ensure_user_sync user_id st) in *.
    destruct (_ && _); [|exact H0].
    unfold register. cbv zeta. destruct (bool_decide (strip text = [])); [exact H0|].
    destruct (_ <? _)%nat; [exact H0|].
    destruct (name_taken _ _ _); [exact H0|].
    cbn [fst save_stats with_users user_stats].
    rewrite lookup_insert_ne by congruence. exact H0.
  - exfalso. apply Hchg. cbn [webhook_receiver]. destruct (negb _); [reflexivity|].
    destruct (bool_decide _); [reflexivity|].
    destruct (bool_decide _); reflexivity.
  - exfalso. apply Hchg. cbn [webhook_receiver].
    destruct (dict_get chat_id (games st)); [|reflexivity].
    destruct (negb _); reflexivity.
  - exfalso. apply Hchg. cbn [webhook_receiver].
    destruct (lobbies st !! gid); [|reflexivity].
    destruct (negb _); [reflexivity|].
    destruct action.
    + destruct (user_id =? host_id); [reflexivity|].
      destruct (negb _); reflexivity.
    + destruct (negb _); reflexivity.
  - cbn [webhook_receiver] in Hchg.
    destruct (dict_get gid (games st)) as [g|] eqn:Hg; [|now contradiction Hchg].
    destruct (in_players user_id g) eqn:Hin; cbn [negb] in Hchg;
      [|now contradiction Hchg].
    right. exists gid, g. split; [now apply dict_get_In|]. split; [assumption|].
    destruct (in_players k g) eqn:Hk; [reflexivity|]. exfalso. apply Hchg.
    destruct (negb _); [reflexivity|].
    destruct (blocked g user_id move); [reflexivity|]. cbv zeta.
    set (g' := record_move g user_id move).
    set (st' := with_games st (dict_set gid g' (games st))).
    destruct (_ && _); [|reflexivity].
    pose proof (resolve_users_lookup gid st' g' k (dict_get_set_eq _ _ _) Hk) as Hr.
    destruct (resolve_turn_sync gid st') as [st'' r]. exact Hr.
  - cbn [webhook_receiver] in Hchg.
    destruct (dict_get gid (games st)) as [g|] eqn:Hg; [|now contradiction Hchg].
    destruct (in_players user_id g) eqn:Hin; cbn [negb] in Hchg;
      [|now contradiction Hchg].
    destruct (String.eqb choice "yes"); [|now contradiction Hchg].
    right. apply (Hcon gid g user_id (dict_get_In _ _ _ Hg) Hin Hchg).
  - cbn [webhook_receiver] in Hchg.
    destruct (find_match user_id (games st)) as [[gid g]|] eqn:Hf;
      [|now contradiction Hchg].
    destruct (find_match_first _ _ _ _ Hf) as (Hin & before & after & Eg & _).
    right. apply (Hcon gid g user_id); [|assumption|exact Hchg].
    rewrite Eg. apply in_or_app. right. now left.
  - exfalso. now apply Hchg.
Qed.

End Handler.

(** * The examples

    The handler on concrete updates, with [example_runtime] for the two
    tables of the runtime. *)

#[local] Existing Instance example_runtime.

Lemma C6_medium_heavy_round_witness :
  dict_get "g"
    (games (run initial_state
              (two_players ++ [MoveCallback "g" "kick" 1; MoveCallback "g" "slam" 2])))
  = Some {| players := (1, 2); hp := (175, 185);
            specials_left := (4, 4); reversals_left := (3, 3);
            last_move := (Some "kick", Some "slam");
            move_choice := (None, None) |}.
Proof.
  assert (Hne : (1 : Z) <> 2) by discriminate.
  assert (Hg : dict_get "g" (games (run initial_state two_players))
               = Some (fresh_game 1 2)) by reflexivity.
  exact (proj1 (proj2 (C6_medium_heavy_round (run initial_state two_players)
                         "g" 1 2 Hne Hg))).
Defined.

(** C6, as the claim words it: the same round does not end at (185, 175)
    for (player one, player two). *)
Lemma C6_counterexample :
  ~ (exists g,
        dict_get "g"
          (games (run initial_state
                    (two_players
                       ++ [MoveCallback "g" "kick" 1; MoveCallback "g" "slam" 2])))
        = Some g
        /\ hp g = (185, 175)).
Proof.
  intros [g [Hg Hhp]]. vm_compute in Hg. injection Hg as <-. discriminate Hhp.
Qed.

Lemma C2_resource_bounds_witness :
  (0 <= 145 <= 200 /\ 0 <= 200 <= 200)
  /\ (0 <= 3 <= 4 /\ 0 <= 4 <= 4)
  /\ (0 <= 3 <= 3 /\ 0 <= 2 <= 3).
Proof.
  apply (proj2 (proj2 C2_resource_bounds)
           (two_players ++ [MoveCallback "g" "rko" 1; MoveCallback "g" "reversal" 2])%list
           "g"
           {| players := (1, 2); hp := (145, 200);
              specials_left := (3, 4); reversals_left := (3, 2);
              last_move := (Some "rko", Some "reversal");
              move_choice := (None, None) |}).
  reflexivity.
Defined.

Lemma C3_move_blocked_witness :
  exists reason,
    snd (webhook_receiver (run initial_state after_rko_reversal)
           (MoveCallback "g" "suplex" 1))
    = MoveBlocked reason.
Proof.
  assert (Hg : dict_get "g" (games (run initial_state after_rko_reversal))
               = Some {| players := (1, 2); hp := (145, 200);
                         specials_left := (3, 4); reversals_left := (3, 2);
                         last_move := (Some "rko", Some "reversal");
                         move_choice := (None, None) |}) by reflexivity.
  apply (proj1 (C3_move_blocked after_rko_reversal "g" _ 1 "suplex"
                  Hg eq_refl eq_refl)).
  left. split; [left; reflexivity|]. left. right. reflexivity.
Defined.

(** C4 (the code at the failing input). In a fresh match player 1 sends
    the callback [move|g|] (the empty move) and player 2 sends punch.  Both
    moves are recorded and both choices are present, but no resolution
    runs: the check before [resolve_turn_sync] takes the empty string for
    no choice, while the check for a pending choice takes it for one, so
    each further submission is answered [AlreadyChosen] and the round
    stays open. *)
Theorem C4_empty_move_never_resolves :
  let st := run initial_state two_players in
  let r1 := webhook_receiver st (MoveCallback "g" "" 1) in
  let r2 := webhook_receiver (fst r1) (MoveCallback "g" "punch" 2) in
  snd r1 = MoveRecorded None
  /\ snd r2 = MoveRecorded None
  /\ dict_get "g" (games (fst r2))
     = Some {| players := (1, 2); hp := (200, 200);
               specials_left := (4, 4); reversals_left := (3, 3);
               last_move := (None, None);
               move_choice := (Some "", Some "punch") |}
  /\ snd (webhook_receiver (fst r2) (MoveCallback "g" "punch" 1)) = AlreadyChosen
  /\ snd (webhook_receiver (fst r2) (MoveCallback "g" "kick" 2)) = AlreadyChosen.
Proof. vm_compute. repeat split. Qed.

Lemma C8_any_move_accepted_witness :
  slot (record_move (fresh_game 1 2) 1 "chokeslam") 1
       (move_choice (record_move (fresh_game 1 2) 1 "chokeslam"))
  = Some "chokeslam"
  /\ damage_of (Some "chokeslam") = 0.
Proof.
  assert (Hg : dict_get "g" (games (run initial_state two_players))
               = Some (fresh_game 1 2)) by reflexivity.
  assert (N1 : "chokeslam" <> "suplex") by discriminate.
  assert (N2 : "chokeslam" <> "rko") by discriminate.
  assert (N3 : "chokeslam" <> "reversal") by discriminate.
  destruct (C8_any_move_accepted two_players "g" (fresh_game 1 2) 1 "chokeslam"
              Hg eq_refl eq_refl N1 N2 N3) as (H1 & _ & _ & H4).
  split; [exact H1|]. apply H4. reflexivity.
Defined.

Lemma C9_stale_lobby_callback_witness :
  lobbies (fst (webhook_receiver
                  (run initial_state
                     [PrivateMessage 1 (pystr_of "Rocky"); PrivateMessage 2 (pystr_of "Apollo");
                      StartGame "g" 1])
                  (LobbyCallback join "g" 7 2))) !! "g" = None.
Proof.
  apply (C9_stale_lobby_callback
           (run initial_state
              [PrivateMessage 1 (pystr_of "Rocky"); PrivateMessage 2 (pystr_of "Apollo"); StartGame "g" 1])
           join "g" 7 2 {| host := 1 |}).
  - reflexivity.
  - discriminate.
Defined.


(** A confirmed forfeit of a player who sits in two matches ends the first
    of them only: the match in arena ["h"] is still there. *)
Lemma forfeit_leaves_second_match :
  let st := run initial_state two_arenas in
  in_players 1 (fresh_game 3 1) = true
  /\ dict_get "h" (games st) = Some (fresh_game 3 1)
  /\ dict_get "h" (games (fst (webhook_receiver st (ForfeitYes 1))))
     = Some (fresh_game 3 1).
Proof. vm_compute. repeat split. Qed.




(** C7, as the claim words it: identity 1 holds a name of sixteen capital
    dotted I (U+0130), and identity 2 asks for the text of sixteen small i
    each followed by the combining dot (U+0069 U+0307), which is the first
    name after [lower()].  Another identity holds the requested name up to
    case, and the answer is [NameInvalid], not [NameTaken]: the text has 32
    characters, and the length is checked first. *)
Lemma C7_counterexample :
  let st := run initial_state
              [PrivateMessage 1 capital_dotted] in
  let nm := strip small_dotted in
  (exists info,
      (1 : Z) <> 2 /\ user_stats st !! 1 = Some info
      /\ name info = Name capital_dotted /\ capital_dotted <> []
      /\ lower capital_dotted = lower nm)
  /\ register 2 small_dotted (user_stats st)
     = (user_stats st, NameInvalid)
  /\ replies initial_state
       [PrivateMessage 1 capital_dotted; PrivateMessage 2 small_dotted]
     = [Registered capital_dotted; NameInvalid].
Proof.
  split; [|split; reflexivity].
  exists {| name := Name capital_dotted; wins := 0; losses := 0; draws := 0;
            specials_used := 0; specials_successful := 0 |}.
  repeat split; try discriminate; reflexivity.
Qed.

Lemma keyboard_offers_witness :
  In "suplex" (offered_moves "g" (games (run initial_state two_players)))
  <-> 0 < 4 \/ 0 < 4.
Proof.
  assert (Hgid : Forall (fun c => c <> "|"%char) (chars "g"))
    by (repeat constructor; discriminate).
  destruct (keyboard_offers "g" (games (run initial_state two_players)) Hgid)
    as (_ & _ & _ & H).
  apply (proj1 (H (fresh_game 1 2) eq_refl) "suplex"). now left.
Defined.

Lemma registry_grows_witness :
  exists info',
    user_stats (run (run initial_state two_players)
                  [PrivateMessage 1 (pystr_of "Creed"); ConfirmEnd "g" "yes" 2]) !! 1
    = Some info'
    /\ name info' = Name (pystr_of "Rocky").
Proof.
  assert (Hk : user_stats (run initial_state two_players) !! 1
               = Some {| name := Name (pystr_of "Rocky");
                         wins := 0; losses := 0; draws := 0;
                         specials_used := 0; specials_successful := 0 |})
    by reflexivity.
  destruct (registry_grows (run initial_state two_players)
              [PrivateMessage 1 (pystr_of "Creed"); ConfirmEnd "g" "yes" 2] 1 _ Hk)
    as (info' & E & Hn & _).
  exists info'. split; [exact E|]. apply Hn; [reflexivity|discriminate].
Defined.

Lemma registered_names_distinct_witness :
  lower (pystr_of "Rocky") <> lower (pystr_of "Apollo").
Proof.
  refine (proj2 (registered_names_distinct two_players 1 2
                   {| name := Name (pystr_of "Rocky"); wins := 0; losses := 0; draws := 0;
                      specials_used := 0; specials_successful := 0 |}
                   {| name := Name (pystr_of "Apollo"); wins := 0; losses := 0; draws := 0;
                      specials_used := 0; specials_successful := 0 |}
                   (pystr_of "Rocky") (pystr_of "Apollo")
                   eq_refl eq_refl eq_refl eq_refl) _).
  discriminate.
Defined.

Lemma counters_balance_witness :
  total wins (user_stats (run initial_state
                            (two_players ++ [ConfirmEnd "g" "yes" 1])%list))
  = 1
  /\ total losses (user_stats (run initial_state
                                 (two_players ++ [ConfirmEnd "g" "yes" 1])%list))
     = 1.
Proof.
  destruct (counters_balance (two_players ++ [ConfirmEnd "g" "yes" 1])%list)
    as (_ & Hbal & _).
  split; [reflexivity|]. rewrite <- Hbal. reflexivity.
Defined.

Lemma arena_lobby_or_match_witness :
  lobbies (run initial_state two_players) !! "g" = None.
Proof.
  apply (proj1 (arena_lobby_or_match two_players "g") (fresh_game 1 2)).
  reflexivity.
Defined.


Lemma stored_match_is_live_witness : 0 < 145 /\ 0 < 200.
Proof.
  assert (Hg : dict_get "g" (games (run initial_state after_rko_reversal))
               = Some {| players := (1, 2); hp := (145, 200);
                         specials_left := (3, 4); reversals_left := (3, 2);
                         last_move := (Some "rko", Some "reversal");
                         move_choice := (None, None) |}) by reflexivity.
  exact (proj2 (proj2 (proj2 (stored_match_is_live after_rko_reversal "g" _ Hg)))).
Defined.

Lemma only_players_change_a_match_witness :
  dict_get "g" (games (fst (webhook_receiver (run initial_state two_arenas)
                              (ConfirmEnd "g" "yes" 3))))
  = Some (fresh_game 1 2).
Proof.
  apply (only_players_change_a_match two_arenas (ConfirmEnd "g" "yes" 3) "g"
           (fresh_game 1 2)); reflexivity.
Defined.

Lemma other_arenas_untouched_witness :
  dict_get "h" (games (fst (webhook_receiver (run initial_state two_arenas)
                              (ConfirmEnd "g" "yes" 1))))
  = Some (fresh_game 3 1).
Proof.
  assert (Hne : "h" <> "g") by discriminate.
  rewrite (proj1 (other_arenas_untouched (run initial_state two_arenas)
                    (ConfirmEnd "g" "yes" 1) "g" "h" eq_refl Hne)).
  reflexivity.
Defined.

Lemma match_only_wears_down_witness :
  worn {| players := (1, 2); hp := (200, 200);
          specials_left := (4, 4); reversals_left := (3, 3);
          last_move := (None, None);
          move_choice := (Some "rko", None) |}
       {| players := (1, 2); hp := (145, 200);
          specials_left := (3, 4); reversals_left := (3, 2);
          last_move := (Some "rko", Some "reversal");
          move_choice := (None, None) |}.
Proof.
  apply (match_only_wears_down (two_players ++ [MoveCallback "g" "rko" 1])%list
           (MoveCallback "g" "reversal" 2) "g"); reflexivity.
Defined.

Lemma lobby_closed_only_by_callback_witness :
  exists action host_id,
    LobbyCallback cancel_lobby "g" 1 1 = LobbyCallback action "g" host_id 1
    /\ (host_id <> 1
        \/ (action = cancel_lobby /\ 1 = 1)
        \/ (action = join /\ 1 <> 1
            /\ registered 1 (user_stats (run initial_state lobby_open)) = true)).
Proof.
  apply (lobby_closed_only_by_callback (run initial_state lobby_open)
           (LobbyCallback cancel_lobby "g" 1 1) "g" {| host := 1 |}).
  - reflexivity.
  - vm_compute. discriminate.
Defined.

Lemma match_starts_only_by_join_witness :
  exists host_id,
    LobbyCallback join "g" 1 2 = LobbyCallback join "g" host_id 2
    /\ lobbies (run initial_state lobby_open) !! "g" = Some {| host := host_id |}
    /\ host_id <> 2
    /\ registered 2 (user_stats (run initial_state lobby_open)) = true
    /\ fresh_game 1 2 = fresh_game host_id 2.
Proof.
  apply (match_starts_only_by_join (run initial_state lobby_open)
           (LobbyCallback join "g" 1 2) "g" (fresh_game 1 2)); reflexivity.
Defined.

Lemma open_then_join_witness :
  dict_get "ring"
    (games (run (run initial_state two_players)
              [StartGame "ring" 2; LobbyCallback join "ring" 2 1]))
  = Some (fresh_game 2 1).
Proof.
  assert (Hne : (2 : Z) <> 1) by discriminate.
  exact (proj1 (proj2 (open_then_join (run initial_state two_players) "ring" 2 1
                         eq_refl eq_refl Hne eq_refl eq_refl))).
Defined.

Lemma registry_frame_witness :
  3 = 1
  \/ exists gid g,
       In (gid, g) (games (run initial_state two_arenas))
       /\ in_players 1 g = true
       /\ in_players 3 g = true.
Proof.
  apply (registry_frame (run initial_state two_arenas) (ConfirmEnd "h" "yes" 1) 3).
  vm_compute. discriminate.
Defined.
